(* ===== verification/_CoqProject ===== *)
-Q . S2P
Prelude.v
Bits.v
Format.v
Gfmt.v
OpTable.v
Disasm.v
Occupancy.v
Walk.v
State.v
Formats.v
