(* ===== verification/Prelude.v ===== *)
(** * A verification library for the output module of the RISC-V simulator

    The repository (ATP-1010/Riscv) ships one C file, [src/output.c].  It is
    the display layer of a pipelined RISC-V simulator and has three parts:

    - [printInstruction] (output.c 133-221), the disassembler: it resolves an
      instruction word through the three-level decode table [op_table]
      (opcode, then func3, then func7) and prints the mnemonic with an
      operand layout chosen by the functional-unit group, the operation
      and the data type of the descriptor it reaches;
    - [print_fu_group_int] and [print_fu_group_fp] (output.c 83-129), the
      occupancy report: they walk the linked list of functional units of a
      group (through [next]) and, inside each unit, the linked list of its
      pipeline stages (through [prev], from the stage nearest completion),
      and print one line per busy stage ([current_cycle != -1]), calling
      [printInstruction] on the stage's instruction;
    - [print_state] (output.c 20-79), the machine dump that calls both.

    The headers [fu.h], [pipeline.h] and [output.h] are not part of the
    sources: the decode table, the [FIELD_*] macros, the [NOP] word and
    the struct layouts are modelled from the specification and marked
    [spec_modelled] in the manifest.  [printf] is the C library's; the
    conversions the module uses are modelled in [Format] and [Gfmt] from
    the C standard's description of them.

    ** Files, in dependency order

    - [Prelude] (this file): the [outcome] monad used for every C routine
      that can hit undefined behaviour ([Fault]: an array index out of
      range, a dangling pointer) or loop for ever ([OutOfFuel]), its
      notation in [riscv_scope], C array indexing [arr_get], lemmas on
      strings and on disjoint bit fields, and the hint database [riscv].
    - [Bits]: a 32-bit instruction word as a [Z] and the field extractors
      [FIELD_OPCODE], [FIELD_RD], [FIELD_FUNC3], [FIELD_RS1], [FIELD_RS2],
      [FIELD_FUNC7], [FIELD_IMM_I], [FIELD_IMM_S], [FIELD_OFFSET], with
      their bounds, and the encoders of the R/I/S/J formats with the
      round trips field (encode ...) = operand.
    - [Format]: the [printf] conversions the module uses ([%s], [%d],
      [%.nX], [%%]) as an interpreter [sprintf] of the literal format
      strings of output.c; round trips of [%d] and [%.8X].
    - [Gfmt]: the [%-10.6g] conversion of a binary64 value ([spec_float]):
      exact rounding to six significant digits, ties to even, style [e]
      or [f], trailing zeros removed, padding to width 10.
    - [OpTable]: [op_info_t], its enumerations, the three table levels,
      the abstract decode traversal [decode_op] of the spec (section 4.1),
      which is the specification [printInstruction] refines (it is not
      a translation of code),
      the well-formedness of a table (128/8/128 entries) and the concrete
      RV32IMF table [rv32_op_table] used by the witnesses.
    - [Disasm]: [printInstruction] as the code writes it (three nested
      table reads, one rendering per level), and its theorems.
    - [Occupancy]: the heap of functional units and stages, the two
      report loops with fuel, and their refinement to a list-level
      specification [occupancy]; [prev_step], the [stage->prev] step,
      whose closures [rtc]/[tc] state that a stage list loops back.
    - [Walk]: the same two loops as a small-step machine over the C
      locals (unit pointer, [j], stage pointer) and the text printed so
      far, with an executable step function [step_fn].
    - [State]: [print_state] as a sequence of its printf blocks (memory,
      integer and floating-point registers, pc, IF/ID, the four
      functional-unit groups through [Occupancy], write-back), over a
      record [state_t] of the fields it reads; the memory and register
      loops with fuel equal to their iteration counts.
    - [Formats]: the floating-point register dump of [State] with
      [Gfmt.fmt_g] for [%-10.6g], on an example of thirty-two doubles.

    ** Plan and theorems (by group)

    - Bits: bounds of every field; encode/extract round trips.
    - Format: [%d] and [%.8X] are injective (parse after print).
    - OpTable/Disasm: the printed text factors as table traversal then
      rendering (refinement to [decode_op]); the NOP word prints "NOP";
      well-formed tables never read out of range, so [printInstruction]
      is total; the consulted levels follow the table (depth); the
      mnemonic and layout depend only on opcode/func3/func7; the
      operand layout of every row of the code; the spec's end-to-end
      examples, and where the code's text differs from the spec's.
    - Occupancy: a linked chain walked with enough fuel terminates and
      prints exactly the records of the list-level specification, in
      chain order, busy stages only, with increasing stage index and
      bounded counters; a stage list that reaches a cycle makes the
      loop run for ever (the report is [OutOfFuel] for every fuel).
    - Walk: on an acyclic chain every reachable configuration of the
      machine satisfies the loop invariant (the text so far is the report
      of the stages visited, [j] counts them), and the machine, which has
      no fuel, halts with the occupancy report and no other text.
    - State: the memory dump prints sixteen bytes a row headed by the
      row's address, and faults exactly when [num_memory] exceeds the
      memory; the register dumps print four registers a line and fault
      exactly when a file has fewer than [NUMREGS] entries; the memory
      dump determines the bytes; [print_state] is total under these
      bounds and prints exactly [state_text], block by block
      (refinement), where the write-back line omits empty (zero) slots
      and prints both busy slots on one line.
    - Gfmt/Formats (lemmas, not claims): [%-10.6g] rounds correctly to
      six significant digits and takes 10 to 13 characters on every
      binary64 value, so the float register dump does too.

    Fuel: the loops of [print_fu_group_*] follow pointers; the model
    gives each loop a fuel bound and returns [OutOfFuel] when it is
    exhausted.  The termination theorems show that fuel equal to the
    length of the chain ([chain_fuel]) is enough, so no result depends
    on the bound.  The [for] loops of [print_state] count up to
    [num_memory] or [NUMREGS]; their fuel is that count, which the
    theorems show is never exhausted.  [print_state] returns its whole
    text or [Fault]: the text the C function prints before undefined
    behaviour is not kept.  The word [instr] is an unbounded [Z]; every
    use of it goes through its bit fields or is printed modulo [2^32],
    and the [NOP] test compares it as a value, which agrees with C for
    words in the range of [int].

    The [%-10.6g] model is checked against glibc's output on twenty-two
    doubles ([Gfmt.fmt_g_examples]), zeros, subnormals, the largest
    double, ties, carries into a new decade and NaN among them.

    Not modelled: the simulator that builds and advances the pipeline,
    its register file and memory (not in src/; output.c only reads
    them); the contents of the decode table [op_table] and the value of
    [NOP], which [fu.h] defines and the sources do not include (every
    theorem on [printInstruction] holds for any table and any [NOP], and
    [rv32_op_table] is one table built from the spec, so the component
    is partly modelled); and the sign of a NaN ([spec_float] has none; glibc prints
    [-nan] for a negative NaN). *)

From Stdlib Require Import ZArith List String Lia Bool.
Import ListNotations.
Open Scope Z_scope.

(** ** Outcomes of C routines *)

(** [Fault] is undefined behaviour (an array read out of range, a
    dangling pointer); [OutOfFuel] is a loop that did not finish within
    the fuel of the model. *)
Inductive outcome (A : Type) : Type :=
| Done (a : A)
| Fault
| OutOfFuel.
Arguments Done {A} a.
Arguments Fault {A}.
Arguments OutOfFuel {A}.

Definition obind {A B : Type} (m : outcome A) (k : A -> outcome B) : outcome B :=
  match m with
  | Done a => k a
  | Fault => Fault
  | OutOfFuel => OutOfFuel
  end.

Declare Scope riscv_scope.
Delimit Scope riscv_scope with rv.
Notation "x <- m ;; k" := (obind m (fun x => k))
  (at level 62, m at next level, right associativity) : riscv_scope.
Open Scope riscv_scope.

(** Reading [a[i]] of a C array of [length a] elements. *)
Definition arr_get {A : Type} (a : list A) (i : Z) : outcome A :=
  if (0 <=? i) && (i <? Z.of_nat (List.length a)) then
    match nth_error a (Z.to_nat i) with
    | Some x => Done x
    | None => Fault
    end
  else Fault.

(** ** Lemmas on outcomes *)

Lemma obind_Done {A B} (a : A) (k : A -> outcome B) : obind (Done a) k = k a.
Proof. reflexivity. Qed.

Lemma obind_assoc {A B C} (m : outcome A) (k : A -> outcome B) (k' : B -> outcome C) :
  obind (obind m k) k' = obind m (fun a => obind (k a) k').
Proof. destruct m; reflexivity. Qed.

Lemma obind_eq_Done {A B} (m : outcome A) (k : A -> outcome B) (b : B) :
  obind m k = Done b <-> exists a, m = Done a /\ k a = Done b.
Proof.
  destruct m; simpl; split; intros H; try discriminate; eauto.
  - destruct H as (a' & [= ->] & H); exact H.
  - destruct H as (? & ? & _); discriminate.
  - destruct H as (? & ? & _); discriminate.
Qed.

Lemma arr_get_nth {A} (a : list A) (i : Z) :
  0 <= i < Z.of_nat (List.length a) ->
  exists x, arr_get a i = Done x /\ nth_error a (Z.to_nat i) = Some x.
Proof.
  intros Hi. unfold arr_get.
  replace ((0 <=? i) && (i <? Z.of_nat (List.length a))) with true
    by (symmetry; apply andb_true_intro; split; [apply Z.leb_le | apply Z.ltb_lt]; lia).
  destruct (nth_error a (Z.to_nat i)) eqn:E; eauto.
  apply nth_error_None in E. lia.
Qed.

Lemma arr_get_Done {A} (a : list A) (i : Z) (x : A) :
  arr_get a i = Done x -> 0 <= i < Z.of_nat (List.length a) /\ nth_error a (Z.to_nat i) = Some x.
Proof.
  unfold arr_get. destruct ((0 <=? i) && (i <? Z.of_nat (List.length a))) eqn:E; [|discriminate].
  apply andb_true_iff in E as [E1 E2]. apply Z.leb_le in E1. apply Z.ltb_lt in E2.
  destruct (nth_error a (Z.to_nat i)); [intros [= ->]; auto | discriminate].
Qed.

(** ** Lists *)

Lemma skipn_nth_error_cons {A} (l : list A) (k : nat) (x : A) :
  nth_error l k = Some x -> skipn k l = x :: skipn (S k) l.
Proof.
  revert l; induction k as [|k IH]; intros [|y l] H; try discriminate.
  - now injection H as ->.
  - exact (IH l H).
Qed.

(** ** Strings *)

Lemma sappend_assoc (s1 s2 s3 : string) : ((s1 ++ s2) ++ s3 = s1 ++ (s2 ++ s3))%string.
Proof. induction s1 as [|c s IH]; simpl; [reflexivity | now rewrite IH]. Qed.

Lemma sappend_nil_r (s : string) : (s ++ "")%string = s.
Proof. induction s as [|c s IH]; simpl; [reflexivity | now rewrite IH]. Qed.

Lemma slength_append (s1 s2 : string) :
  String.length (s1 ++ s2) = (String.length s1 + String.length s2)%nat.
Proof. induction s1 as [|c s IH]; simpl; [reflexivity | now rewrite IH]. Qed.

Lemma sappend_cancel_l (p a b : string) : (p ++ a = p ++ b)%string -> a = b.
Proof. induction p as [|c p IH]; simpl; [auto | intros H; injection H; auto]. Qed.

(** Two concatenations with prefixes of the same length split alike. *)
Lemma sappend_inj_len (a1 a2 x1 x2 : string) :
  String.length a1 = String.length a2 -> (a1 ++ x1 = a2 ++ x2)%string -> a1 = a2 /\ x1 = x2.
Proof.
  revert a2; induction a1 as [|c a1 IH]; intros [|c' a2] Hl H; simpl in *; try discriminate; auto.
  injection H as -> H. destruct (IH a2 ltac:(lia) H) as [-> ->]. auto.
Qed.

Lemma sappend_cancel_r (a b t : string) : (a ++ t = b ++ t)%string -> a = b.
Proof.
  intros H. assert (Hl : String.length a = String.length b).
  { apply (f_equal String.length) in H. rewrite !slength_append in H. lia. }
  exact (proj1 (sappend_inj_len a b t t Hl H)).
Qed.

(** ** Disjoint bit fields *)

Lemma land_ones_range (a n : Z) : 0 <= n -> 0 <= Z.land a (Z.ones n) < 2 ^ n.
Proof.
  intros Hn. rewrite Z.land_ones by exact Hn.
  apply Z.mod_pos_bound. apply Z.pow_pos_nonneg; lia.
Qed.

(** [hi << k | lo] is [hi * 2^k + lo] when [lo] fits in [k] bits. *)
Lemma lor_shiftl_add (hi lo k : Z) :
  0 <= k -> 0 <= lo < 2 ^ k -> Z.lor (Z.shiftl hi k) lo = hi * 2 ^ k + lo.
Proof.
  intros Hk Hlo.
  assert (Hd : Z.land (Z.shiftl hi k) lo = 0).
  { apply Z.bits_inj'. intros i Hi. rewrite Z.land_spec, Z.bits_0.
    destruct (Z.ltb_spec i k) as [Hik | Hik].
    - rewrite Z.shiftl_spec_low by lia. reflexivity.
    - destruct (Z.eq_dec lo 0) as [-> | Hnz]; [now rewrite Z.bits_0, andb_false_r |].
      assert (Hl : Z.log2 lo < k) by (apply Z.log2_lt_pow2; lia).
      rewrite (Z.bits_above_log2 lo i) by lia. now rewrite andb_false_r. }
  rewrite <- Z.lxor_lor by exact Hd. rewrite <- Z.add_nocarry_lxor by exact Hd.
  rewrite Z.shiftl_mul_pow2 by exact Hk. reflexivity.
Qed.

Create HintDb riscv discriminated.
Create Rewrite HintDb riscv_rw.
#[export] Hint Rewrite @obind_Done @obind_assoc sappend_assoc sappend_nil_r : riscv_rw.
#[export] Hint Resolve land_ones_range : riscv.

(** Evaluate the outcome binds of a goal and the string concatenations. *)
Ltac outcome_simpl := repeat (autorewrite with riscv_rw in *; simpl in *).
