(* ===== verification/Bits.v ===== *)
(** * Bit fields of a 32-bit RISC-V instruction word

    The [FIELD_*] macros that [printInstruction] (src/output.c) applies to
    its [int instr] come from the header [fu.h], which is not part of the
    sources: they are modelled from the spec (section 6, standard RV32
    positions).  A word is the unsigned 32-bit pattern of the C [int], a
    [Z] in [0, 2^32); the signed immediates are sign-extended the way an
    arithmetic right shift of the C [int] does.

    The encoders [encode_R], [encode_I], [encode_S], [encode_J] build
    words from operands (as an assembler would) and are used to state the
    round trips and, in [Disasm], the rendering of whole instruction
    classes. *)

From Stdlib Require Import ZArith List Lia.
From S2P Require Import Prelude.
Import ListNotations.
Open Scope Z_scope.

(** ** The extractors *)

(** [len] bits of [instr] from bit [lo]: [(instr >> lo) & ((1<<len)-1)]. *)
Definition field (instr lo len : Z) : Z := Z.land (Z.shiftr instr lo) (Z.ones len).
Arguments field : simpl never.

(** Two's-complement reading of a [bits]-bit pattern. *)
Definition sign_extend (bits v : Z) : Z :=
  if v <? 2 ^ (bits - 1) then v else v - 2 ^ bits.

Definition FIELD_OPCODE (instr : Z) : Z := field instr 0 7.
Definition FIELD_RD (instr : Z) : Z := field instr 7 5.
Definition FIELD_FUNC3 (instr : Z) : Z := field instr 12 3.
Definition FIELD_RS1 (instr : Z) : Z := field instr 15 5.
Definition FIELD_RS2 (instr : Z) : Z := field instr 20 5.
Definition FIELD_FUNC7 (instr : Z) : Z := field instr 25 7.

(** I-type immediate: [instr[31:20]], sign-extended. *)
Definition FIELD_IMM_I (instr : Z) : Z := sign_extend 12 (field instr 20 12).

(** S-type immediate: [instr[31:25] :: instr[11:7]], sign-extended. *)
Definition FIELD_IMM_S (instr : Z) : Z :=
  sign_extend 12 (Z.lor (Z.shiftl (field instr 25 7) 5) (field instr 7 5)).

(** J-type offset: [imm[20|10:1|11|19:12]] in [instr[31:12]], sign-extended. *)
Definition FIELD_OFFSET (instr : Z) : Z :=
  sign_extend 21
    (Z.lor (Z.shiftl (field instr 31 1) 20)
      (Z.lor (Z.shiftl (field instr 12 8) 12)
        (Z.lor (Z.shiftl (field instr 20 1) 11)
               (Z.shiftl (field instr 21 10) 1)))).

(** ** Encoders *)

(** Fields listed from bit 0 upwards as (width, value). *)
Fixpoint pack (fs : list (Z * Z)) : Z :=
  match fs with
  | [] => 0
  | (n, v) :: fs' => v + 2 ^ n * pack fs'
  end.

Fixpoint widths (fs : list (Z * Z)) : Z :=
  match fs with
  | [] => 0
  | (n, _) :: fs' => n + widths fs'
  end.

Definition fits (fs : list (Z * Z)) : Prop :=
  Forall (fun p => 0 <= fst p /\ 0 <= snd p < 2 ^ fst p) fs.

Definition encode_R (opcode rd func3 rs1 rs2 func7 : Z) : Z :=
  pack [(7, opcode); (5, rd); (3, func3); (5, rs1); (5, rs2); (7, func7)].

Definition encode_I (opcode rd func3 rs1 imm : Z) : Z :=
  pack [(7, opcode); (5, rd); (3, func3); (5, rs1); (12, imm mod 2 ^ 12)].

Definition encode_S (opcode func3 rs1 rs2 imm : Z) : Z :=
  let u := imm mod 2 ^ 12 in
  pack [(7, opcode); (5, u mod 32); (3, func3); (5, rs1); (5, rs2); (7, u / 32)].

Definition encode_J (opcode rd off : Z) : Z :=
  let u := off mod 2 ^ 21 in
  pack [(7, opcode); (5, rd); (8, (u / 2 ^ 12) mod 2 ^ 8); (1, (u / 2 ^ 11) mod 2);
        (10, (u / 2) mod 2 ^ 10); (1, u / 2 ^ 20)].

(** B-type (branch) words: [imm[12|10:5]] in bits 31:25 and [imm[4:1|11]]
    in bits 11:7, i.e. the S-type slots filled with a branch offset. *)
Definition encode_B (opcode func3 rs1 rs2 off : Z) : Z :=
  let u := off mod 2 ^ 13 in
  pack [(7, opcode); (5, ((u / 2) mod 16) * 2 + (u / 2 ^ 11) mod 2); (3, func3);
        (5, rs1); (5, rs2); (7, (u / 2 ^ 12) * 64 + (u / 2 ^ 5) mod 64)].

(** ** Arithmetic reading of fields and packs *)

Lemma field_div_mod (x lo len : Z) :
  0 <= lo -> 0 <= len -> field x lo len = (x / 2 ^ lo) mod 2 ^ len.
Proof.
  intros Hlo Hlen. unfold field.
  rewrite Z.land_ones by exact Hlen. rewrite Z.shiftr_div_pow2 by exact Hlo. reflexivity.
Qed.

Lemma field_range (x lo len : Z) : 0 <= len -> 0 <= field x lo len < 2 ^ len.
Proof. intros Hlen. apply land_ones_range, Hlen. Qed.

Lemma widths_nonneg (fs : list (Z * Z)) : fits fs -> 0 <= widths fs.
Proof.
  induction 1 as [|[n v] fs [Hn _] _ IH]; simpl in *; lia.
Qed.

Lemma pack_range (fs : list (Z * Z)) : fits fs -> 0 <= pack fs < 2 ^ widths fs.
Proof.
  induction 1 as [|[n v] fs [Hn Hv] Hfs IH]; simpl in *; [lia |].
  pose proof (widths_nonneg fs Hfs).
  rewrite Z.pow_add_r by lia.
  assert (0 < 2 ^ n) by (apply Z.pow_pos_nonneg; lia).
  nia.
Qed.

Lemma pack_div (pre post : list (Z * Z)) :
  fits pre -> pack (pre ++ post) / 2 ^ widths pre = pack post.
Proof.
  induction 1 as [|[n v] pre [Hn Hv] Hpre IH]; simpl in *.
  - apply Z.div_1_r.
  - pose proof (widths_nonneg pre Hpre).
    rewrite Z.pow_add_r, <- Z.div_div by (try apply Z.pow_nonzero; try apply Z.pow_pos_nonneg; lia).
    rewrite Z.mul_comm, Z.div_add by (apply Z.pow_nonzero; lia).
    rewrite (Z.div_small v) by lia. exact IH.
Qed.

Lemma field_pack_nth (fs : list (Z * Z)) (k : nat) (lo n v : Z) :
  fits fs -> nth_error fs k = Some (n, v) -> lo = widths (firstn k fs) ->
  field (pack fs) lo n = v.
Proof.
  intros Hfs Hk ->.
  destruct (nth_error_split fs k Hk) as (pre & post & Heq & Hlen). subst fs k.
  rewrite firstn_app, Nat.sub_diag, firstn_all, firstn_O, app_nil_r.
  apply Forall_app in Hfs as [Hpre Hp].
  assert (Hnv : 0 <= n /\ 0 <= v < 2 ^ n) by (inversion Hp; subst; auto).
  rewrite field_div_mod by (try apply widths_nonneg; tauto).
  rewrite pack_div by exact Hpre. simpl.
  rewrite Z.mul_comm, Z.mod_add by (apply Z.pow_nonzero; lia).
  apply Z.mod_small; lia.
Qed.

Lemma sign_extend_range (bits v : Z) :
  1 <= bits -> 0 <= v < 2 ^ bits -> - 2 ^ (bits - 1) <= sign_extend bits v < 2 ^ (bits - 1).
Proof.
  intros Hb Hv. unfold sign_extend.
  assert (Hp : 2 ^ bits = 2 * 2 ^ (bits - 1)).
  { rewrite <- Z.pow_succ_r by lia. f_equal; lia. }
  destruct (Z.ltb_spec v (2 ^ (bits - 1))); lia.
Qed.

Lemma sign_extend_mod (bits x : Z) :
  1 <= bits -> - 2 ^ (bits - 1) <= x < 2 ^ (bits - 1) -> sign_extend bits (x mod 2 ^ bits) = x.
Proof.
  intros Hb Hx. unfold sign_extend.
  assert (Hp : 2 ^ bits = 2 * 2 ^ (bits - 1)).
  { rewrite <- Z.pow_succ_r by lia. f_equal; lia. }
  destruct (Z.leb_spec 0 x).
  - rewrite Z.mod_small by lia.
    destruct (Z.ltb_spec x (2 ^ (bits - 1))); lia.
  - replace (x mod 2 ^ bits) with (x + 2 ^ bits).
    + destruct (Z.ltb_spec (x + 2 ^ bits) (2 ^ (bits - 1))); lia.
    + symmetry. rewrite <- (Z.mod_add x 1) by lia. rewrite Z.mul_1_l. apply Z.mod_small. lia.
Qed.

(** Proves [fits] of a concrete field list from the operands' ranges. *)
Ltac solve_fits :=
  repeat constructor; simpl;
  first [lia | apply Z.mod_pos_bound; lia | Z.div_mod_to_equations; lia].

(** Evaluates a field of an encoded word at position [k] of its layout. *)
Ltac field_at k :=
  eapply (field_pack_nth _ k); [solve_fits | reflexivity | reflexivity].

#[export] Hint Resolve field_range : riscv.

(** ** Bounds of the fields *)

Lemma fields_bounded (instr : Z) :
  0 <= FIELD_OPCODE instr < 128 /\ 0 <= FIELD_FUNC3 instr < 8 /\
  0 <= FIELD_FUNC7 instr < 128 /\ 0 <= FIELD_RD instr < 32 /\
  0 <= FIELD_RS1 instr < 32 /\ 0 <= FIELD_RS2 instr < 32.
Proof.
  unfold FIELD_OPCODE, FIELD_FUNC3, FIELD_FUNC7, FIELD_RD, FIELD_RS1, FIELD_RS2.
  repeat split;
    match goal with |- context [field ?x ?lo ?len] =>
      pose proof (field_range x lo len ltac:(lia)); lia end.
Qed.

(** The J-type offset before sign extension, as a sum of its pieces. *)
Lemma offset_pieces (instr : Z) :
  Z.lor (Z.shiftl (field instr 31 1) 20)
    (Z.lor (Z.shiftl (field instr 12 8) 12)
      (Z.lor (Z.shiftl (field instr 20 1) 11) (Z.shiftl (field instr 21 10) 1)))
  = field instr 31 1 * 2 ^ 20 + field instr 12 8 * 2 ^ 12
    + field instr 20 1 * 2 ^ 11 + field instr 21 10 * 2.
Proof.
  pose proof (field_range instr 31 1 ltac:(lia)).
  pose proof (field_range instr 12 8 ltac:(lia)).
  pose proof (field_range instr 20 1 ltac:(lia)).
  pose proof (field_range instr 21 10 ltac:(lia)).
  rewrite (Z.shiftl_mul_pow2 (field instr 21 10) 1) by lia.
  rewrite (lor_shiftl_add (field instr 20 1)) by lia.
  rewrite (lor_shiftl_add (field instr 12 8)) by lia.
  rewrite (lor_shiftl_add (field instr 31 1)) by lia.
  lia.
Qed.

Lemma imm_S_pieces (instr : Z) :
  Z.lor (Z.shiftl (field instr 25 7) 5) (field instr 7 5)
  = field instr 25 7 * 2 ^ 5 + field instr 7 5.
Proof.
  apply lor_shiftl_add; [lia | apply field_range; lia].
Qed.

Lemma immediates_bounded (instr : Z) :
  -2048 <= FIELD_IMM_I instr < 2048 /\ -2048 <= FIELD_IMM_S instr < 2048 /\
  - 2 ^ 20 <= FIELD_OFFSET instr < 2 ^ 20 /\ FIELD_OFFSET instr mod 2 = 0.
Proof.
  unfold FIELD_IMM_I, FIELD_IMM_S, FIELD_OFFSET.
  rewrite imm_S_pieces, offset_pieces.
  pose proof (field_range instr 20 12 ltac:(lia)).
  pose proof (field_range instr 25 7 ltac:(lia)).
  pose proof (field_range instr 7 5 ltac:(lia)).
  pose proof (field_range instr 31 1 ltac:(lia)).
  pose proof (field_range instr 12 8 ltac:(lia)).
  pose proof (field_range instr 20 1 ltac:(lia)).
  pose proof (field_range instr 21 10 ltac:(lia)).
  repeat split;
    try (match goal with |- context [sign_extend ?b ?v] =>
           pose proof (sign_extend_range b v ltac:(lia) ltac:(lia)) end; lia).
  unfold sign_extend.
  match goal with |- context [?v <? ?m] => destruct (Z.ltb_spec v m) end;
    Z.div_mod_to_equations; lia.
Qed.

(** ** Round trips: the extractors read back the encoded operands *)

Lemma encode_R_fields (opcode rd func3 rs1 rs2 func7 : Z) :
  0 <= opcode < 128 -> 0 <= rd < 32 -> 0 <= func3 < 8 ->
  0 <= rs1 < 32 -> 0 <= rs2 < 32 -> 0 <= func7 < 128 ->
  let w := encode_R opcode rd func3 rs1 rs2 func7 in
  FIELD_OPCODE w = opcode /\ FIELD_RD w = rd /\ FIELD_FUNC3 w = func3 /\
  FIELD_RS1 w = rs1 /\ FIELD_RS2 w = rs2 /\ FIELD_FUNC7 w = func7 /\ 0 <= w < 2 ^ 32.
Proof.
  intros; subst w; unfold FIELD_OPCODE, FIELD_RD, FIELD_FUNC3, FIELD_RS1, FIELD_RS2, FIELD_FUNC7, encode_R.
  repeat split; [field_at 0%nat | field_at 1%nat | field_at 2%nat | field_at 3%nat
                | field_at 4%nat | field_at 5%nat | |];
    apply pack_range; solve_fits.
Qed.

Lemma encode_I_fields (opcode rd func3 rs1 imm : Z) :
  0 <= opcode < 128 -> 0 <= rd < 32 -> 0 <= func3 < 8 -> 0 <= rs1 < 32 ->
  -2048 <= imm < 2048 ->
  let w := encode_I opcode rd func3 rs1 imm in
  FIELD_OPCODE w = opcode /\ FIELD_RD w = rd /\ FIELD_FUNC3 w = func3 /\
  FIELD_RS1 w = rs1 /\ FIELD_IMM_I w = imm /\ 0 <= w < 2 ^ 32.
Proof.
  intros; subst w; unfold FIELD_OPCODE, FIELD_RD, FIELD_FUNC3, FIELD_RS1, FIELD_IMM_I, encode_I.
  repeat split; [field_at 0%nat | field_at 1%nat | field_at 2%nat | field_at 3%nat | | |].
  - rewrite (field_pack_nth _ 4 _ 12 (imm mod 2 ^ 12)) by (solve_fits || reflexivity).
    apply sign_extend_mod; lia.
  - apply pack_range; solve_fits.
  - apply pack_range; solve_fits.
Qed.

Lemma encode_S_fields (opcode func3 rs1 rs2 imm : Z) :
  0 <= opcode < 128 -> 0 <= func3 < 8 -> 0 <= rs1 < 32 -> 0 <= rs2 < 32 ->
  -2048 <= imm < 2048 ->
  let w := encode_S opcode func3 rs1 rs2 imm in
  FIELD_OPCODE w = opcode /\ FIELD_FUNC3 w = func3 /\ FIELD_RS1 w = rs1 /\
  FIELD_RS2 w = rs2 /\ FIELD_IMM_S w = imm /\ 0 <= w < 2 ^ 32.
Proof.
  intros; subst w; unfold FIELD_OPCODE, FIELD_FUNC3, FIELD_RS1, FIELD_RS2, FIELD_IMM_S, encode_S.
  assert (Hu : 0 <= imm mod 2 ^ 12 < 2 ^ 12) by (apply Z.mod_pos_bound; lia).
  repeat split; [field_at 0%nat | field_at 2%nat | field_at 3%nat | field_at 4%nat | | |].
  - rewrite imm_S_pieces.
    rewrite (field_pack_nth _ 5 _ 7 (imm mod 2 ^ 12 / 32)) by (solve_fits || reflexivity).
    rewrite (field_pack_nth _ 1 _ 5 (imm mod 2 ^ 12 mod 32)) by (solve_fits || reflexivity).
    transitivity (sign_extend 12 (imm mod 2 ^ 12)); [f_equal | apply sign_extend_mod; lia].
    Z.div_mod_to_equations; lia.
  - apply pack_range; solve_fits.
  - apply pack_range; solve_fits.
Qed.

Lemma encode_J_fields (opcode rd off : Z) :
  0 <= opcode < 128 -> 0 <= rd < 32 -> - 2 ^ 20 <= off < 2 ^ 20 -> off mod 2 = 0 ->
  let w := encode_J opcode rd off in
  FIELD_OPCODE w = opcode /\ FIELD_RD w = rd /\ FIELD_OFFSET w = off /\ 0 <= w < 2 ^ 32.
Proof.
  intros; subst w; unfold FIELD_OPCODE, FIELD_RD, FIELD_OFFSET, encode_J.
  assert (Hu : 0 <= off mod 2 ^ 21 < 2 ^ 21) by (apply Z.mod_pos_bound; lia).
  repeat split; [field_at 0%nat | field_at 1%nat | | |].
  - rewrite offset_pieces.
    set (u := off mod 2 ^ 21) in *.
    rewrite (field_pack_nth _ 5 _ 1 (u / 2 ^ 20)) by (solve_fits || reflexivity).
    rewrite (field_pack_nth _ 2 _ 8 ((u / 2 ^ 12) mod 2 ^ 8)) by (solve_fits || reflexivity).
    rewrite (field_pack_nth _ 3 _ 1 ((u / 2 ^ 11) mod 2)) by (solve_fits || reflexivity).
    rewrite (field_pack_nth _ 4 _ 10 ((u / 2) mod 2 ^ 10)) by (solve_fits || reflexivity).
    transitivity (sign_extend 21 u); [f_equal | apply sign_extend_mod; lia].
    subst u. Z.div_mod_to_equations; lia.
  - apply pack_range; solve_fits.
  - apply pack_range; solve_fits.
Qed.

(** What [FIELD_IMM_S] reads from a branch word: the offset itself only
    for [0 <= off < 2048]. *)
Definition imm_S_of_B (off : Z) : Z :=
  if off <? -2048 then off + 2048
  else if off <? 0 then off + 1
  else if off <? 2048 then off
  else off - 2047.

Lemma encode_B_fields (opcode func3 rs1 rs2 off : Z) :
  0 <= opcode < 128 -> 0 <= func3 < 8 -> 0 <= rs1 < 32 -> 0 <= rs2 < 32 ->
  -4096 <= off < 4096 -> off mod 2 = 0 ->
  let w := encode_B opcode func3 rs1 rs2 off in
  FIELD_OPCODE w = opcode /\ FIELD_FUNC3 w = func3 /\ FIELD_RS1 w = rs1 /\
  FIELD_RS2 w = rs2 /\ FIELD_IMM_S w = imm_S_of_B off /\ 0 <= w < 2 ^ 32.
Proof.
  intros; subst w; unfold FIELD_OPCODE, FIELD_FUNC3, FIELD_RS1, FIELD_RS2, FIELD_IMM_S, encode_B.
  assert (Hu : 0 <= off mod 2 ^ 13 < 2 ^ 13) by (apply Z.mod_pos_bound; lia).
  set (u := off mod 2 ^ 13) in *.
  repeat split; [field_at 0%nat | field_at 2%nat | field_at 3%nat | field_at 4%nat | | |].
  - rewrite imm_S_pieces.
    rewrite (field_pack_nth _ 5 _ 7 ((u / 2 ^ 12) * 64 + (u / 2 ^ 5) mod 64)) by (solve_fits || reflexivity).
    rewrite (field_pack_nth _ 1 _ 5 (((u / 2) mod 16) * 2 + (u / 2 ^ 11) mod 2)) by (solve_fits || reflexivity).
    unfold sign_extend, imm_S_of_B. subst u.
    change (2 ^ 13) with 8192 in *. change (2 ^ 12) with 4096. change (2 ^ 11) with 2048.
    change (2 ^ 5) with 32. change (2 ^ (12 - 1)) with 2048.
    destruct (Z.ltb_spec off (-2048)); [|destruct (Z.ltb_spec off 0); [|destruct (Z.ltb_spec off 2048)]];
      match goal with |- context [if ?v <? 2048 then _ else _] => destruct (Z.ltb_spec v 2048) end;
      Z.div_mod_to_equations; lia.
  - apply pack_range; solve_fits.
  - apply pack_range; solve_fits.
Qed.
