(* ===== verification/Format.v ===== *)
(** * The printf conversions of output.c

    [output.c] prints everything through [printf] with literal format
    strings.  [sprintf fmt args] interprets such a string and returns the
    text [printf] writes, so that the definitions of [Disasm] and
    [Occupancy] carry the source's format strings verbatim.  It knows the
    conversions the module uses on integers and strings: [%s], [%d],
    [%X] with an optional precision ([%.8X], [%.2X]) and [%%].  A
    conversion whose argument is missing or of the wrong kind is
    undefined behaviour in C and yields [Fault]; arguments left over are
    ignored, as in C.

    [%d] prints the decimal text of Stdlib's [DecimalString]; [%X]
    prints the argument as an [unsigned int] ([z mod 2^32]) in upper-case
    hexadecimal, left-padded with zeros to the precision.  The round trips
    [fmt_d_inj] and [parse_hex_fmt_X8] show the two are injective on the
    values output.c prints. *)

From Stdlib Require Import ZArith List String Ascii Bool Lia DecimalString DecimalZ.
From S2P Require Import Prelude.
Import ListNotations.
Open Scope string_scope.
Open Scope Z_scope.
Open Scope riscv_scope.

(** ** Conversions *)

Inductive parg : Type :=
| PStr (s : string)
| PInt (z : Z).

(** [%d] of an [int]. *)
Definition fmt_d (z : Z) : string := NilZero.string_of_int (Z.to_int z).

(** One upper-case hexadecimal digit. *)
Definition hex_char (d : Z) : ascii :=
  ascii_of_nat (Z.to_nat (if d <? 10 then 48 + d else 55 + d)).

(** The [n] low hexadecimal digits of [u], most significant first. *)
Fixpoint hex_digits (n : nat) (u : Z) : string :=
  match n with
  | O => ""
  | S n' => hex_digits n' (u / 16) ++ String (hex_char (u mod 16)) ""
  end.

(** Number of significant hexadecimal digits of [u], at most [fuel]. *)
Fixpoint hex_width (fuel : nat) (u : Z) : nat :=
  match fuel with
  | O => O
  | S f => if u =? 0 then O else S (hex_width f (u / 16))
  end.

(** [%.<prec>X] of an [unsigned int]: at least [prec] digits. *)
Definition fmt_X (prec : nat) (z : Z) : string :=
  let u := z mod 2 ^ 32 in
  hex_digits (Nat.max prec (hex_width 8 u)) u.

Definition is_digit (c : ascii) : bool :=
  (48 <=? nat_of_ascii c)%nat && (nat_of_ascii c <=? 57)%nat.

(** The tab and newline characters of the C format strings ([\t], [\n]). *)
Definition TAB : string := String (ascii_of_nat 9) "".
Definition NL : string := String (ascii_of_nat 10) "".

(** ** The interpreter *)

(** [Lit]: copying text; [Spec p]: inside a conversion after [%], with
    the precision read so far ([None] before a [.]). *)
Inductive fstate : Type :=
| Lit
| Spec (prec : option nat).

Fixpoint sprintf_go (fmt : string) (st : fstate) (args : list parg) : outcome string :=
  match fmt, st with
  | EmptyString, Lit => Done ""
  | EmptyString, Spec _ => Fault
  | String c rest, Lit =>
      if Ascii.eqb c "%"%char then sprintf_go rest (Spec None) args
      else s <- sprintf_go rest Lit args ;; Done (String c s)
  | String c rest, Spec p =>
      if Ascii.eqb c "."%char then
        match p with
        | None => sprintf_go rest (Spec (Some O)) args
        | Some _ => Fault
        end
      else if is_digit c then
        match p with
        | Some n => sprintf_go rest (Spec (Some (10 * n + (nat_of_ascii c - 48))%nat)) args
        | None => Fault
        end
      else if Ascii.eqb c "%"%char then
        match p with
        | None => s <- sprintf_go rest Lit args ;; Done (String "%"%char s)
        | Some _ => Fault
        end
      else
        match args with
        | PStr s :: args' =>
            if Ascii.eqb c "s"%char then r <- sprintf_go rest Lit args' ;; Done (s ++ r)
            else Fault
        | PInt z :: args' =>
            if Ascii.eqb c "d"%char then r <- sprintf_go rest Lit args' ;; Done (fmt_d z ++ r)
            else if Ascii.eqb c "X"%char then
              r <- sprintf_go rest Lit args' ;;
              Done (fmt_X (match p with Some n => n | None => 1%nat end) z ++ r)
            else Fault
        | [] => Fault
        end
  end.

(** The text [printf(fmt, args...)] writes. *)
Definition sprintf (fmt : string) (args : list parg) : outcome string :=
  sprintf_go fmt Lit args.

(** ** Reading the text back *)

Definition parse_d (s : string) : option Z :=
  option_map Z.of_int (NilZero.int_of_string s).

Definition hex_val (c : ascii) : Z :=
  let n := Z.of_nat (nat_of_ascii c) in
  if n <? 58 then n - 48 else n - 55.

Fixpoint parse_hex_go (acc : Z) (s : string) : Z :=
  match s with
  | EmptyString => acc
  | String c s' => parse_hex_go (acc * 16 + hex_val c) s'
  end.

Definition parse_hex (s : string) : Z := parse_hex_go 0 s.

(** A format with no conversion. *)
Fixpoint no_pct (s : string) : bool :=
  match s with
  | EmptyString => true
  | String c rest => negb (Ascii.eqb c "%"%char) && no_pct rest
  end.

(** ** Lemmas *)

Lemma hex_val_char (d : Z) : 0 <= d < 16 -> hex_val (hex_char d) = d.
Proof.
  intros Hd.
  assert (H : d = 0 \/ d = 1 \/ d = 2 \/ d = 3 \/ d = 4 \/ d = 5 \/ d = 6 \/ d = 7 \/
              d = 8 \/ d = 9 \/ d = 10 \/ d = 11 \/ d = 12 \/ d = 13 \/ d = 14 \/ d = 15) by lia.
  repeat destruct H as [-> | H]; subst; reflexivity.
Qed.

Lemma parse_hex_go_app (acc : Z) (s1 s2 : string) :
  parse_hex_go acc (s1 ++ s2) = parse_hex_go (parse_hex_go acc s1) s2.
Proof. revert acc; induction s1 as [|c s IH]; intros acc; simpl; auto. Qed.

Lemma parse_hex_go_acc (acc : Z) (n : nat) (u : Z) :
  parse_hex_go acc (hex_digits n u) = acc * 16 ^ Z.of_nat n + u mod 16 ^ Z.of_nat n.
Proof.
  revert acc u; induction n as [|n IH]; intros acc u; simpl hex_digits.
  - simpl. rewrite Z.mod_1_r. lia.
  - rewrite parse_hex_go_app, IH. cbn [parse_hex_go].
    rewrite hex_val_char by (apply Z.mod_pos_bound; lia).
    replace (Z.of_nat (S n)) with (Z.succ (Z.of_nat n)) by lia.
    rewrite Z.pow_succ_r by lia.
    assert (0 < 16 ^ Z.of_nat n) by (apply Z.pow_pos_nonneg; lia).
    rewrite Z.rem_mul_r by lia.
    ring.
Qed.

Lemma hex_width_le (fuel : nat) (u : Z) : (hex_width fuel u <= fuel)%nat.
Proof.
  revert u; induction fuel as [|f IH]; intros u; simpl; [lia |].
  destruct (u =? 0); [lia | specialize (IH (u / 16)); lia].
Qed.

Lemma length_hex_digits (n : nat) (u : Z) : String.length (hex_digits n u) = n.
Proof.
  revert u; induction n as [|n IH]; intros u; simpl; [reflexivity |].
  rewrite slength_append, IH. simpl. lia.
Qed.

Lemma fmt_X8_digits (z : Z) : fmt_X 8 z = hex_digits 8 (z mod 2 ^ 32).
Proof.
  unfold fmt_X. f_equal. pose proof (hex_width_le 8 (z mod 2 ^ 32)). lia.
Qed.

(** [%.8X] prints exactly eight digits. *)
Lemma length_fmt_X8 (z : Z) : String.length (fmt_X 8 z) = 8%nat.
Proof. rewrite fmt_X8_digits. apply length_hex_digits. Qed.

(** Reading the eight digits of [%.8X] back gives the [unsigned int]. *)
Lemma parse_hex_fmt_X8 (z : Z) : parse_hex (fmt_X 8 z) = z mod 2 ^ 32.
Proof.
  rewrite fmt_X8_digits. unfold parse_hex. rewrite parse_hex_go_acc.
  change (16 ^ Z.of_nat 8) with (2 ^ 32). rewrite Z.mod_mod by lia. lia.
Qed.

Lemma parse_d_fmt_d (z : Z) : parse_d (fmt_d z) = Some z.
Proof.
  unfold parse_d, fmt_d.
  assert (Hnil : forall d, Z.to_int z = d -> Z.of_int d = 0 -> z = 0).
  { intros d <- H. rewrite DecimalZ.of_to in H. exact H. }
  rewrite NilZero.isi.
  - simpl. now rewrite DecimalZ.of_to.
  - intros E. assert (z = 0) by (apply (Hnil _ E); reflexivity). subst. discriminate.
  - intros E. assert (z = 0) by (apply (Hnil _ E); reflexivity). subst. discriminate.
Qed.

(** [%d] is injective. *)
Lemma fmt_d_inj (z1 z2 : Z) : fmt_d z1 = fmt_d z2 -> z1 = z2.
Proof.
  intros H. apply (f_equal parse_d) in H. rewrite !parse_d_fmt_d in H. congruence.
Qed.

Lemma fmt_d_nonempty (z : Z) : fmt_d z <> ""%string.
Proof. intros H. pose proof (parse_d_fmt_d z) as P. rewrite H in P. discriminate. Qed.

(** [u] below [16 ^ k] has at most [k] significant digits. *)
Lemma hex_width_small (fuel k : nat) (u : Z) :
  0 <= u < 16 ^ Z.of_nat k -> (hex_width fuel u <= k)%nat.
Proof.
  revert k u; induction fuel as [|f IH]; intros k u Hu; simpl; [lia |].
  destruct (Z.eqb_spec u 0) as [| Hnz]; [lia |].
  destruct k as [|k]; [simpl in Hu; lia |].
  replace (Z.of_nat (S k)) with (Z.succ (Z.of_nat k)) in Hu by lia.
  rewrite Z.pow_succ_r in Hu by lia.
  specialize (IH k (u / 16) ltac:(split; [apply Z.div_pos | apply Z.div_lt_upper_bound]; lia)). lia.
Qed.

(** [%.2X] of a byte value prints exactly its two digits. *)
Lemma fmt_X2_byte (b : Z) : 0 <= b < 256 -> fmt_X 2 b = hex_digits 2 b.
Proof.
  intros Hb. unfold fmt_X. rewrite (Z.mod_small b) by lia.
  rewrite Nat.max_l; [reflexivity | apply (hex_width_small 8 2 b); simpl; lia].
Qed.

Lemma length_fmt_X2 (b : Z) : 0 <= b < 256 -> String.length (fmt_X 2 b) = 2%nat.
Proof. intros Hb. rewrite fmt_X2_byte by exact Hb. apply length_hex_digits. Qed.

Lemma parse_hex_fmt_X2 (b : Z) : 0 <= b < 256 -> parse_hex (fmt_X 2 b) = b.
Proof.
  intros Hb. rewrite fmt_X2_byte by exact Hb. unfold parse_hex. rewrite parse_hex_go_acc.
  rewrite Z.mod_small by (simpl; lia). lia.
Qed.

(** A format with no conversion prints itself. *)
Lemma sprintf_literal (s : string) : no_pct s = true -> sprintf s [] = Done s.
Proof.
  unfold sprintf. induction s as [|c rest IH]; intros Hs; [reflexivity |].
  cbn [no_pct sprintf_go] in *. apply andb_true_iff in Hs as [Hc Hs].
  destruct (Ascii.eqb c "%"%char); [discriminate |]. now rewrite IH.
Qed.
