(* ===== verification/Gfmt.v ===== *)
(** * The [%-10.6g] conversion of a double

    The floating-point register dump of [print_state] (output.c 45)
    prints each register with [%-10.6g].  A double is a [spec_float] of
    Stdlib (sign, positive mantissa [m], binary exponent [e], value
    [m * 2^e]; zeros, infinities and NaN apart).  The conversion follows
    the C standard's description of [%g] with precision [P = 6]:

    - the value is rounded to [P] significant decimal digits, to nearest
      with ties to even, on its exact rational value: [g_digits] returns
      the six digits [D] ([10^5 <= D < 10^6]) and the decimal exponent
      [X] of the rounded value [D * 10^(X-5)];
    - style [e] ([d.ddddde+XX] or [d.ddddde-XX]) is used when [X < -4] or [X >= P], style
      [f] with [P - 1 - X] decimals otherwise; trailing zeros of the
      fraction are removed, and the point with them when nothing is left;
    - the flag [-] and the width [10] pad the text with blanks on the
      right.

    Infinities print [inf], NaN prints [nan] ([spec_float] carries no
    sign for NaN; glibc prints [-nan] for a NaN whose sign bit is set). *)

From Stdlib Require Import ZArith List String Ascii Bool Lia SpecFloat.
From S2P Require Import Prelude.
Import ListNotations.
Open Scope string_scope.
Open Scope Z_scope.

(** ** Decimal digits *)

Definition dec_char (d : Z) : ascii := ascii_of_nat (Z.to_nat (48 + d)).

(** The [w] low decimal digits of [n], most significant first. *)
Fixpoint dec_digits (w : nat) (n : Z) : string :=
  match w with
  | O => ""
  | S w' => dec_digits w' (n / 10) ++ String (dec_char (n mod 10)) ""
  end.

(** The number of decimal digits of [n >= 1], with [fuel] at least it. *)
Fixpoint ndigits_go (fuel : nat) (n : Z) : nat :=
  match fuel with
  | O => O
  | S f => if n <? 10 then 1%nat else S (ndigits_go f (n / 10))
  end.

Definition ndigits (n : Z) : nat := ndigits_go (S (Z.to_nat (Z.log2 n))) n.

(** The decimal exponent [X] of [num / den]: [10^X <= num / den < 10^(X+1)]. *)
Definition dexp (num den : Z) : Z :=
  if den <=? num then Z.of_nat (ndigits (num / den)) - 1
  else - Z.of_nat (ndigits ((den + num - 1) / num - 1)).

(** [a / b] rounded to the nearest integer, ties to even. *)
Definition round_div (a b : Z) : Z :=
  let q := a / b in
  let r := a mod b in
  if 2 * r <? b then q
  else if b <? 2 * r then q + 1
  else if Z.even q then q else q + 1.

(** Six significant digits [D] and exponent [X] of [num / den]. *)
Definition g_digits (num den : Z) : Z * Z :=
  let X := dexp num den in
  let D := if 0 <=? 5 - X then round_div (num * 10 ^ (5 - X)) den
           else round_div num (den * 10 ^ (X - 5)) in
  if D =? 10 ^ 6 then (10 ^ 5, X + 1) else (D, X).

(** ** The text *)

(** [s] without its trailing zeros. *)
Fixpoint strip_zeros (s : string) : string :=
  match s with
  | EmptyString => ""
  | String c rest =>
      let r := strip_zeros rest in
      match r with
      | EmptyString => if Ascii.eqb c "0"%char then "" else String c ""
      | _ => String c r
      end
  end.

(** The fraction [fr] as [%g] prints it: no trailing zero, no lone point. *)
Definition frac_text (fr : string) : string :=
  match strip_zeros fr with
  | EmptyString => ""
  | f => "." ++ f
  end.

(** The text of [D * 10^(X-5)] in the style [%.6g] chooses. *)
Definition g_body (D X : Z) : string :=
  if (X <? -4) || (6 <=? X) then
    dec_digits 1 (D / 10 ^ 5) ++ frac_text (dec_digits 5 (D mod 10 ^ 5)) ++ "e" ++
    (if X <? 0 then "-" else "+") ++ dec_digits (Nat.max 2 (ndigits (Z.abs X))) (Z.abs X)
  else if 0 <=? X then
    dec_digits (S (Z.to_nat X)) (D / 10 ^ (5 - X)) ++
    frac_text (dec_digits (Z.to_nat (5 - X)) (D mod 10 ^ (5 - X)))
  else
    "0" ++ frac_text (dec_digits (Z.to_nat (- X - 1)) 0 ++ dec_digits 6 D).

Definition sign_text (s : bool) : string := if s then "-" else "".

(** The value of a finite double as [num / den]. *)
Definition sf_ratio (m : positive) (e : Z) : Z * Z :=
  if 0 <=? e then (Zpos m * 2 ^ e, 1) else (Zpos m, 2 ^ (- e)).

(** [%.6g]. *)
Definition fmt_g6 (x : spec_float) : string :=
  match x with
  | S754_zero s => sign_text s ++ "0"
  | S754_infinity s => sign_text s ++ "inf"
  | S754_nan => "nan"
  | S754_finite s m e =>
      let '(num, den) := sf_ratio m e in
      let '(D, X) := g_digits num den in
      sign_text s ++ g_body D X
  end.

Fixpoint blanks (n : nat) : string :=
  match n with O => "" | S n' => String " "%char (blanks n') end.

(** The flag [-] and a width: blanks on the right. *)
Definition pad_right (w : nat) (s : string) : string := s ++ blanks (w - String.length s).

(** [%-10.6g]. *)
Definition fmt_g (x : spec_float) : string := pad_right 10 (fmt_g6 x).

(** The conversion on values whose glibc output is known. *)
Example fmt_g_examples :
  fmt_g (S754_zero false) = "0         " /\
  fmt_g (S754_zero true) = "-0        " /\
  fmt_g (S754_finite false 1 0) = "1         " /\
  fmt_g (S754_finite false 1 (-1)) = "0.5       " /\
  fmt_g (S754_finite true 5 (-1)) = "-2.5      " /\
  fmt_g (S754_finite false 25 2) = "100       " /\
  fmt_g (S754_finite false 6004799503160661 (-54)) = "0.333333  " /\
  fmt_g (S754_finite false 7205759403792794 (-56)) = "0.1       " /\
  fmt_g (S754_finite false 123456789 0) = "1.23457e+08" /\
  fmt_g (S754_finite false 999999 0) = "999999    " /\
  fmt_g (S754_finite false 9999995 0) = "1e+07     " /\
  fmt_g (S754_finite false 5902958103587057 (-69)) = "1e-05     " /\
  fmt_g (S754_finite false 7378697629483821 (-66)) = "0.0001    " /\
  fmt_g (S754_finite false 4554751249648528 (-65)) = "0.000123457" /\
  fmt_g (S754_finite false 1234567 0) = "1.23457e+06" /\
  fmt_g (S754_finite false 100000 0) = "100000    " /\
  fmt_g (S754_finite false 1999999 (-1)) = "1e+06     " /\
  fmt_g (S754_finite false 4722366482869645 (-66)) = "6.4e-05   " /\
  fmt_g (S754_finite false 1 (-1074)) = "4.94066e-324" /\
  fmt_g (S754_finite false 9007199254740991 971) = "1.79769e+308" /\
  fmt_g (S754_infinity true) = "-inf      " /\
  fmt_g S754_nan = "nan       ".
Proof. repeat split; vm_compute; reflexivity. Qed.

(** ** Lemmas *)

Lemma length_dec_digits (w : nat) (n : Z) : String.length (dec_digits w n) = w.
Proof.
  revert n; induction w as [|w IH]; intros n; cbn [dec_digits]; [reflexivity |].
  rewrite slength_append, IH. cbn. lia.
Qed.

Lemma ndigits_go_spec (f : nat) (n : Z) :
  1 <= n < 10 ^ Z.of_nat f ->
  (1 <= ndigits_go f n)%nat /\
  10 ^ (Z.of_nat (ndigits_go f n) - 1) <= n < 10 ^ Z.of_nat (ndigits_go f n).
Proof.
  revert n; induction f as [|f IH]; intros n Hn; [cbn in Hn; lia |].
  cbn [ndigits_go]. destruct (Z.ltb_spec n 10) as [Hlt | Hge]; [cbn; lia |].
  rewrite Nat2Z.inj_succ, Z.pow_succ_r in Hn by lia.
  destruct (IH (n / 10)) as (Hk & Hlo & Hhi).
  { split; [apply Z.div_le_lower_bound | apply Z.div_lt_upper_bound]; lia. }
  set (k := ndigits_go f (n / 10)) in *.
  replace (Z.of_nat (S k) - 1) with (Z.of_nat k) by lia.
  rewrite Nat2Z.inj_succ, Z.pow_succ_r by lia.
  assert (E : 10 ^ Z.of_nat k = 10 * 10 ^ (Z.of_nat k - 1))
    by (rewrite <- Z.pow_succ_r by lia; f_equal; lia).
  rewrite E in *. split; [lia |]. Z.div_mod_to_equations. lia.
Qed.

(** [n] has [ndigits n] decimal digits. *)
Lemma ndigits_spec (n : Z) :
  1 <= n -> (1 <= ndigits n)%nat /\ 10 ^ (Z.of_nat (ndigits n) - 1) <= n < 10 ^ Z.of_nat (ndigits n).
Proof.
  intros Hn. apply ndigits_go_spec. split; [exact Hn |].
  pose proof (Z.log2_spec n ltac:(lia)) as [_ H2].
  apply (Z.lt_le_trans _ _ _ H2).
  rewrite Nat2Z.inj_succ, Z2Nat.id by (apply Z.log2_nonneg).
  apply Z.pow_le_mono_l. lia.
Qed.

(** [dexp] is the decimal exponent of [num / den]. *)
Lemma dexp_spec (num den : Z) :
  0 < num -> 0 < den ->
  (0 <= dexp num den -> 10 ^ dexp num den * den <= num < 10 ^ (dexp num den + 1) * den) /\
  (dexp num den < 0 ->
   den <= num * 10 ^ (- dexp num den) /\ num * 10 ^ (- dexp num den - 1) < den).
Proof.
  intros Hn Hd. unfold dexp. destruct (Z.leb_spec den num) as [Hle | Hlt].
  - assert (Hq : 1 <= num / den) by (apply Z.div_le_lower_bound; lia).
    destruct (ndigits_spec (num / den) Hq) as (Hk & Hlo & Hhi).
    split; [intros _ | lia].
    replace (Z.of_nat (ndigits (num / den)) - 1 + 1) with (Z.of_nat (ndigits (num / den))) by lia.
    set (q := num / den) in *. assert (Hqd : num = den * q + num mod den) by (apply Z.div_mod; lia).
    pose proof (Z.mod_pos_bound num den Hd). nia.
  - set (c := (den + num - 1) / num).
    assert (Hc1 : c * num <= den + num - 1) by (rewrite Z.mul_comm; apply Z.mul_div_le; lia).
    assert (Hc2 : den <= c * num).
    { pose proof (Z.mod_pos_bound (den + num - 1) num Hn).
      pose proof (Z.div_mod (den + num - 1) num ltac:(lia)). fold c in H0. nia. }
    assert (Hc : 1 <= c - 1) by nia.
    destruct (ndigits_spec (c - 1) Hc) as (Hk & Hlo & Hhi).
    split; [lia | intros _].
    replace (- - Z.of_nat (ndigits (c - 1))) with (Z.of_nat (ndigits (c - 1))) by lia.
    replace (- - Z.of_nat (ndigits (c - 1)) - 1) with (Z.of_nat (ndigits (c - 1)) - 1) by lia.
    split; nia.
Qed.

Lemma round_div_bounds (a b : Z) : 0 < b -> a / b <= round_div a b <= a / b + 1.
Proof.
  intros Hb. unfold round_div.
  destruct (2 * (a mod b) <? b); [lia |]. destruct (b <? 2 * (a mod b)); [lia |].
  destruct (Z.even (a / b)); lia.
Qed.

(** The quotient [g_digits] rounds lies in [[10^5, 10^6)]. *)
Lemma dexp_scaled (num den : Z) :
  0 < num -> 0 < den ->
  let X := dexp num den in
  let N := if 0 <=? 5 - X then num * 10 ^ (5 - X) else num in
  let Dd := if 0 <=? 5 - X then den else den * 10 ^ (X - 5) in
  10 ^ 5 * Dd <= N < 10 ^ 6 * Dd.
Proof.
  intros Hn Hd X N Dd. destruct (dexp_spec num den Hn Hd) as [Hpos Hneg].
  subst N Dd. fold X in Hpos, Hneg |- *.
  destruct (Z.leb_spec 0 (5 - X)) as [H5 | H5]; destruct (Z.leb_spec 0 X) as [H0 | H0].
  - destruct (Hpos H0) as [Hlo Hhi].
    assert (E1 : 10 ^ 5 = 10 ^ X * 10 ^ (5 - X)) by (rewrite <- Z.pow_add_r by lia; f_equal; lia).
    assert (E2 : 10 ^ 6 = 10 ^ (X + 1) * 10 ^ (5 - X)) by (rewrite <- Z.pow_add_r by lia; f_equal; lia).
    assert (0 < 10 ^ (5 - X)) by (apply Z.pow_pos_nonneg; lia). rewrite E1, E2. nia.
  - destruct (Hneg ltac:(lia)) as [Hlo Hhi].
    assert (E1 : 10 ^ (5 - X) = 10 ^ 5 * 10 ^ (- X)) by (rewrite <- Z.pow_add_r by lia; f_equal; lia).
    assert (E2 : 10 ^ (5 - X) = 10 ^ 6 * 10 ^ (- X - 1)) by (rewrite <- Z.pow_add_r by lia; f_equal; lia).
    split; [rewrite E1 | rewrite E2]; nia.
  - destruct (Hpos H0) as [Hlo Hhi].
    assert (E1 : 10 ^ X = 10 ^ 5 * 10 ^ (X - 5)) by (rewrite <- Z.pow_add_r by lia; f_equal; lia).
    assert (E2 : 10 ^ (X + 1) = 10 ^ 6 * 10 ^ (X - 5)) by (rewrite <- Z.pow_add_r by lia; f_equal; lia).
    rewrite E1 in Hlo. rewrite E2 in Hhi. nia.
  - lia.
Qed.

(** [g_digits] gives six digits and the exponent of the value or, when
    rounding carries to [10^6], the next one. *)
Lemma g_digits_range (num den : Z) :
  0 < num -> 0 < den ->
  10 ^ 5 <= fst (g_digits num den) < 10 ^ 6 /\
  (snd (g_digits num den) = dexp num den \/ snd (g_digits num den) = dexp num den + 1).
Proof.
  intros Hn Hd. pose proof (dexp_scaled num den Hn Hd) as Hs. cbv zeta in Hs.
  unfold g_digits. set (X := dexp num den) in *.
  set (N := if 0 <=? 5 - X then num * 10 ^ (5 - X) else num) in Hs.
  set (Dd := if 0 <=? 5 - X then den else den * 10 ^ (X - 5)) in Hs.
  assert (HDd : 0 < Dd) by (subst Dd; destruct (Z.leb_spec 0 (5 - X));
    [lia | apply Z.mul_pos_pos; [lia | apply Z.pow_pos_nonneg; lia]]).
  assert (E : (if 0 <=? 5 - X then round_div (num * 10 ^ (5 - X)) den
               else round_div num (den * 10 ^ (X - 5))) = round_div N Dd)
    by (subst N Dd; destruct (0 <=? 5 - X); reflexivity).
  rewrite E. pose proof (round_div_bounds N Dd HDd) as Hr.
  assert (Hq : 10 ^ 5 <= N / Dd < 10 ^ 6).
  { split; [apply Z.div_le_lower_bound | apply Z.div_lt_upper_bound]; lia. }
  destruct (Z.eqb_spec (round_div N Dd) (10 ^ 6)); cbn [fst snd]; split; try lia.
Qed.

Lemma round_div_nearest (a b : Z) : 0 < b -> 2 * Z.abs (round_div a b * b - a) <= b.
Proof.
  intros Hb. pose proof (Z.div_mod a b ltac:(lia)) as Ha. pose proof (Z.mod_pos_bound a b Hb).
  unfold round_div. set (q := a / b) in *. set (r := a mod b) in *.
  destruct (Z.ltb_spec (2 * r) b); [lia |]. destruct (Z.ltb_spec b (2 * r)); [lia |].
  destruct (Z.even q); lia.
Qed.

(** Correct rounding: the printed value [D * 10^(X-5)] is within half a
    unit of its sixth digit of [num / den]. *)
Lemma g_digits_nearest (num den : Z) :
  0 < num -> 0 < den ->
  let D := fst (g_digits num den) in
  let X := snd (g_digits num den) in
  if 5 <=? X then 2 * Z.abs (D * 10 ^ (X - 5) * den - num) <= 10 ^ (X - 5) * den
  else 2 * Z.abs (D * den - num * 10 ^ (5 - X)) <= den.
Proof.
  intros Hn Hd. unfold g_digits. cbn zeta. set (X0 := dexp num den). clearbody X0.
  destruct (Z.leb_spec 0 (5 - X0)) as [H5 | H5].
  - pose proof (round_div_nearest (num * 10 ^ (5 - X0)) den Hd) as Hr.
    set (D0 := round_div (num * 10 ^ (5 - X0)) den) in *.
    destruct (Z.eqb_spec D0 (10 ^ 6)) as [E | E]; cbn [fst snd].
    + rewrite E in Hr. destruct (Z.leb_spec 5 (X0 + 1)).
      * cbv beta iota. change (10 ^ 6) with 1000000 in Hr. change (10 ^ 5) with 100000.
        destruct (Z.eq_dec X0 4) as [-> | ].
        { change (10 ^ (5 - 4)) with 10 in Hr. change (10 ^ (4 + 1 - 5)) with 1. lia. }
        replace X0 with 5 in * by lia.
        change (10 ^ (5 - 5)) with 1 in Hr. change (10 ^ (5 + 1 - 5)) with 10. lia.
      * cbv beta iota. assert (E10 : 10 ^ (5 - X0) = 10 * 10 ^ (5 - (X0 + 1)))
          by (rewrite <- Z.pow_succ_r by lia; f_equal; lia).
        rewrite E10 in Hr. change (10 ^ 6) with (10 * 10 ^ 5) in Hr. nia.
    + destruct (Z.leb_spec 5 X0); cbv beta iota; [| exact Hr].
      replace X0 with 5 in * by lia. change (10 ^ (5 - 5)) with 1 in Hr |- *. lia.
  - pose proof (round_div_nearest num (den * 10 ^ (X0 - 5))
      ltac:(apply Z.mul_pos_pos; [lia | apply Z.pow_pos_nonneg; lia])) as Hr.
    set (D0 := round_div num (den * 10 ^ (X0 - 5))) in *.
    destruct (Z.eqb_spec D0 (10 ^ 6)) as [E | E]; cbn [fst snd].
    + rewrite E in Hr. replace (5 <=? X0 + 1) with true by (symmetry; apply Z.leb_le; lia).
      assert (E10 : 10 ^ (X0 + 1 - 5) = 10 * 10 ^ (X0 - 5))
        by (rewrite <- Z.pow_succ_r by lia; f_equal; lia).
      rewrite E10. change (10 ^ 6) with (10 * 10 ^ 5) in Hr.
      assert (0 < 10 ^ (X0 - 5)) by (apply Z.pow_pos_nonneg; lia). nia.
    + replace (5 <=? X0) with true by (symmetry; apply Z.leb_le; lia). nia.
Qed.

(** ** Width of the text *)

Lemma length_strip_zeros (s : string) : (String.length (strip_zeros s) <= String.length s)%nat.
Proof.
  induction s as [|c rest IH]; cbn [strip_zeros]; [reflexivity |].
  destruct (strip_zeros rest) eqn:E; [destruct (Ascii.eqb c "0"%char) |]; cbn in *; lia.
Qed.

Lemma length_frac_text (fr : string) : (String.length (frac_text fr) <= S (String.length fr))%nat.
Proof.
  unfold frac_text. pose proof (length_strip_zeros fr).
  destruct (strip_zeros fr) eqn:E; cbn in *; lia.
Qed.

Lemma length_blanks (n : nat) : String.length (blanks n) = n.
Proof. induction n as [|n IH]; cbn; [reflexivity | now rewrite IH]. Qed.

Lemma length_pad_right (w : nat) (s : string) :
  String.length (pad_right w s) = Nat.max w (String.length s).
Proof. unfold pad_right. rewrite slength_append, length_blanks. lia. Qed.

Lemma ndigits_le_3 (n : Z) : 1 <= n < 1000 -> (ndigits n <= 3)%nat.
Proof.
  intros Hn. destruct (ndigits_spec n ltac:(lia)) as (Hk & Hlo & _).
  destruct (Nat.le_gt_cases (ndigits n) 3) as [| Hgt]; [assumption |].
  assert (10 ^ 3 <= 10 ^ (Z.of_nat (ndigits n) - 1)) by (apply Z.pow_le_mono_r; lia).
  lia.
Qed.

(** The text of six digits with an exponent below 1000 in absolute value
    has at most twelve characters. *)
Lemma length_g_body (D X : Z) :
  10 ^ 5 <= D < 10 ^ 6 -> -1000 < X < 1000 -> (String.length (g_body D X) <= 12)%nat.
Proof.
  intros HD HX. unfold g_body.
  destruct (Z.ltb_spec X (-4)), (Z.leb_spec 6 X); cbn [orb];
    try (destruct (X <? 0); rewrite !slength_append, !length_dec_digits;
         pose proof (length_frac_text (dec_digits 5 (D mod 10 ^ 5))) as Hf;
         rewrite length_dec_digits in Hf;
         pose proof (ndigits_le_3 (Z.abs X) ltac:(lia)); cbn [String.length]; lia).
  destruct (Z.leb_spec 0 X).
  - rewrite slength_append, length_dec_digits.
    pose proof (length_frac_text (dec_digits (Z.to_nat (5 - X)) (D mod 10 ^ (5 - X)))) as Hf.
    rewrite length_dec_digits in Hf. lia.
  - pose proof (length_frac_text (dec_digits (Z.to_nat (- X - 1)) 0 ++ dec_digits 6 D)) as Hf.
    rewrite slength_append, !length_dec_digits in Hf. rewrite slength_append. cbn [String.length]. lia.
Qed.

Lemma digits2_pos_spec (m : positive) : Zpos m < 2 ^ Zpos (digits2_pos m).
Proof.
  induction m as [p IH | p IH |]; cbn [digits2_pos]; [| | reflexivity];
    rewrite Pos2Z.inj_succ, Z.pow_succ_r by lia; lia.
Qed.

(** A binary64 mantissa has at most 53 bits and its exponent lies in
    [[-1074, 971]]. *)
Lemma bounded_double (m : positive) (e : Z) :
  bounded 53 1024 m e = true -> -1074 <= e <= 971 /\ Zpos m < 2 ^ 53.
Proof.
  unfold bounded, canonical_mantissa, fexp, emin. rewrite andb_true_iff, Z.eqb_eq, Z.leb_le.
  intros [Hc He]. pose proof (digits2_pos_spec m) as Hm.
  split; [lia |]. apply (Z.lt_le_trans _ _ _ Hm). apply Z.pow_le_mono_r; lia.
Qed.

Lemma sf_ratio_pos (m : positive) (e : Z) : 0 < fst (sf_ratio m e) /\ 0 < snd (sf_ratio m e).
Proof.
  unfold sf_ratio. destruct (Z.leb_spec 0 e); cbn [fst snd];
    split; try apply Z.mul_pos_pos; try apply Z.pow_pos_nonneg; lia.
Qed.

(** The decimal exponent of a double is below 999 in absolute value. *)
Lemma dexp_double (m : positive) (e : Z) :
  bounded 53 1024 m e = true ->
  -999 < dexp (fst (sf_ratio m e)) (snd (sf_ratio m e)) < 999.
Proof.
  intros Hb. destruct (bounded_double m e Hb) as [He Hm].
  destruct (sf_ratio_pos m e) as [Hn Hd].
  assert (Hnum : fst (sf_ratio m e) < 2 ^ 1024).
  { unfold sf_ratio. destruct (Z.leb_spec 0 e); cbn [fst].
    - apply (Z.lt_le_trans _ (2 ^ 53 * 2 ^ e)); [apply Z.mul_lt_mono_pos_r; [apply Z.pow_pos_nonneg |]; lia |].
      rewrite <- Z.pow_add_r by lia. apply Z.pow_le_mono_r; lia.
    - apply (Z.lt_le_trans _ _ _ Hm). apply Z.pow_le_mono_r; lia. }
  assert (Hden : snd (sf_ratio m e) <= 2 ^ 1074).
  { unfold sf_ratio. destruct (Z.leb_spec 0 e); cbn [snd];
      [pose proof (Z.pow_pos_nonneg 2 1074 ltac:(lia) ltac:(lia)); lia | apply Z.pow_le_mono_r; lia]. }
  destruct (dexp_spec _ _ Hn Hd) as [Hpos Hneg].
  set (X := dexp (fst (sf_ratio m e)) (snd (sf_ratio m e))) in *.
  assert (Big1 : 2 ^ 1024 < 10 ^ 999) by (vm_compute; reflexivity).
  assert (Big2 : 2 ^ 1074 < 10 ^ 998) by (vm_compute; reflexivity).
  split.
  - destruct (Z.ltb_spec X (-998)) as [Hlt | ]; [| lia].
    destruct (Hneg ltac:(lia)) as [_ Hhi].
    assert (10 ^ 998 <= 10 ^ (- X - 1)) by (apply Z.pow_le_mono_r; lia). nia.
  - destruct (Z.ltb_spec X 999) as [| Hge]; [lia |].
    destruct (Hpos ltac:(lia)) as [Hlo _].
    assert (10 ^ 999 <= 10 ^ X) by (apply Z.pow_le_mono_r; lia). nia.
Qed.

(** [%.6g] of a double has at most thirteen characters. *)
Lemma length_fmt_g6 (x : spec_float) :
  valid_binary 53 1024 x = true -> (String.length (fmt_g6 x) <= 13)%nat.
Proof.
  destruct x as [s | s | | s m e]; intros Hv;
    [destruct s; cbn; lia | destruct s; cbn; lia | cbn; lia |].
  cbn [fmt_g6]. pose proof (dexp_double m e Hv) as HX. destruct (sf_ratio_pos m e) as [Hn Hd].
  destruct (sf_ratio m e) as [num den]. cbn [fst snd] in *.
  pose proof (g_digits_range num den Hn Hd) as [HD HX'].
  destruct (g_digits num den) as [D X]. cbn [fst snd] in *.
  rewrite slength_append. pose proof (length_g_body D X HD ltac:(lia)).
  destruct s; cbn [sign_text String.length]; lia.
Qed.

(** [%-10.6g] of a double prints between ten and thirteen characters. *)
Lemma length_fmt_g (x : spec_float) :
  valid_binary 53 1024 x = true -> (10 <= String.length (fmt_g x) <= 13)%nat.
Proof.
  intros Hv. unfold fmt_g. rewrite length_pad_right. pose proof (length_fmt_g6 x Hv). lia.
Qed.
