(* ===== verification/OpTable.v ===== *)
(** * The three-level decode table

    [printInstruction] (src/output.c 133-221) reads the global [op_table]
    declared in [fu.h]: 128 level-1 entries indexed by the opcode, each
    holding an [op_info_t] and a pointer [level2_table] to 8 entries
    indexed by func3, each holding an [op_info_t] and a pointer
    [level3_table] to 128 entries indexed by func7.  A NULL pointer makes
    the entry terminal.  The header is not part of the sources, so the
    types below follow the spec (sections 3 and 4.1) and the field names
    output.c uses ([info], [level2_table], [level3_table], [name],
    [fu_group_num], [operation], [data_type]); a NULL [name] marks an
    unimplemented encoding.

    [decode_op] is the traversal of spec section 4.1: it returns the
    descriptor reached and the depth at which it was found; an index out
    of the array is undefined behaviour and yields [Fault].
    [wf_op_table] checks the array sizes (128/8/128), under which the
    traversal never faults ([decode_op_total]).

    [rv32_op_table] is a concrete table for the RV32IMF subset the spec
    names (integer ALU, loads and stores of words and floats, jal, jalr,
    beq, bne, single-precision add/sub/mul/div), used by the witnesses. *)

From Stdlib Require Import ZArith List String Bool Lia.
From S2P Require Import Prelude Bits.
Import ListNotations.
Open Scope string_scope.
Open Scope Z_scope.
Open Scope riscv_scope.

(** ** Descriptors *)

Inductive fu_group_t : Type :=
| FU_GROUP_INT | FU_GROUP_ADD | FU_GROUP_MULT | FU_GROUP_DIV
| FU_GROUP_MEM | FU_GROUP_BRANCH.

Inductive operation_t : Type :=
| OPERATION_ADD | OPERATION_SUB | OPERATION_SLL | OPERATION_SRL | OPERATION_SRA
| OPERATION_AND | OPERATION_OR | OPERATION_XOR | OPERATION_SLT | OPERATION_SLTU
| OPERATION_MULT | OPERATION_DIV
| OPERATION_LOAD | OPERATION_STORE
| OPERATION_JAL | OPERATION_JALR | OPERATION_BEQ | OPERATION_BNE | OPERATION_BLT | OPERATION_BGE.

Inductive data_type_t : Type :=
| DATA_TYPE_W | DATA_TYPE_F.

Scheme Equality for fu_group_t.
Scheme Equality for operation_t.
Scheme Equality for data_type_t.

Record op_info_t : Type := {
  name : option string;
  fu_group_num : fu_group_t;
  operation : operation_t;
  data_type : data_type_t
}.

Record op_level3_t : Type := { l3_info : op_info_t }.

Record op_level2_t : Type := {
  l2_info : op_info_t;
  level3_table : option (list op_level3_t)
}.

Record op_level1_t : Type := {
  l1_info : op_info_t;
  level2_table : option (list op_level2_t)
}.

(** ** The traversal of spec section 4.1 *)

Inductive depth : Type := Depth1 | Depth2 | Depth3.

Definition decode_op (op_table : list op_level1_t) (instr : Z) : outcome (depth * op_info_t) :=
  e1 <- arr_get op_table (FIELD_OPCODE instr) ;;
  match level2_table e1 with
  | None => Done (Depth1, l1_info e1)
  | Some t2 =>
      e2 <- arr_get t2 (FIELD_FUNC3 instr) ;;
      match level3_table e2 with
      | None => Done (Depth2, l2_info e2)
      | Some t3 =>
          e3 <- arr_get t3 (FIELD_FUNC7 instr) ;;
          Done (Depth3, l3_info e3)
      end
  end.

(** ** Well-formed tables: every array has the size of its index field *)

Definition wf_level2 (e : op_level2_t) : bool :=
  match level3_table e with
  | None => true
  | Some t3 => Nat.eqb (List.length t3) 128
  end.

Definition wf_level1 (e : op_level1_t) : bool :=
  match level2_table e with
  | None => true
  | Some t2 => Nat.eqb (List.length t2) 8 && forallb wf_level2 t2
  end.

Definition wf_op_table (t : list op_level1_t) : bool :=
  Nat.eqb (List.length t) 128 && forallb wf_level1 t.

(** Every descriptor a traversal can reach, with its depth. *)
Definition table_entries (t : list op_level1_t) : list (depth * op_info_t) :=
  flat_map (fun e1 =>
    match level2_table e1 with
    | None => [(Depth1, l1_info e1)]
    | Some t2 =>
        flat_map (fun e2 =>
          match level3_table e2 with
          | None => [(Depth2, l2_info e2)]
          | Some t3 => map (fun e3 => (Depth3, l3_info e3)) t3
          end) t2
    end) t.

(** ** A concrete RV32IMF table *)

Definition null_info : op_info_t :=
  {| name := None; fu_group_num := FU_GROUP_INT; operation := OPERATION_ADD;
     data_type := DATA_TYPE_W |}.

Definition mk_info (n : string) (g : fu_group_t) (o : operation_t) (d : data_type_t) : op_info_t :=
  {| name := Some n; fu_group_num := g; operation := o; data_type := d |}.

(** An array of [n] entries, [dflt] except at the listed indices. *)
Definition sparse {A : Type} (n : nat) (dflt : A) (es : list (Z * A)) : list A :=
  map (fun i => match find (fun e => fst e =? Z.of_nat i) es with
                | Some e => snd e
                | None => dflt
                end) (seq 0 n).

Definition l3 (es : list (Z * op_info_t)) : option (list op_level3_t) :=
  Some (sparse 128 {| l3_info := null_info |} (map (fun e => (fst e, {| l3_info := snd e |})) es)).

Definition leaf2 (i : op_info_t) : op_level2_t := {| l2_info := i; level3_table := None |}.
Definition node2 (es : list (Z * op_info_t)) : op_level2_t :=
  {| l2_info := null_info; level3_table := l3 es |}.
Definition null2 : op_level2_t := leaf2 null_info.

Definition l2 (es : list (Z * op_level2_t)) : option (list op_level2_t) :=
  Some (sparse 8 null2 es).

Definition int_op (n : string) (o : operation_t) := mk_info n FU_GROUP_INT o DATA_TYPE_W.

Definition rv32_op_r : list (list (Z * op_info_t)) :=
  [ [(0, int_op "add" OPERATION_ADD); (32, int_op "sub" OPERATION_SUB);
     (1, int_op "mul" OPERATION_MULT)];
    [(0, int_op "sll" OPERATION_SLL)];
    [(0, int_op "slt" OPERATION_SLT)];
    [(0, int_op "sltu" OPERATION_SLTU)];
    [(0, int_op "xor" OPERATION_XOR); (1, int_op "div" OPERATION_DIV)];
    [(0, int_op "srl" OPERATION_SRL); (32, int_op "sra" OPERATION_SRA)];
    [(0, int_op "or" OPERATION_OR)];
    [(0, int_op "and" OPERATION_AND)] ].

Definition rv32_op_fp : list (Z * op_info_t) :=
  [(0, mk_info "fadd.s" FU_GROUP_ADD OPERATION_ADD DATA_TYPE_F);
   (4, mk_info "fsub.s" FU_GROUP_ADD OPERATION_SUB DATA_TYPE_F);
   (8, mk_info "fmul.s" FU_GROUP_MULT OPERATION_MULT DATA_TYPE_F);
   (12, mk_info "fdiv.s" FU_GROUP_DIV OPERATION_DIV DATA_TYPE_F)].

Definition rv32_level1 : list (Z * op_level1_t) :=
  [ (3, {| l1_info := null_info;
           level2_table := l2 [(2, leaf2 (mk_info "lw" FU_GROUP_MEM OPERATION_LOAD DATA_TYPE_W))] |});
    (7, {| l1_info := null_info;
           level2_table := l2 [(2, leaf2 (mk_info "flw" FU_GROUP_MEM OPERATION_LOAD DATA_TYPE_F))] |});
    (19, {| l1_info := null_info;
            level2_table := l2 [(0, leaf2 (int_op "addi" OPERATION_ADD));
                                (1, node2 [(0, int_op "slli" OPERATION_SLL)]);
                                (2, leaf2 (int_op "slti" OPERATION_SLT));
                                (3, leaf2 (int_op "sltiu" OPERATION_SLTU));
                                (4, leaf2 (int_op "xori" OPERATION_XOR));
                                (5, node2 [(0, int_op "srli" OPERATION_SRL);
                                           (32, int_op "srai" OPERATION_SRA)]);
                                (6, leaf2 (int_op "ori" OPERATION_OR));
                                (7, leaf2 (int_op "andi" OPERATION_AND))] |});
    (35, {| l1_info := null_info;
            level2_table := l2 [(2, leaf2 (mk_info "sw" FU_GROUP_MEM OPERATION_STORE DATA_TYPE_W))] |});
    (39, {| l1_info := null_info;
            level2_table := l2 [(2, leaf2 (mk_info "fsw" FU_GROUP_MEM OPERATION_STORE DATA_TYPE_F))] |});
    (51, {| l1_info := null_info;
            level2_table := l2 (combine (map Z.of_nat (seq 0 8)) (map node2 rv32_op_r)) |});
    (83, {| l1_info := null_info;
            level2_table := l2 (map (fun i => (Z.of_nat i, node2 rv32_op_fp)) (seq 0 8)) |});
    (99, {| l1_info := null_info;
            level2_table := l2 [(0, leaf2 (mk_info "beq" FU_GROUP_BRANCH OPERATION_BEQ DATA_TYPE_W));
                                (1, leaf2 (mk_info "bne" FU_GROUP_BRANCH OPERATION_BNE DATA_TYPE_W))] |});
    (103, {| l1_info := null_info;
             level2_table := l2 [(0, leaf2 (mk_info "jalr" FU_GROUP_BRANCH OPERATION_JALR DATA_TYPE_W))] |});
    (111, {| l1_info := mk_info "jal" FU_GROUP_BRANCH OPERATION_JAL DATA_TYPE_W;
             level2_table := None |}) ].

Definition rv32_op_table : list op_level1_t :=
  sparse 128 {| l1_info := null_info; level2_table := None |} rv32_level1.

(** The canonical RISC-V no-op [addi x0, x0, 0]. *)
Definition rv32_NOP : Z := 19.

(** ** Lemmas *)

Lemma arr_get_wf {A} (a : list A) (i : Z) (n : nat) :
  Nat.eqb (List.length a) n = true -> 0 <= i < Z.of_nat n -> exists x, arr_get a i = Done x.
Proof.
  intros Hl Hi. apply Nat.eqb_eq in Hl. subst n.
  destruct (arr_get_nth a i Hi) as (x & Hx & _). eauto.
Qed.

Lemma arr_get_In {A} (a : list A) (i : Z) (x : A) : arr_get a i = Done x -> In x a.
Proof. intros H. apply arr_get_Done in H as [_ H]. eapply nth_error_In, H. Qed.

Lemma decode_op_total (t : list op_level1_t) (instr : Z) :
  wf_op_table t = true -> exists d i, decode_op t instr = Done (d, i).
Proof.
  pose proof (fields_bounded instr) as (Hop & Hf3 & Hf7 & _).
  assert (H1 : 0 <= FIELD_OPCODE instr < Z.of_nat 128) by lia.
  assert (H2 : 0 <= FIELD_FUNC3 instr < Z.of_nat 8) by lia.
  assert (H3 : 0 <= FIELD_FUNC7 instr < Z.of_nat 128) by lia.
  clear Hop Hf3 Hf7.
  intros Ht. apply andb_true_iff in Ht as [Hlen Hall].
  unfold decode_op.
  destruct (arr_get_wf t _ 128 Hlen H1) as [e1 He1]. rewrite He1. cbn [obind].
  pose proof (proj1 (forallb_forall _ _) Hall e1 (arr_get_In _ _ _ He1)) as Hw1.
  unfold wf_level1 in Hw1. destruct (level2_table e1) as [t2|]; [|eauto].
  apply andb_true_iff in Hw1 as [Hl2 Hall2].
  destruct (arr_get_wf t2 _ 8 Hl2 H2) as [e2 He2]. rewrite He2. cbn [obind].
  pose proof (proj1 (forallb_forall _ _) Hall2 e2 (arr_get_In _ _ _ He2)) as Hw2.
  unfold wf_level2 in Hw2. destruct (level3_table e2) as [t3|]; [|eauto].
  destruct (arr_get_wf t3 _ 128 Hw2 H3) as [e3 He3]. rewrite He3. cbn [obind]. eauto.
Qed.

(** Two words that agree on opcode, func3 and func7 reach the same
    descriptor at the same depth. *)
Lemma decode_op_fields (t : list op_level1_t) (w1 w2 : Z) :
  FIELD_OPCODE w1 = FIELD_OPCODE w2 -> FIELD_FUNC3 w1 = FIELD_FUNC3 w2 ->
  FIELD_FUNC7 w1 = FIELD_FUNC7 w2 -> decode_op t w1 = decode_op t w2.
Proof. intros H1 H2 H3. unfold decode_op. now rewrite H1, H2, H3. Qed.

Lemma rv32_op_table_wf : wf_op_table rv32_op_table = true.
Proof. vm_compute. reflexivity. Qed.

Lemma decode_op_entries (t : list op_level1_t) (instr : Z) (d : depth) (i : op_info_t) :
  decode_op t instr = Done (d, i) -> In (d, i) (table_entries t).
Proof.
  unfold decode_op, table_entries.
  destruct (arr_get t (FIELD_OPCODE instr)) as [e1| |] eqn:E1; cbn [obind]; try discriminate.
  apply arr_get_In in E1. intros H. apply in_flat_map. exists e1. split; [exact E1 |].
  destruct (level2_table e1) as [t2|]; [| injection H as <- <-; now left].
  destruct (arr_get t2 (FIELD_FUNC3 instr)) as [e2| |] eqn:E2; cbn [obind] in H; try discriminate.
  apply arr_get_In in E2. apply in_flat_map. exists e2. split; [exact E2 |].
  destruct (level3_table e2) as [t3|]; [| injection H as <- <-; now left].
  destruct (arr_get t3 (FIELD_FUNC7 instr)) as [e3| |] eqn:E3; cbn [obind] in H; try discriminate.
  apply arr_get_In in E3. injection H as <- <-. apply in_map_iff. eauto.
Qed.
