(* ===== verification/Disasm.v ===== *)
(** * The disassembler [printInstruction] (src/output.c 133-221)

    [printInstruction instr] returns the text the C function prints.  The
    section [Disasm] is parameterised by the decode table [op_table] and
    the [NOP] word, both of which come from the header.  The function
    is written the way the code is: the NOP test, then three nested table
    reads ([level2_table == NULL], [level3_table == NULL]), then one
    rendering per level ([render_level1], [render_level2],
    [render_level3]), each a transcription of the corresponding [switch]
    with its [printf] format strings.  A [switch] without a matching case
    and without [default] prints nothing: that is [Done ""].

    Theorems of the section: the text is the rendering of the
    descriptor that [decode_op] reaches (refinement to the traversal of
    spec 4.1), the NOP word prints "NOP", a well-formed table is never
    read out of range, the output depends on the opcode/func3/func7 of a
    word only through the descriptor, and unknown words print their hex
    value.  Theorems on [rv32_op_table] give the text of whole
    instruction classes and compare it with the spec's examples. *)

From Stdlib Require Import ZArith List String Bool Lia.
From S2P Require Import Prelude Bits Format OpTable.
Import ListNotations.
Open Scope string_scope.
Open Scope Z_scope.
Open Scope riscv_scope.

Section Disasm.

Context (op_table : list op_level1_t) (NOP : Z).

(** output.c 144-158: the descriptor of a terminal level-1 entry,
    [op_info = &op_table[FIELD_OPCODE(instr)].info] (line 143). *)
Definition render_level1 (op_info : op_info_t) (instr : Z) : outcome string :=
  match name op_info with
  | None => sprintf "0x%.8X" [PInt instr]
  | Some nm =>
      match fu_group_num op_info with
      | FU_GROUP_BRANCH =>
          match operation op_info with
          | OPERATION_JAL =>
              sprintf "%s x%d #%d" [PStr nm; PInt (FIELD_RD instr); PInt (FIELD_OFFSET instr)]
          | _ => Done ""
          end
      | _ => sprintf "%s" [PStr nm]
      end
  end.

(** output.c 161-201: the descriptor of a terminal level-2 entry (line 160). *)
Definition render_level2 (op_info : op_info_t) (instr : Z) : outcome string :=
  match name op_info with
  | None => sprintf "0x%.8X" [PInt instr]
  | Some nm =>
      match fu_group_num op_info with
      | FU_GROUP_INT =>
          if FIELD_OPCODE instr =? 0 then
            sprintf "%s x%d x%d x%d"
              [PStr nm; PInt (FIELD_RD instr); PInt (FIELD_RS1 instr); PInt (FIELD_RS2 instr)]
          else
            sprintf "%s x%d x%d #%d"
              [PStr nm; PInt (FIELD_RD instr); PInt (FIELD_RS1 instr); PInt (FIELD_IMM_I instr)]
      | FU_GROUP_MEM =>
          match data_type op_info with
          | DATA_TYPE_W =>
              match operation op_info with
              | OPERATION_LOAD =>
                  sprintf "%s x%d (%d)x%d"
                    [PStr nm; PInt (FIELD_RD instr); PInt (FIELD_IMM_I instr); PInt (FIELD_RS1 instr)]
              | _ =>
                  sprintf "%s x%d (%d)x%d"
                    [PStr nm; PInt (FIELD_RS2 instr); PInt (FIELD_IMM_S instr); PInt (FIELD_RS1 instr)]
              end
          | DATA_TYPE_F =>
              match operation op_info with
              | OPERATION_LOAD =>
                  sprintf "%s f%d (%d)x%d"
                    [PStr nm; PInt (FIELD_RD instr); PInt (FIELD_IMM_I instr); PInt (FIELD_RS1 instr)]
              | _ =>
                  sprintf "%s f%d (%d)x%d"
                    [PStr nm; PInt (FIELD_RS2 instr); PInt (FIELD_IMM_S instr); PInt (FIELD_RS1 instr)]
              end
          end
      | FU_GROUP_BRANCH =>
          match operation op_info with
          | OPERATION_JALR =>
              sprintf "%s x%d x%d" [PStr nm; PInt (FIELD_RD instr); PInt (FIELD_RS1 instr)]
          | OPERATION_BEQ | OPERATION_BNE =>
              sprintf "%s x%d x%d #%d"
                [PStr nm; PInt (FIELD_RS1 instr); PInt (FIELD_RS2 instr); PInt (FIELD_IMM_S instr)]
          | _ => Done ""
          end
      | _ => sprintf "%s" [PStr nm]
      end
  end.

(** output.c 204-219: the descriptor of a level-3 entry (line 203). *)
Definition render_level3 (op_info : op_info_t) (instr : Z) : outcome string :=
  match name op_info with
  | None => sprintf "0x%.8X" [PInt instr]
  | Some nm =>
      match fu_group_num op_info with
      | FU_GROUP_INT =>
          sprintf "%s x%d x%d x%d"
            [PStr nm; PInt (FIELD_RD instr); PInt (FIELD_RS1 instr); PInt (FIELD_RS2 instr)]
      | FU_GROUP_ADD | FU_GROUP_MULT | FU_GROUP_DIV =>
          sprintf "%s f%d f%d f%d"
            [PStr nm; PInt (FIELD_RD instr); PInt (FIELD_RS1 instr); PInt (FIELD_RS2 instr)]
      | _ => sprintf "%s" [PStr nm]
      end
  end.

(** output.c 133-221: the NOP test, then the three table reads of lines
    142, 159 and 203, each followed by the rendering of its level. *)
Definition printInstruction (instr : Z) : outcome string :=
  if instr =? NOP then sprintf "NOP" [] else
  e1 <- arr_get op_table (FIELD_OPCODE instr) ;;
  match level2_table e1 with
  | None => render_level1 (l1_info e1) instr
  | Some t2 =>
      e2 <- arr_get t2 (FIELD_FUNC3 instr) ;;
      match level3_table e2 with
      | None => render_level2 (l2_info e2) instr
      | Some t3 =>
          e3 <- arr_get t3 (FIELD_FUNC7 instr) ;;
          render_level3 (l3_info e3) instr
      end
  end.

(** The rendering used at each depth of the table. *)
Definition render_at (d : depth) : op_info_t -> Z -> outcome string :=
  match d with
  | Depth1 => render_level1
  | Depth2 => render_level2
  | Depth3 => render_level3
  end.

(** ** Helper lemmas *)

Lemma render_at_total (d : depth) (i : op_info_t) (instr : Z) :
  exists s, render_at d i instr = Done s.
Proof.
  destruct d, i as [[nm|] g o dt];
    cbn [render_at render_level1 render_level2 render_level3 name fu_group_num operation data_type];
    repeat match goal with
           | |- context [match ?x with _ => _ end] => destruct x
           end; cbn; eexists; reflexivity.
Qed.

(** The printed text is the rendering of the descriptor [decode_op]
    reaches; the NOP word is tested first. *)
Lemma printInstruction_decode_op (instr : Z) :
  printInstruction instr =
  if instr =? NOP then Done "NOP"
  else di <- decode_op op_table instr ;; render_at (fst di) (snd di) instr.
Proof.
  unfold printInstruction, decode_op.
  destruct (instr =? NOP); [reflexivity |].
  destruct (arr_get op_table (FIELD_OPCODE instr)) as [e1| |]; cbn [obind]; try reflexivity.
  destruct (level2_table e1) as [t2|]; [|reflexivity].
  destruct (arr_get t2 (FIELD_FUNC3 instr)) as [e2| |]; cbn [obind]; try reflexivity.
  destruct (level3_table e2) as [t3|]; [|reflexivity].
  destruct (arr_get t3 (FIELD_FUNC7 instr)); reflexivity.
Qed.

Lemma printInstruction_at (instr : Z) (d : depth) (i : op_info_t) :
  instr <> NOP -> decode_op op_table instr = Done (d, i) ->
  printInstruction instr = render_at d i instr.
Proof.
  intros Hn Hd. rewrite printInstruction_decode_op, Hd.
  apply Z.eqb_neq in Hn. now rewrite Hn.
Qed.

End Disasm.

(** ** Theorems on any table *)

(** C2: refinement.  [printInstruction] prints [s] exactly when the word
    is the NOP sentinel and [s] is "NOP", or the traversal of spec 4.1
    reaches a descriptor whose rendering at its depth is [s]; it reads
    out of an array exactly when that traversal does. *)
Theorem printInstruction_refines_decode (op_table : list op_level1_t) (NOP instr : Z) (s : string) :
  (printInstruction op_table NOP instr = Done s <->
   (instr = NOP /\ s = "NOP") \/
   (instr <> NOP /\ exists d i, decode_op op_table instr = Done (d, i) /\ render_at d i instr = Done s)) /\
  (printInstruction op_table NOP instr = Fault <-> instr <> NOP /\ decode_op op_table instr = Fault).
Proof.
  rewrite printInstruction_decode_op.
  destruct (Z.eqb_spec instr NOP) as [-> | Hn].
  - split; split; intros H; try discriminate; intuition congruence.
  - destruct (decode_op op_table instr) as [[d i]| |]; cbn [obind fst snd].
    + split; split; intros H.
      * right. eauto.
      * destruct H as [[? _] | (_ & d' & i' & [= <- <-] & H)]; [contradiction | exact H].
      * destruct (render_at_total d i instr) as [s' Hs']. congruence.
      * destruct H as [_ H]; discriminate.
    + split; split; intros H.
      * discriminate.
      * destruct H as [[? _] | (_ & ? & ? & [=] & _)]; contradiction.
      * auto.
      * reflexivity.
    + split; split; intros H.
      * discriminate.
      * destruct H as [[? _] | (_ & ? & ? & [=] & _)]; contradiction.
      * discriminate.
      * destruct H as [_ [=]].
Qed.

Lemma printInstruction_wf_done (op_table : list op_level1_t) (NOP instr : Z) :
  wf_op_table op_table = true -> exists s, printInstruction op_table NOP instr = Done s.
Proof.
  intros Hwf. rewrite printInstruction_decode_op.
  destruct (instr =? NOP); [eauto |].
  destruct (decode_op_total op_table instr Hwf) as (d & i & ->).
  apply render_at_total.
Qed.

(** C1: bounds and totality.  On a table whose arrays have 128, 8 and
    128 entries, [printInstruction] never indexes out of range and
    prints a text for every 32-bit word. *)
Theorem printInstruction_total (op_table : list op_level1_t) (NOP instr : Z) :
  wf_op_table op_table = true -> exists s, printInstruction op_table NOP instr = Done s.
Proof. apply printInstruction_wf_done. Qed.

(** C3: the NOP sentinel prints "NOP", whatever the table holds for its
    opcode. *)
Theorem printInstruction_NOP (op_table : list op_level1_t) (NOP : Z) :
  printInstruction op_table NOP NOP = Done "NOP".
Proof. unfold printInstruction. now rewrite Z.eqb_refl. Qed.

(** C4: an encoding whose descriptor has no mnemonic prints "0x" and
    eight hexadecimal digits, which read back as the word. *)
Theorem printInstruction_unknown (op_table : list op_level1_t) (NOP instr : Z) (d : depth) (i : op_info_t) :
  instr <> NOP -> decode_op op_table instr = Done (d, i) -> name i = None ->
  exists digits, printInstruction op_table NOP instr = Done ("0x" ++ digits) /\
                 String.length digits = 8%nat /\ parse_hex digits = instr mod 2 ^ 32.
Proof.
  intros Hn Hd Hname. rewrite (printInstruction_at _ _ _ _ _ Hn Hd).
  exists (fmt_X 8 instr). split; [| split; [apply length_fmt_X8 | apply parse_hex_fmt_X8]].
  destruct d; unfold render_at, render_level1, render_level2, render_level3; rewrite Hname;
    cbn; now rewrite sappend_nil_r.
Qed.

(** C5: the mnemonic and the operand layout depend only on the opcode,
    func3 and func7 fields: two words that agree on them are printed by
    the same rendering of the same descriptor. *)
Theorem printInstruction_same_keys (op_table : list op_level1_t) (NOP w1 w2 : Z) :
  wf_op_table op_table = true -> w1 <> NOP -> w2 <> NOP ->
  FIELD_OPCODE w1 = FIELD_OPCODE w2 -> FIELD_FUNC3 w1 = FIELD_FUNC3 w2 ->
  FIELD_FUNC7 w1 = FIELD_FUNC7 w2 ->
  exists d i, printInstruction op_table NOP w1 = render_at d i w1 /\
              printInstruction op_table NOP w2 = render_at d i w2.
Proof.
  intros Hwf H1 H2 Ho H3 H7.
  destruct (decode_op_total op_table w1 Hwf) as (d & i & Hd).
  exists d, i. split; apply printInstruction_at; auto.
  rewrite <- (decode_op_fields op_table w1 w2 Ho H3 H7). exact Hd.
Qed.

(** ** The RV32 table: text of whole instruction classes *)

(** Words whose opcode differs from the NOP's are not the NOP. *)
Lemma not_NOP_opcode (w : Z) : FIELD_OPCODE w <> 19 -> w <> rv32_NOP.
Proof. intros H ->. apply H. reflexivity. Qed.

(** Renders a concrete descriptor on a word whose fields are known. *)
Ltac render_known :=
  unfold render_at, render_level1, render_level2, render_level3;
  cbn [name fu_group_num operation data_type mk_info int_op];
  repeat match goal with H : ?f ?w = _ |- context [?f ?w] => rewrite H end;
  cbn; autorewrite with riscv_rw; reflexivity.

(** Decodes a word of [rv32_op_table] from its known key fields. *)
Ltac decode_known :=
  unfold decode_op;
  repeat match goal with
         | H : FIELD_OPCODE ?w = _ |- context [FIELD_OPCODE ?w] => rewrite H
         | H : FIELD_FUNC3 ?w = _ |- context [FIELD_FUNC3 ?w] => rewrite H
         | H : FIELD_FUNC7 ?w = _ |- context [FIELD_FUNC7 ?w] => rewrite H
         end;
  vm_compute; reflexivity.

(** C6: an R-type [add] (opcode 0x33, func3 0, func7 0) prints
    "add x<rd> x<rs1> x<rs2>": the operands of the spec's example
    "add x5, x6, x7", separated by blanks instead of commas. *)
Theorem rv32_print_add (rd rs1 rs2 : Z) :
  0 <= rd < 32 -> 0 <= rs1 < 32 -> 0 <= rs2 < 32 ->
  printInstruction rv32_op_table rv32_NOP (encode_R 51 rd 0 rs1 rs2 0) =
  Done ("add x" ++ fmt_d rd ++ " x" ++ fmt_d rs1 ++ " x" ++ fmt_d rs2).
Proof.
  intros Hd H1 H2.
  destruct (encode_R_fields 51 rd 0 rs1 rs2 0) as (Ho & Hrd & Hf3 & Hr1 & Hr2 & Hf7 & _); try lia.
  rewrite (printInstruction_at _ _ _ Depth3 (int_op "add" OPERATION_ADD));
    [render_known | apply not_NOP_opcode; lia | decode_known].
Qed.

(** C7: a word load [lw] (opcode 0x03, func3 2) prints
    "lw x<rd> (<imm>)x<rs1>"; the spec's example writes it
    "lw x2, #16(x3)". *)
Theorem rv32_print_lw (rd rs1 imm : Z) :
  0 <= rd < 32 -> 0 <= rs1 < 32 -> -2048 <= imm < 2048 ->
  printInstruction rv32_op_table rv32_NOP (encode_I 3 rd 2 rs1 imm) =
  Done ("lw x" ++ fmt_d rd ++ " (" ++ fmt_d imm ++ ")x" ++ fmt_d rs1).
Proof.
  intros Hd H1 Hi.
  destruct (encode_I_fields 3 rd 2 rs1 imm) as (Ho & Hrd & Hf3 & Hr1 & Him & _); try lia.
  rewrite (printInstruction_at _ _ _ Depth2 (mk_info "lw" FU_GROUP_MEM OPERATION_LOAD DATA_TYPE_W));
    [render_known | apply not_NOP_opcode; lia | decode_known].
Qed.

(** C8: a word store [sw] (opcode 0x23, func3 2) prints the stored
    register first: "sw x<rs2> (<imm>)x<rs1>". *)
Theorem rv32_print_sw (rs1 rs2 imm : Z) :
  0 <= rs1 < 32 -> 0 <= rs2 < 32 -> -2048 <= imm < 2048 ->
  printInstruction rv32_op_table rv32_NOP (encode_S 35 2 rs1 rs2 imm) =
  Done ("sw x" ++ fmt_d rs2 ++ " (" ++ fmt_d imm ++ ")x" ++ fmt_d rs1).
Proof.
  intros H1 H2 Hi.
  destruct (encode_S_fields 35 2 rs1 rs2 imm) as (Ho & Hf3 & Hr1 & Hr2 & Him & _); try lia.
  rewrite (printInstruction_at _ _ _ Depth2 (mk_info "sw" FU_GROUP_MEM OPERATION_STORE DATA_TYPE_W));
    [render_known | apply not_NOP_opcode; lia | decode_known].
Qed.

(** C9: [jal] (opcode 0x6F, a terminal level-1 entry) prints
    "jal x<rd> #<offset>", as in the spec's example "jal x1 #100". *)
Theorem rv32_print_jal (rd off : Z) :
  0 <= rd < 32 -> - 2 ^ 20 <= off < 2 ^ 20 -> off mod 2 = 0 ->
  printInstruction rv32_op_table rv32_NOP (encode_J 111 rd off) =
  Done ("jal x" ++ fmt_d rd ++ " #" ++ fmt_d off).
Proof.
  intros Hd Ho2 He.
  destruct (encode_J_fields 111 rd off) as (Ho & Hrd & Hoff & _); try lia.
  rewrite (printInstruction_at _ _ _ Depth1 (mk_info "jal" FU_GROUP_BRANCH OPERATION_JAL DATA_TYPE_W));
    [render_known | apply not_NOP_opcode; lia | decode_known].
Qed.

(** C10: [beq] prints its operand with [FIELD_IMM_S], the store
    immediate, while a branch word holds a B-type offset.  The printed
    number is the offset only for [0 <= off < 2048]: a backward branch
    by [off] prints [off + 1], and offsets beyond 2047 are shifted. *)
Theorem rv32_print_beq (rs1 rs2 off : Z) :
  0 <= rs1 < 32 -> 0 <= rs2 < 32 -> -4096 <= off < 4096 -> off mod 2 = 0 ->
  printInstruction rv32_op_table rv32_NOP (encode_B 99 0 rs1 rs2 off) =
  Done ("beq x" ++ fmt_d rs1 ++ " x" ++ fmt_d rs2 ++ " #" ++ fmt_d (imm_S_of_B off)).
Proof.
  intros H1 H2 Ho2 He.
  destruct (encode_B_fields 99 0 rs1 rs2 off) as (Ho & Hf3 & Hr1 & Hr2 & Him & _); try lia.
  rewrite (printInstruction_at _ _ _ Depth2 (mk_info "beq" FU_GROUP_BRANCH OPERATION_BEQ DATA_TYPE_W));
    [render_known | apply not_NOP_opcode; lia | decode_known].
Qed.

(** C11: [fadd.s] (opcode 0x53, any rounding mode in func3, func7 0)
    prints float registers: "fadd.s f<rd> f<rs1> f<rs2>". *)
Theorem rv32_print_fadd (rd rm rs1 rs2 : Z) :
  0 <= rd < 32 -> 0 <= rm < 8 -> 0 <= rs1 < 32 -> 0 <= rs2 < 32 ->
  printInstruction rv32_op_table rv32_NOP (encode_R 83 rd rm rs1 rs2 0) =
  Done ("fadd.s f" ++ fmt_d rd ++ " f" ++ fmt_d rs1 ++ " f" ++ fmt_d rs2).
Proof.
  intros Hd Hrm H1 H2.
  destruct (encode_R_fields 83 rd rm rs1 rs2 0) as (Ho & Hrd & Hf3 & Hr1 & Hr2 & Hf7 & _); try lia.
  rewrite (printInstruction_at _ _ _ Depth3 (mk_info "fadd.s" FU_GROUP_ADD OPERATION_ADD DATA_TYPE_F)).
  - render_known.
  - apply not_NOP_opcode; lia.
  - unfold decode_op. rewrite Ho, Hf3, Hf7.
    assert (Hrm' : rm = 0 \/ rm = 1 \/ rm = 2 \/ rm = 3 \/ rm = 4 \/ rm = 5 \/ rm = 6 \/ rm = 7) by lia.
    repeat destruct Hrm' as [-> | Hrm']; subst; vm_compute; reflexivity.
Qed.

(** ** Empty output *)

(** The descriptors the renderings print some text for: an unnamed one
    (hex), or a named one with a non-empty mnemonic whose (depth, group,
    operation) has a case in the code's [switch]. *)
Definition prints_text (d : depth) (i : op_info_t) : bool :=
  match name i with
  | None => true
  | Some nm =>
      negb (String.eqb nm "") &&
      match d, fu_group_num i, operation i with
      | Depth1, FU_GROUP_BRANCH, OPERATION_JAL => true
      | Depth1, FU_GROUP_BRANCH, _ => false
      | Depth2, FU_GROUP_BRANCH, (OPERATION_JALR | OPERATION_BEQ | OPERATION_BNE) => true
      | Depth2, FU_GROUP_BRANCH, _ => false
      | _, _, _ => true
      end
  end.

Lemma sappend_nonempty_l (s1 s2 : string) : s1 <> "" -> (s1 ++ s2)%string <> "".
Proof. destruct s1; [congruence | discriminate]. Qed.

Lemma render_at_nonempty (d : depth) (i : op_info_t) (instr : Z) :
  prints_text d i = true -> exists s, render_at d i instr = Done s /\ s <> "".
Proof.
  destruct i as [[nm|] g o dt]; unfold prints_text; cbn [name fu_group_num operation].
  - intros H. apply andb_true_iff in H as [Hnm H].
    apply negb_true_iff, String.eqb_neq in Hnm.
    destruct d, g, o; try discriminate; cbn; try destruct dt; cbn;
      try destruct (FIELD_OPCODE instr =? 0); cbn;
      eexists; (split; [reflexivity | apply sappend_nonempty_l; exact Hnm]).
  - intros _. destruct d; cbn; eexists; split; [reflexivity | discriminate | reflexivity | discriminate
                                                 | reflexivity | discriminate].
Qed.

(** C12: on a well-formed table all of whose descriptors have a
    printing case (a property [vm_compute] checks for a concrete table,
    e.g. [rv32_op_table]), every word prints a non-empty text. *)
Theorem printInstruction_nonempty (op_table : list op_level1_t) (NOP instr : Z) :
  wf_op_table op_table = true ->
  forallb (fun p => prints_text (fst p) (snd p)) (table_entries op_table) = true ->
  exists s, printInstruction op_table NOP instr = Done s /\ s <> "".
Proof.
  intros Hwf Hall. rewrite printInstruction_decode_op.
  destruct (instr =? NOP); [eexists; split; [reflexivity | discriminate] |].
  destruct (decode_op_total op_table instr Hwf) as (d & i & Hd). rewrite Hd. cbn [obind fst snd].
  apply render_at_nonempty.
  exact (proj1 (forallb_forall _ _) Hall (d, i) (decode_op_entries _ _ _ _ Hd)).
Qed.

(** C13: the [switch]es on the operation have no [default]: a named
    branch descriptor that is not [jal] at level 1, or not [jalr], [beq]
    or [bne] at level 2, prints nothing at all, where the spec's table
    (section 4.2) prints the mnemonic alone. *)
Theorem render_branch_silent (i : op_info_t) (nm : string) (instr : Z) :
  name i = Some nm -> fu_group_num i = FU_GROUP_BRANCH ->
  (operation i <> OPERATION_JAL -> render_level1 i instr = Done "") /\
  (operation i <> OPERATION_JALR -> operation i <> OPERATION_BEQ -> operation i <> OPERATION_BNE ->
   render_level2 i instr = Done "").
Proof.
  intros Hn Hg. unfold render_level1, render_level2. rewrite Hn, Hg.
  split; [intros H1 | intros H1 H2 H3]; destruct (operation i); congruence.
Qed.

(** ** Witnesses: the theorems applied on [rv32_op_table] *)

Lemma printInstruction_total_witness :
  wf_op_table rv32_op_table = true /\ exists s, printInstruction rv32_op_table rv32_NOP 0 = Done s.
Proof.
  split; [vm_compute; reflexivity |].
  apply printInstruction_total. vm_compute. reflexivity.
Defined.

Lemma printInstruction_unknown_witness :
  (1 <> rv32_NOP /\ decode_op rv32_op_table 1 = Done (Depth1, null_info) /\ name null_info = None) /\
  exists digits, printInstruction rv32_op_table rv32_NOP 1 = Done ("0x" ++ digits) /\
                 String.length digits = 8%nat /\ parse_hex digits = 1 mod 2 ^ 32.
Proof.
  split; [split; [discriminate | split; [vm_compute; reflexivity | reflexivity]] |].
  apply (printInstruction_unknown _ _ _ Depth1 null_info);
    [discriminate | vm_compute; reflexivity | reflexivity].
Defined.

Lemma printInstruction_same_keys_witness :
  let w1 := encode_R 51 5 0 6 7 0 in
  let w2 := encode_R 51 1 0 2 3 0 in
  (wf_op_table rv32_op_table = true /\ w1 <> rv32_NOP /\ w2 <> rv32_NOP /\
   FIELD_OPCODE w1 = FIELD_OPCODE w2 /\ FIELD_FUNC3 w1 = FIELD_FUNC3 w2 /\
   FIELD_FUNC7 w1 = FIELD_FUNC7 w2) /\
  exists d i, printInstruction rv32_op_table rv32_NOP w1 = render_at d i w1 /\
              printInstruction rv32_op_table rv32_NOP w2 = render_at d i w2.
Proof.
  intros w1 w2.
  assert (H : wf_op_table rv32_op_table = true /\ w1 <> rv32_NOP /\ w2 <> rv32_NOP /\
              FIELD_OPCODE w1 = FIELD_OPCODE w2 /\ FIELD_FUNC3 w1 = FIELD_FUNC3 w2 /\
              FIELD_FUNC7 w1 = FIELD_FUNC7 w2)
    by (repeat split; vm_compute; first [reflexivity | discriminate]).
  split; [exact H |].
  destruct H as (H1 & H2 & H3 & H4 & H5 & H6).
  exact (printInstruction_same_keys rv32_op_table rv32_NOP w1 w2 H1 H2 H3 H4 H5 H6).
Defined.

Lemma rv32_print_add_witness :
  (0 <= 5 < 32 /\ 0 <= 6 < 32 /\ 0 <= 7 < 32) /\
  printInstruction rv32_op_table rv32_NOP (encode_R 51 5 0 6 7 0) =
  Done ("add x" ++ fmt_d 5 ++ " x" ++ fmt_d 6 ++ " x" ++ fmt_d 7).
Proof. split; [lia | apply rv32_print_add; lia]. Defined.

Lemma rv32_print_lw_witness :
  (0 <= 2 < 32 /\ 0 <= 3 < 32 /\ -2048 <= 16 < 2048) /\
  printInstruction rv32_op_table rv32_NOP (encode_I 3 2 2 3 16) =
  Done ("lw x" ++ fmt_d 2 ++ " (" ++ fmt_d 16 ++ ")x" ++ fmt_d 3).
Proof. split; [lia | apply rv32_print_lw; lia]. Defined.

Lemma rv32_print_sw_witness :
  (0 <= 3 < 32 /\ 0 <= 2 < 32 /\ -2048 <= -4 < 2048) /\
  printInstruction rv32_op_table rv32_NOP (encode_S 35 2 3 2 (-4)) =
  Done ("sw x" ++ fmt_d 2 ++ " (" ++ fmt_d (-4) ++ ")x" ++ fmt_d 3).
Proof. split; [lia | apply rv32_print_sw; lia]. Defined.

Lemma rv32_print_jal_witness :
  (0 <= 1 < 32 /\ - 2 ^ 20 <= 100 < 2 ^ 20 /\ 100 mod 2 = 0) /\
  printInstruction rv32_op_table rv32_NOP (encode_J 111 1 100) =
  Done ("jal x" ++ fmt_d 1 ++ " #" ++ fmt_d 100).
Proof. split; [repeat split; (lia || reflexivity) | apply rv32_print_jal; (lia || reflexivity)]. Defined.

Lemma rv32_print_beq_witness :
  (0 <= 1 < 32 /\ 0 <= 2 < 32 /\ -4096 <= -8 < 4096 /\ -8 mod 2 = 0) /\
  printInstruction rv32_op_table rv32_NOP (encode_B 99 0 1 2 (-8)) =
  Done ("beq x" ++ fmt_d 1 ++ " x" ++ fmt_d 2 ++ " #" ++ fmt_d (imm_S_of_B (-8))).
Proof. split; [repeat split; (lia || reflexivity) | apply rv32_print_beq; (lia || reflexivity)]. Defined.

Lemma rv32_print_fadd_witness :
  (0 <= 1 < 32 /\ 0 <= 7 < 8 /\ 0 <= 2 < 32 /\ 0 <= 3 < 32) /\
  printInstruction rv32_op_table rv32_NOP (encode_R 83 1 7 2 3 0) =
  Done ("fadd.s f" ++ fmt_d 1 ++ " f" ++ fmt_d 2 ++ " f" ++ fmt_d 3).
Proof. split; [lia | apply rv32_print_fadd; lia]. Defined.

Lemma printInstruction_nonempty_witness :
  (wf_op_table rv32_op_table = true /\
   forallb (fun p => prints_text (fst p) (snd p)) (table_entries rv32_op_table) = true) /\
  exists s, printInstruction rv32_op_table rv32_NOP 0 = Done s /\ s <> "".
Proof.
  assert (H1 : wf_op_table rv32_op_table = true) by (vm_compute; reflexivity).
  assert (H2 : forallb (fun p => prints_text (fst p) (snd p)) (table_entries rv32_op_table) = true)
    by (vm_compute; reflexivity).
  split; [split; assumption |].
  exact (printInstruction_nonempty rv32_op_table rv32_NOP 0 H1 H2).
Defined.

Lemma render_branch_silent_witness :
  let i := mk_info "blt" FU_GROUP_BRANCH OPERATION_BLT DATA_TYPE_W in
  (name i = Some "blt" /\ fu_group_num i = FU_GROUP_BRANCH) /\
  (operation i <> OPERATION_JAL -> render_level1 i 0 = Done "") /\
  (operation i <> OPERATION_JALR -> operation i <> OPERATION_BEQ -> operation i <> OPERATION_BNE ->
   render_level2 i 0 = Done "").
Proof.
  intros i. split; [split; reflexivity |].
  apply (render_branch_silent i "blt" 0); reflexivity.
Defined.

(** The texts of the spec's end-to-end examples (section 8), as printed. *)
Example spec_examples_as_printed :
  printInstruction rv32_op_table rv32_NOP (encode_R 51 5 0 6 7 0) = Done "add x5 x6 x7" /\
  printInstruction rv32_op_table rv32_NOP (encode_I 3 2 2 3 16) = Done "lw x2 (16)x3" /\
  printInstruction rv32_op_table rv32_NOP (encode_J 111 1 100) = Done "jal x1 #100" /\
  printInstruction rv32_op_table rv32_NOP (encode_B 99 0 1 2 (-8)) = Done "beq x1 x2 #-7" /\
  printInstruction rv32_op_table rv32_NOP 1 = Done "0x00000001".
Proof. repeat split; vm_compute; reflexivity. Qed.
