(* ===== verification/Occupancy.v ===== *)
(** * The occupancy report [print_fu_group_int] / [print_fu_group_fp]
      (src/output.c 83-129)

    Both functions walk the linked list of functional units of a group
    ([fu->next]) and, in each unit, the linked list of its stages from
    [stage_list] through [stage->prev] (the stage nearest completion
    first), counting the stages in [j] and printing one line for every
    stage whose [current_cycle] is not -1.  The two C functions are the
    same code over two struct types ([fu_int_t]/[fu_int_stage_t] and
    [fu_fp_t]/[fu_fp_stage_t], declared in [fu.h], not in the sources);
    the class [FuKind] states the fields the code reads, the loops are
    written once against it, and the two C functions are its instances.

    Memory is a heap: [gmap loc] maps for the unit and stage structs, a
    pointer is [option loc] with [None] for NULL.  Reading a pointer that
    is not in the heap is undefined behaviour ([Fault]).  The [while]
    loops get a fuel bound and return [OutOfFuel] when it runs out (a
    cyclic list makes the C loop run for ever).

    [stage_chain] and [unit_chain] say that a pointer heads an acyclic
    NULL-terminated list holding given structs; [occupancy] is the
    list-level specification of spec section 4.3 (every busy stage, with
    its index from the end).  The refinement theorem shows that on such
    a chain, with fuel at least the length of every list, the loops
    print exactly the records of [occupancy]. *)

From stdpp Require Import base relations gmap.
From Stdlib Require Import ZArith List String Ascii Lia Sorted.
From S2P Require Import Prelude Bits Format OpTable Disasm.
Import ListNotations.
Open Scope string_scope.
Open Scope Z_scope.
Open Scope riscv_scope.

(** ** Memory *)

Definition loc := positive.
Definition ptr := option loc.

Definition deref {A : Type} (m : gmap loc A) (p : loc) : outcome A :=
  match m !! p with
  | Some a => Done a
  | None => Fault
  end.

(** ** The structs of [fu.h] *)

Record fu_int_stage_t : Type := {
  int_stage_prev : ptr; int_stage_num_cycles : Z; int_stage_current_cycle : Z; int_stage_instr : Z
}.
Record fu_int_t : Type := { int_name : string; int_stage_list : ptr; int_next : ptr }.

Record fu_fp_stage_t : Type := {
  fp_stage_prev : ptr; fp_stage_num_cycles : Z; fp_stage_current_cycle : Z; fp_stage_instr : Z
}.
Record fu_fp_t : Type := { fp_name : string; fp_stage_list : ptr; fp_next : ptr }.

(** What the report reads of a unit and of a stage. *)
Class FuKind (U St : Type) := {
  fu_name : U -> string;
  fu_stage_list : U -> ptr;
  fu_next : U -> ptr;
  stage_prev : St -> ptr;
  stage_num_cycles : St -> Z;
  stage_current_cycle : St -> Z;
  stage_instr : St -> Z
}.

#[export] Instance fu_int_kind : FuKind fu_int_t fu_int_stage_t := {
  fu_name := int_name; fu_stage_list := int_stage_list; fu_next := int_next;
  stage_prev := int_stage_prev; stage_num_cycles := int_stage_num_cycles;
  stage_current_cycle := int_stage_current_cycle; stage_instr := int_stage_instr
}.

#[export] Instance fu_fp_kind : FuKind fu_fp_t fu_fp_stage_t := {
  fu_name := fp_name; fu_stage_list := fp_stage_list; fu_next := fp_next;
  stage_prev := fp_stage_prev; stage_num_cycles := fp_stage_num_cycles;
  stage_current_cycle := fp_stage_current_cycle; stage_instr := fp_stage_instr
}.

Record fu_heap (U St : Type) : Type := {
  units : gmap loc U;
  stages : gmap loc St
}.
Arguments units {U St} _.
Arguments stages {U St} _.

(** The format string of output.c 95 (and 119). *)
Definition stage_fmt : string :=
  TAB ++ TAB ++ "name '%s', stage %d (from end), cycle %d/%d, ".

Section Report.

Context (op_table : list op_level1_t) (NOP : Z).
Context {U St : Type} `{FuKind U St}.

(** output.c 94-99: the line of one stage, empty when it is idle. *)
Definition print_stage_line (fu : U) (j : Z) (stage : St) : outcome string :=
  if stage_current_cycle stage =? -1 then Done "" else
  s1 <- sprintf stage_fmt [PStr (fu_name fu); PInt j; PInt (stage_current_cycle stage);
                           PInt (stage_num_cycles stage)] ;;
  s2 <- printInstruction op_table NOP (stage_instr stage) ;;
  s3 <- sprintf NL [] ;;
  Done (s1 ++ s2 ++ s3).

(** output.c 93-102: [while (stage != NULL) { ...; j++; stage = stage->prev; }],
    from the [j] and [stage] the caller set (lines 91-92). *)
Fixpoint print_stages (fuel : nat) (m : gmap loc St) (fu : U) (j : Z) (stage : ptr)
  : outcome string :=
  match stage with
  | None => Done ""
  | Some l =>
      match fuel with
      | O => OutOfFuel
      | S fuel' =>
          st <- deref m l ;;
          line <- print_stage_line fu j st ;;
          rest <- print_stages fuel' m fu (j + 1) (stage_prev st) ;;
          Done (line ++ rest)
      end
  end.

(** output.c 90-104: [while (fu != NULL) { j = 0; stage = fu->stage_list; ...;
    fu = fu->next; }]. *)
Fixpoint print_units (fuel : nat) (h : fu_heap U St) (fu : ptr) : outcome string :=
  match fu with
  | None => Done ""
  | Some l =>
      match fuel with
      | O => OutOfFuel
      | S fuel' =>
          u <- deref (units h) l ;;
          s <- print_stages fuel (stages h) u 0 (fu_stage_list u) ;;
          rest <- print_units fuel' h (fu_next u) ;;
          Done (s ++ rest)
      end
  end.

(** output.c 89-104 (and 113-128): [fu = fu_list] and the loop, with the
    loops' fuel. *)
Definition print_fu_group (fuel : nat) (h : fu_heap U St) (fu_list : ptr) : outcome string :=
  print_units fuel h fu_list.

(** ** Specification (spec section 4.3) *)

Record occ_record : Type := {
  rec_name : string; rec_stage : Z; rec_cycle : Z; rec_total : Z; rec_instr : Z
}.

(** The records of one unit: its busy stages, numbered from the end. *)
Definition unit_records (fu : U) (ss : list St) : list occ_record :=
  map (fun p => {| rec_name := fu_name fu; rec_stage := fst p;
                   rec_cycle := stage_current_cycle (snd p);
                   rec_total := stage_num_cycles (snd p); rec_instr := stage_instr (snd p) |})
      (List.filter (fun p => negb (stage_current_cycle (snd p) =? -1))
              (combine (map Z.of_nat (seq 0 (List.length ss))) ss)).

Definition occupancy (us : list (U * list St)) : list occ_record :=
  flat_map (fun p => unit_records (fst p) (snd p)) us.

Definition render_record (r : occ_record) : outcome string :=
  s1 <- sprintf stage_fmt [PStr (rec_name r); PInt (rec_stage r); PInt (rec_cycle r);
                           PInt (rec_total r)] ;;
  s2 <- printInstruction op_table NOP (rec_instr r) ;;
  Done (s1 ++ s2 ++ NL).

Fixpoint render_records (rs : list occ_record) : outcome string :=
  match rs with
  | [] => Done ""
  | r :: rs' => s <- render_record r ;; t <- render_records rs' ;; Done (s ++ t)
  end.

(** ** Linked lists in the heap *)

Inductive stage_chain (m : gmap loc St) : ptr -> list St -> Prop :=
| stage_chain_nil : stage_chain m None []
| stage_chain_cons (l : loc) (st : St) (ss : list St) :
    m !! l = Some st -> stage_chain m (stage_prev st) ss -> stage_chain m (Some l) (st :: ss).

Inductive unit_chain (h : fu_heap U St) : ptr -> list (U * list St) -> Prop :=
| unit_chain_nil : unit_chain h None []
| unit_chain_cons (l : loc) (u : U) (ss : list St) (us : list (U * list St)) :
    units h !! l = Some u -> stage_chain (stages h) (fu_stage_list u) ss ->
    unit_chain h (fu_next u) us -> unit_chain h (Some l) ((u, ss) :: us).

(** Fuel enough for a chain: its length and that of every stage list. *)
Definition chain_fuel (us : list (U * list St)) : nat :=
  fold_right (fun p n => Nat.max (S (List.length (snd p))) (S n)) O us.

(** One [stage = stage->prev] step of the inner loop, through a cell the
    heap holds.  A stage list that loops back is one whose [rtc] reaches
    a location that reaches itself by [tc]. *)
Inductive prev_step (m : gmap loc St) : ptr -> ptr -> Prop :=
| prev_step_cell (l : loc) (st : St) : m !! l = Some st -> prev_step m (Some l) (stage_prev st).

(** The units from [p] up to the pointer [q], each with an acyclic
    NULL-terminated stage list. *)
Inductive unit_prefix (h : fu_heap U St) : ptr -> list (U * list St) -> ptr -> Prop :=
| unit_prefix_nil (p : ptr) : unit_prefix h p [] p
| unit_prefix_cons (l : loc) (u : U) (ss : list St) (us : list (U * list St)) (q : ptr) :
    units h !! l = Some u -> stage_chain (stages h) (fu_stage_list u) ss ->
    unit_prefix h (fu_next u) us q -> unit_prefix h (Some l) ((u, ss) :: us) q.

End Report.

Definition print_fu_group_int (op_table : list op_level1_t) (NOP : Z) (fuel : nat)
    (h : fu_heap fu_int_t fu_int_stage_t) (fu_int_list : ptr) : outcome string :=
  print_fu_group op_table NOP fuel h fu_int_list.

Definition print_fu_group_fp (op_table : list op_level1_t) (NOP : Z) (fuel : nat)
    (h : fu_heap fu_fp_t fu_fp_stage_t) (fu_fp_list : ptr) : outcome string :=
  print_fu_group op_table NOP fuel h fu_fp_list.

(** ** Theorems *)

Section ReportTheory.

Context (op_table : list op_level1_t) (NOP : Z).
Context {U St : Type} `{FuKind U St}.

Definition mk_record (fu : U) (j : Z) (st : St) : occ_record :=
  {| rec_name := fu_name fu; rec_stage := j; rec_cycle := stage_current_cycle st;
     rec_total := stage_num_cycles st; rec_instr := stage_instr st |}.

(** [unit_records] from index [k] on. *)
Definition records_from (fu : U) (k : nat) (ss : list St) : list occ_record :=
  map (fun p => mk_record fu (fst p) (snd p))
      (List.filter (fun p => negb (stage_current_cycle (snd p) =? -1))
              (combine (map Z.of_nat (seq k (List.length ss))) ss)).

Lemma unit_records_from (fu : U) (ss : list St) : unit_records fu ss = records_from fu 0 ss.
Proof. reflexivity. Qed.

Lemma records_from_cons (fu : U) (k : nat) (st : St) (ss : list St) :
  records_from fu k (st :: ss) =
  ((if stage_current_cycle st =? -1 then [] else [mk_record fu (Z.of_nat k) st])
   ++ records_from fu (S k) ss)%list.
Proof.
  unfold records_from. cbn [List.length seq map combine filter fst snd].
  destruct (stage_current_cycle st =? -1); reflexivity.
Qed.

Lemma render_records_app (rs1 rs2 : list occ_record) :
  render_records op_table NOP (rs1 ++ rs2)%list =
  s1 <- render_records op_table NOP rs1 ;; s2 <- render_records op_table NOP rs2 ;; Done (s1 ++ s2).
Proof.
  induction rs1 as [|r rs IH]; cbn [app render_records].
  - cbn [obind]. destruct (render_records op_table NOP rs2); reflexivity.
  - rewrite IH. destruct (render_record op_table NOP r); cbn [obind]; [|reflexivity..].
    destruct (render_records op_table NOP rs); cbn [obind]; [|reflexivity..].
    destruct (render_records op_table NOP rs2); cbn [obind]; [|reflexivity..].
    now rewrite sappend_assoc.
Qed.

Lemma print_stage_line_record (fu : U) (j : Z) (st : St) :
  print_stage_line op_table NOP fu j st =
  if stage_current_cycle st =? -1 then Done ""
  else render_records op_table NOP [mk_record fu j st].
Proof.
  unfold print_stage_line. destruct (stage_current_cycle st =? -1); [reflexivity |].
  cbn [render_records]. unfold render_record.
  cbn [mk_record rec_name rec_stage rec_cycle rec_total rec_instr].
  destruct (sprintf stage_fmt _) as [s1| |]; cbn [obind]; [|reflexivity..].
  destruct (printInstruction op_table NOP (stage_instr st)); cbn [obind]; [|reflexivity..].
  change (sprintf NL []) with (Done NL). cbn [obind].
  now rewrite sappend_nil_r.
Qed.

Lemma print_stages_chain (m : gmap loc St) (fu : U) (p : ptr) (ss : list St) :
  stage_chain m p ss -> forall (fuel k : nat), (List.length ss <= fuel)%nat ->
  print_stages op_table NOP fuel m fu (Z.of_nat k) p = render_records op_table NOP (records_from fu k ss).
Proof.
  induction 1 as [|l st ss Hl _ IH]; intros fuel k Hf; [now destruct fuel |].
  destruct fuel as [|f]; [cbn in Hf; lia |].
  cbn [print_stages]. unfold deref. rewrite Hl. cbn [obind].
  rewrite print_stage_line_record, records_from_cons, render_records_app.
  replace (Z.of_nat k + 1) with (Z.of_nat (S k)) by lia.
  rewrite (IH f (S k)) by (cbn in Hf; lia).
  destruct (stage_current_cycle st =? -1); cbn [obind render_records]; reflexivity.
Qed.

Lemma print_units_chain (h : fu_heap U St) (p : ptr) (us : list (U * list St)) :
  unit_chain h p us -> forall fuel : nat, (chain_fuel us <= fuel)%nat ->
  print_units op_table NOP fuel h p = render_records op_table NOP (occupancy us).
Proof.
  induction 1 as [|l u ss us Hl Hss _ IH]; intros fuel Hf; [now destruct fuel |].
  cbn [chain_fuel fold_right fst snd] in Hf. fold (chain_fuel us) in Hf.
  destruct fuel as [|f]; [lia |].
  cbn [print_units]. unfold deref. rewrite Hl. cbn [obind].
  change 0 with (Z.of_nat 0). rewrite (print_stages_chain _ _ _ _ Hss) by lia.
  cbn [occupancy flat_map fst snd]. fold (occupancy us).
  rewrite render_records_app, unit_records_from, (IH f) by lia. reflexivity.
Qed.

Lemma render_records_total (rs : list occ_record) :
  wf_op_table op_table = true -> exists s, render_records op_table NOP rs = Done s.
Proof.
  intros Hwf. induction rs as [|r rs [t IH]]; [eexists; reflexivity |].
  cbn [render_records]. unfold render_record.
  destruct (printInstruction_wf_done op_table NOP (rec_instr r) Hwf) as [s2 Hs2].
  rewrite Hs2, IH. eexists. reflexivity.
Qed.

Lemma print_stage_line_wf (fu : U) (j : Z) (st : St) :
  wf_op_table op_table = true -> exists line, print_stage_line op_table NOP fu j st = Done line.
Proof.
  intros Hwf. rewrite print_stage_line_record.
  destruct (stage_current_cycle st =? -1); [eauto | apply render_records_total; exact Hwf].
Qed.

Lemma records_from_In (fu : U) (k : nat) (ss : list St) (r : occ_record) :
  In r (records_from fu k ss) <->
  exists j st, nth_error ss j = Some st /\ stage_current_cycle st <> -1 /\
               r = mk_record fu (Z.of_nat (k + j)) st.
Proof.
  revert k; induction ss as [|st ss IH]; intros k.
  - split; [intros [] | intros (j & st & Hj & _); destruct j; discriminate].
  - rewrite records_from_cons, in_app_iff, IH. split.
    + intros [Hr | (j & st' & Hj & Hc & ->)].
      * destruct (Z.eqb_spec (stage_current_cycle st) (-1)); [destruct Hr |].
        destruct Hr as [<- | []]. exists O, st. rewrite Nat.add_0_r. auto.
      * exists (S j), st'. rewrite Nat.add_succ_r. auto.
    + intros ([|j] & st' & Hj & Hc & ->); cbn [nth_error] in Hj.
      * injection Hj as <-. left. rewrite Nat.add_0_r.
        destruct (Z.eqb_spec (stage_current_cycle st) (-1)); [contradiction | now left].
      * right. exists j, st'. rewrite Nat.add_succ_r. auto.
Qed.

Lemma records_from_sorted (fu : U) (k : nat) (ss : list St) :
  Forall (fun r => Z.of_nat k <= rec_stage r) (records_from fu k ss) /\
  StronglySorted Z.lt (map rec_stage (records_from fu k ss)).
Proof.
  revert k; induction ss as [|st ss IH]; intros k; [split; constructor |].
  destruct (IH (S k)) as [Hge Hs].
  rewrite records_from_cons.
  destruct (stage_current_cycle st =? -1); cbn [app map].
  - split; [|exact Hs]. eapply Forall_impl; [|exact Hge]. cbn; lia.
  - split.
    + constructor; [cbn; lia|]. eapply Forall_impl; [|exact Hge]. cbn; lia.
    + constructor; [exact Hs|]. apply Forall_map. eapply Forall_impl; [|exact Hge]. cbn; lia.
Qed.

Lemma print_stages_mono (fuel1 fuel2 : nat) (m : gmap loc St) (fu : U) (j : Z) (p : ptr) (s : string) :
  print_stages op_table NOP fuel1 m fu j p = Done s -> (fuel1 <= fuel2)%nat ->
  print_stages op_table NOP fuel2 m fu j p = Done s.
Proof.
  revert fuel2 j p s; induction fuel1 as [|f1 IH]; intros fuel2 j p s Hr Hle;
    destruct p as [l|]; try (destruct fuel2; exact Hr); [discriminate |].
  destruct fuel2 as [|f2]; [lia |]. cbn [print_stages] in *.
  destruct (deref m l) as [st| |]; cbn [obind] in *; try discriminate.
  destruct (print_stage_line op_table NOP fu j st); cbn [obind] in *; try discriminate.
  destruct (print_stages op_table NOP f1 m fu (j + 1) (stage_prev st)) eqn:E; cbn [obind] in Hr;
    try discriminate.
  rewrite (IH f2 _ _ _ E) by lia. exact Hr.
Qed.

Lemma print_units_mono (fuel1 fuel2 : nat) (h : fu_heap U St) (p : ptr) (s : string) :
  print_units op_table NOP fuel1 h p = Done s -> (fuel1 <= fuel2)%nat ->
  print_units op_table NOP fuel2 h p = Done s.
Proof.
  revert fuel2 p s; induction fuel1 as [|f1 IH]; intros fuel2 p s Hr Hle;
    destruct p as [l|]; try (destruct fuel2; exact Hr); [discriminate |].
  destruct fuel2 as [|f2]; [lia |]. cbn [print_units] in *.
  destruct (deref (units h) l) as [u| |]; cbn [obind] in *; try discriminate.
  destruct (print_stages op_table NOP (S f1) (stages h) u 0 (fu_stage_list u)) eqn:E1;
    cbn [obind] in Hr; try discriminate.
  rewrite (print_stages_mono _ (S f2) _ _ _ _ _ E1) by lia. cbn [obind].
  destruct (print_units op_table NOP f1 h (fu_next u)) eqn:E2; cbn [obind] in Hr; try discriminate.
  rewrite (IH f2 _ _ E2) by lia. exact Hr.
Qed.

(** C14: refinement.  On a heap where the group's list and every
    unit's stage list are acyclic NULL-terminated chains holding [us],
    the report, run with fuel at least the length of every chain,
    prints exactly the records of the specification [occupancy us],
    in order. *)
Theorem print_fu_group_refines (h : fu_heap U St) (p : ptr) (us : list (U * list St)) (fuel : nat) :
  unit_chain h p us -> (chain_fuel us <= fuel)%nat ->
  print_fu_group op_table NOP fuel h p = render_records op_table NOP (occupancy us).
Proof. intros Hc Hf. exact (print_units_chain h p us Hc fuel Hf). Qed.

(** C15: termination.  With a well-formed decode table, the report
    over an acyclic chain finishes: [chain_fuel us] is enough fuel, and
    every larger fuel gives the same text. *)
Theorem print_fu_group_terminates (h : fu_heap U St) (p : ptr) (us : list (U * list St)) :
  wf_op_table op_table = true -> unit_chain h p us ->
  exists s, forall fuel, (chain_fuel us <= fuel)%nat -> print_fu_group op_table NOP fuel h p = Done s.
Proof.
  intros Hwf Hc. destruct (render_records_total (occupancy us) Hwf) as [s Hs].
  exists s. intros fuel Hf. unfold print_fu_group. rewrite (print_units_chain h p us Hc fuel Hf).
  exact Hs.
Qed.

Lemma unit_records_exact (fu : U) (ss : list St) :
  (forall r, In r (unit_records fu ss) <->
     exists j st, nth_error ss j = Some st /\ stage_current_cycle st <> -1 /\
                  r = mk_record fu (Z.of_nat j) st) /\
  StronglySorted Z.lt (map rec_stage (unit_records fu ss)).
Proof.
  rewrite unit_records_from. split; [|apply records_from_sorted].
  intros r. exact (records_from_In fu 0 ss r).
Qed.

Lemma unit_records_bounds (fu : U) (ss : list St) :
  Forall (fun st => stage_current_cycle st = -1 \/
                    0 <= stage_current_cycle st < stage_num_cycles st) ss ->
  Forall (fun r => 0 <= rec_cycle r < rec_total r /\ 0 <= rec_stage r < Z.of_nat (List.length ss))
         (unit_records fu ss).
Proof.
  intros Hinv. apply Forall_forall. intros r Hr.
  rewrite unit_records_from in Hr. apply records_from_In in Hr as (j & st & Hj & Hc & ->).
  pose proof (proj1 (Forall_forall _ _) Hinv st (nth_error_In _ _ Hj)) as Hst.
  assert (Hlt : (j < List.length ss)%nat) by (apply nth_error_Some; congruence).
  cbv beta in Hst. unfold mk_record; cbn [rec_cycle rec_total rec_stage]. lia.
Qed.

Lemma occupancy_one (u : U) (ss : list St) : occupancy [(u, ss)] = unit_records u ss.
Proof. unfold occupancy. cbn [flat_map fst snd]. apply app_nil_r. Qed.

(** C16: for a unit whose stage list is an acyclic chain, the report
    prints one line for exactly each busy stage ([current_cycle <> -1]),
    with that stage's own counters and its index from the end, in
    strictly increasing index order; idle stages print nothing. *)
Theorem print_fu_group_busy_stages (h : fu_heap U St) (p : ptr) (u : U) (ss : list St) (fuel : nat) :
  unit_chain h p [(u, ss)] -> (chain_fuel [(u, ss)] <= fuel)%nat ->
  exists rs, print_fu_group op_table NOP fuel h p = render_records op_table NOP rs /\
    (forall r, In r rs <-> exists j st, nth_error ss j = Some st /\ stage_current_cycle st <> -1 /\
                                       r = mk_record u (Z.of_nat j) st) /\
    StronglySorted Z.lt (map rec_stage rs).
Proof.
  intros Hc Hf. exists (unit_records u ss). split; [|apply unit_records_exact].
  unfold print_fu_group. rewrite (print_units_chain h p _ Hc fuel Hf). now rewrite occupancy_one.
Qed.

(** C17: bounds.  If every stage satisfies the invariant of spec
    section 3 ([current_cycle] is -1 or in [0, num_cycles)), every line
    the report prints for the unit shows [0 <= cycle < total] and a
    stage index below the length of the chain. *)
Theorem print_fu_group_bounds (h : fu_heap U St) (p : ptr) (u : U) (ss : list St) (fuel : nat) :
  Forall (fun st => stage_current_cycle st = -1 \/
                    0 <= stage_current_cycle st < stage_num_cycles st) ss ->
  unit_chain h p [(u, ss)] -> (chain_fuel [(u, ss)] <= fuel)%nat ->
  exists rs, print_fu_group op_table NOP fuel h p = render_records op_table NOP rs /\
    Forall (fun r => 0 <= rec_cycle r < rec_total r /\ 0 <= rec_stage r < Z.of_nat (List.length ss)) rs.
Proof.
  intros Hinv Hc Hf. exists (unit_records u ss). split; [|exact (unit_records_bounds u ss Hinv)].
  unfold print_fu_group. rewrite (print_units_chain h p _ Hc fuel Hf). now rewrite occupancy_one.
Qed.

Lemma tc_first {A : Type} (R : relation A) (x y : A) : tc R x y -> exists z, R x z /\ rtc R z y.
Proof.
  intros [x' y' Hs | x' z y' Hs Hz]; [exists y'; split; [exact Hs | apply rtc_refl] |].
  exists z. split; [exact Hs | now apply tc_rtc].
Qed.

(** A pointer that reaches a cycle is a cell whose [prev] still reaches it. *)
Lemma lasso_step (m : gmap loc St) (p : ptr) (lc : loc) :
  rtc (prev_step m) p (Some lc) -> tc (prev_step m) (Some lc) (Some lc) ->
  exists l st, p = Some l /\ m !! l = Some st /\ rtc (prev_step m) (stage_prev st) (Some lc).
Proof.
  intros Hr Hc. destruct Hr as [p | p q r Hpq Hq] eqn:E.
  - destruct (tc_first _ _ _ Hc) as (z & Hz & Hzr). inversion Hz; subst. eauto.
  - inversion Hpq; subst. eauto.
Qed.

(** On a well-formed table no stage line faults, so an inner loop that
    reaches a cycle runs out of fuel whatever the fuel. *)
Lemma print_stages_lasso (m : gmap loc St) (fu : U) (lc : loc) :
  wf_op_table op_table = true -> tc (prev_step m) (Some lc) (Some lc) ->
  forall fuel j p, rtc (prev_step m) p (Some lc) -> print_stages op_table NOP fuel m fu j p = OutOfFuel.
Proof.
  intros Hwf Hc fuel. induction fuel as [|f IH]; intros j p Hr;
    destruct (lasso_step m p lc Hr Hc) as (l & st & -> & Hst & Hr'); [reflexivity |].
  cbn [print_stages]. unfold deref. rewrite Hst. cbn [obind].
  destruct (print_stage_line_wf fu j st Hwf) as [line ->]. cbn [obind].
  rewrite (IH _ _ Hr'). reflexivity.
Qed.

(** An acyclic stage list never faults: the loop ends or runs out of fuel. *)
Lemma print_stages_chain_no_fault (m : gmap loc St) (fu : U) (p : ptr) (ss : list St) :
  wf_op_table op_table = true -> stage_chain m p ss ->
  forall fuel j, print_stages op_table NOP fuel m fu j p <> Fault.
Proof.
  intros Hwf Hc. induction Hc as [|l st ss Hl Hc IH]; intros [|f] j; cbn [print_stages];
    try discriminate.
  unfold deref. rewrite Hl. cbn [obind].
  destruct (print_stage_line_wf fu j st Hwf) as [line ->]. cbn [obind].
  specialize (IH f (j + 1)).
  destruct (print_stages op_table NOP f m fu (j + 1) (stage_prev st)); cbn [obind]; congruence.
Qed.

(** C18: a stage list that loops back makes the C [while] loop run for
    ever.  When the group's list reaches, through units with acyclic
    stage lists, a unit whose stage list reaches a cycle of [prev]
    pointers (however long the path to it and the cycle), the report is
    [OutOfFuel] whatever the fuel: it never ends and never faults. *)
Theorem print_fu_group_cycle (h : fu_heap U St) (p : ptr) (us : list (U * list St))
    (l lc : loc) (u : U) :
  wf_op_table op_table = true -> unit_prefix h p us (Some l) -> units h !! l = Some u ->
  rtc (prev_step (stages h)) (fu_stage_list u) (Some lc) ->
  tc (prev_step (stages h)) (Some lc) (Some lc) ->
  forall fuel, print_fu_group op_table NOP fuel h p = OutOfFuel.
Proof.
  intros Hwf Hpre Hu Hr Hc. unfold print_fu_group. remember (Some l) as q eqn:Hq.
  induction Hpre as [p | l' u' ss us q Hu' Hss Hpre IH]; intros [|f]; subst;
    try reflexivity; cbn [print_units]; unfold deref.
  - rewrite Hu. cbn [obind]. now rewrite (print_stages_lasso _ _ _ Hwf Hc _ _ _ Hr).
  - rewrite Hu'. cbn [obind].
    pose proof (print_stages_chain_no_fault _ u' _ _ Hwf Hss (S f) 0) as Hnf.
    destruct (print_stages op_table NOP (S f) (stages h) u' 0 (fu_stage_list u')); cbn [obind];
      [now rewrite IH | congruence | reflexivity].
Qed.

End ReportTheory.

(** ** The spec's example (section 8): one integer unit, three stages *)

Definition ex_stage (prev : ptr) (cur instr : Z) : fu_int_stage_t :=
  {| int_stage_prev := prev; int_stage_num_cycles := 4; int_stage_current_cycle := cur;
     int_stage_instr := instr |}.

Definition ex_add : Z := encode_R 51 5 0 6 7 0.

Definition ex_stage_list : list fu_int_stage_t :=
  [ex_stage (Some 2%positive) (-1) rv32_NOP; ex_stage (Some 3%positive) 2 ex_add;
   ex_stage None 0 rv32_NOP].

Definition ex_unit : fu_int_t :=
  {| int_name := "int0"; int_stage_list := Some 1%positive; int_next := None |}.

Definition ex_heap : fu_heap fu_int_t fu_int_stage_t :=
  {| units := {[1%positive := ex_unit]};
     stages := <[1%positive := ex_stage (Some 2%positive) (-1) rv32_NOP]>
                 (<[2%positive := ex_stage (Some 3%positive) 2 ex_add]>
                   {[3%positive := ex_stage None 0 rv32_NOP]}) |}.

(** Two units: the first with the spec's three stages, the second with
    a stage list [4 -> 5 -> 6 -> 5] that loops back. *)
Definition ex_unit_first : fu_int_t :=
  {| int_name := "int0"; int_stage_list := Some 1%positive; int_next := Some 2%positive |}.

Definition ex_unit_looping : fu_int_t :=
  {| int_name := "int1"; int_stage_list := Some 4%positive; int_next := None |}.

Definition ex_lasso_heap : fu_heap fu_int_t fu_int_stage_t :=
  {| units := <[1%positive := ex_unit_first]> {[2%positive := ex_unit_looping]};
     stages := <[4%positive := ex_stage (Some 5%positive) 1 ex_add]>
                 (<[5%positive := ex_stage (Some 6%positive) (-1) rv32_NOP]>
                   (<[6%positive := ex_stage (Some 5%positive) 3 ex_add]> (stages ex_heap))) |}.

(** A unit whose only stage points back to itself. *)
Definition ex_loop_heap : fu_heap fu_int_t fu_int_stage_t :=
  {| units := {[1%positive := ex_unit]};
     stages := {[1%positive := ex_stage (Some 1%positive) (-1) rv32_NOP]} |}.

Lemma ex_heap_chain : unit_chain ex_heap (Some 1%positive) [(ex_unit, ex_stage_list)].
Proof.
  apply unit_chain_cons; [reflexivity | | apply unit_chain_nil].
  apply stage_chain_cons; [reflexivity |].
  apply stage_chain_cons; [reflexivity |].
  apply stage_chain_cons; [reflexivity |].
  apply stage_chain_nil.
Defined.

(** ** Witnesses *)

Lemma print_fu_group_refines_witness :
  (unit_chain ex_heap (Some 1%positive) [(ex_unit, ex_stage_list)] /\
   (chain_fuel [(ex_unit, ex_stage_list)] <= 4)%nat) /\
  print_fu_group rv32_op_table rv32_NOP 4 ex_heap (Some 1%positive) =
  render_records rv32_op_table rv32_NOP (occupancy [(ex_unit, ex_stage_list)]).
Proof.
  assert (Hf : (chain_fuel [(ex_unit, ex_stage_list)] <= 4)%nat) by (vm_compute; lia).
  split; [exact (conj ex_heap_chain Hf) |].
  exact (print_fu_group_refines rv32_op_table rv32_NOP _ _ _ 4 ex_heap_chain Hf).
Defined.

Lemma print_fu_group_terminates_witness :
  (wf_op_table rv32_op_table = true /\
   unit_chain ex_heap (Some 1%positive) [(ex_unit, ex_stage_list)]) /\
  exists s, forall fuel, (chain_fuel [(ex_unit, ex_stage_list)] <= fuel)%nat ->
    print_fu_group rv32_op_table rv32_NOP fuel ex_heap (Some 1%positive) = Done s.
Proof.
  assert (Hwf : wf_op_table rv32_op_table = true) by (vm_compute; reflexivity).
  split; [exact (conj Hwf ex_heap_chain) |].
  exact (print_fu_group_terminates rv32_op_table rv32_NOP _ _ _ Hwf ex_heap_chain).
Defined.

Lemma print_fu_group_busy_stages_witness :
  (unit_chain ex_heap (Some 1%positive) [(ex_unit, ex_stage_list)] /\
   (chain_fuel [(ex_unit, ex_stage_list)] <= 4)%nat) /\
  exists rs, print_fu_group rv32_op_table rv32_NOP 4 ex_heap (Some 1%positive) =
             render_records rv32_op_table rv32_NOP rs /\
    (forall r, In r rs <-> exists j st, nth_error ex_stage_list j = Some st /\
                                       stage_current_cycle st <> -1 /\
                                       r = mk_record ex_unit (Z.of_nat j) st) /\
    StronglySorted Z.lt (map rec_stage rs).
Proof.
  assert (Hf : (chain_fuel [(ex_unit, ex_stage_list)] <= 4)%nat) by (vm_compute; lia).
  split; [exact (conj ex_heap_chain Hf) |].
  exact (print_fu_group_busy_stages rv32_op_table rv32_NOP _ _ _ _ 4 ex_heap_chain Hf).
Defined.

Lemma print_fu_group_bounds_witness :
  (Forall (fun st => stage_current_cycle st = -1 \/
                     0 <= stage_current_cycle st < stage_num_cycles st) ex_stage_list /\
   unit_chain ex_heap (Some 1%positive) [(ex_unit, ex_stage_list)] /\
   (chain_fuel [(ex_unit, ex_stage_list)] <= 4)%nat) /\
  exists rs, print_fu_group rv32_op_table rv32_NOP 4 ex_heap (Some 1%positive) =
             render_records rv32_op_table rv32_NOP rs /\
    Forall (fun r => 0 <= rec_cycle r < rec_total r /\
                     0 <= rec_stage r < Z.of_nat (List.length ex_stage_list)) rs.
Proof.
  assert (Hi : Forall (fun st => stage_current_cycle st = -1 \/
                                 0 <= stage_current_cycle st < stage_num_cycles st) ex_stage_list)
    by (repeat constructor; cbn; lia).
  assert (Hf : (chain_fuel [(ex_unit, ex_stage_list)] <= 4)%nat) by (vm_compute; lia).
  split; [exact (conj Hi (conj ex_heap_chain Hf)) |].
  exact (print_fu_group_bounds rv32_op_table rv32_NOP _ _ _ _ 4 Hi ex_heap_chain Hf).
Defined.

Lemma print_fu_group_cycle_witness :
  (wf_op_table rv32_op_table = true /\
   unit_prefix ex_lasso_heap (Some 1%positive) [(ex_unit_first, ex_stage_list)] (Some 2%positive) /\
   units ex_lasso_heap !! 2%positive = Some ex_unit_looping /\
   rtc (prev_step (stages ex_lasso_heap)) (fu_stage_list ex_unit_looping) (Some 5%positive) /\
   tc (prev_step (stages ex_lasso_heap)) (Some 5%positive) (Some 5%positive)) /\
  forall fuel, print_fu_group rv32_op_table rv32_NOP fuel ex_lasso_heap (Some 1%positive) = OutOfFuel.
Proof.
  assert (Hwf : wf_op_table rv32_op_table = true) by (vm_compute; reflexivity).
  assert (Hpre : unit_prefix ex_lasso_heap (Some 1%positive) [(ex_unit_first, ex_stage_list)]
                   (Some 2%positive)).
  { apply unit_prefix_cons; [reflexivity | | apply unit_prefix_nil].
    repeat (apply stage_chain_cons; [reflexivity |]). apply stage_chain_nil. }
  assert (Hu : units ex_lasso_heap !! 2%positive = Some ex_unit_looping) by reflexivity.
  assert (Hr : rtc (prev_step (stages ex_lasso_heap)) (fu_stage_list ex_unit_looping) (Some 5%positive)).
  { eapply rtc_l; [apply (prev_step_cell _ 4%positive); reflexivity | apply rtc_refl]. }
  assert (Hc : tc (prev_step (stages ex_lasso_heap)) (Some 5%positive) (Some 5%positive)).
  { eapply tc_l; [apply (prev_step_cell _ 5%positive); reflexivity |].
    apply tc_once. change (prev_step (stages ex_lasso_heap) (Some 6%positive) (Some 5%positive)).
    exact (prev_step_cell (stages ex_lasso_heap) 6%positive (ex_stage (Some 5%positive) 3 ex_add) eq_refl). }
  split; [exact (conj Hwf (conj Hpre (conj Hu (conj Hr Hc)))) |].
  exact (print_fu_group_cycle rv32_op_table rv32_NOP ex_lasso_heap _ _ 2%positive 5%positive
           ex_unit_looping Hwf Hpre Hu Hr Hc).
Defined.
