(* ===== verification/Walk.v ===== *)
(** * The loops of [print_fu_group_int] / [print_fu_group_fp] as a machine

    [Occupancy] writes the two [while] loops of output.c 89-104 (and
    113-128) as recursive functions with fuel.  This file writes them
    the way the C code runs them: a configuration holds the locals of
    the function — the unit pointer [fu_int] of the outer loop, and, in
    the inner loop, the unit, the counter [j] and the pointer [stage] —
    together with the text printed so far; [step] is one iteration of
    one of the loops, or the exit of a loop.  Dereferencing a dangling
    pointer, or a [printInstruction] that reads outside the decode
    table, steps to [Crash].

    Theorems: the machine is deterministic and [step_fn] computes it; a
    fuel run that ends is a run of the machine; on an acyclic chain
    every reachable configuration satisfies the loop invariant
    [walk_inv] (what has been printed is the report of the units and
    stages already visited, and [j] counts the stages visited in the
    current unit), and the machine, which has no fuel, halts with the
    report of [Occupancy.occupancy] and with no other text. *)

From stdpp Require Import base relations gmap.
From Stdlib Require Import ZArith List String Lia.
From S2P Require Import Prelude Format OpTable Disasm Occupancy.
Import ListNotations.
Open Scope string_scope.
Open Scope Z_scope.
Open Scope riscv_scope.

(** The locals of [print_fu_group_*] and the text printed so far. *)
Inductive cfg (U : Type) : Type :=
| Outer (fu : ptr) (out : string)
| Inner (fu : U) (j : Z) (stage : ptr) (out : string)
| Halt (out : string)
| Crash.
Arguments Outer {U} _ _.
Arguments Inner {U} _ _ _ _.
Arguments Halt {U} _.
Arguments Crash {U}.

Section Walk.

Context (op_table : list op_level1_t) (NOP : Z).
Context {U St : Type} `{FuKind U St}.
Context (h : fu_heap U St).

(** output.c 90-103 (and 114-127), one loop iteration per rule. *)
Inductive step : cfg U -> cfg U -> Prop :=
| step_halt (out : string) :
    step (Outer None out) (Halt out)
| step_enter (l : loc) (u : U) (out : string) :
    units h !! l = Some u -> step (Outer (Some l) out) (Inner u 0 (fu_stage_list u) out)
| step_enter_fault (l : loc) (out : string) :
    units h !! l = None -> step (Outer (Some l) out) Crash
| step_stage (u : U) (j : Z) (l : loc) (st : St) (out line : string) :
    stages h !! l = Some st -> print_stage_line op_table NOP u j st = Done line ->
    step (Inner u j (Some l) out) (Inner u (j + 1) (stage_prev st) (out ++ line))
| step_stage_fault_deref (u : U) (j : Z) (l : loc) (out : string) :
    stages h !! l = None -> step (Inner u j (Some l) out) Crash
| step_stage_fault_print (u : U) (j : Z) (l : loc) (st : St) (out : string) :
    stages h !! l = Some st -> print_stage_line op_table NOP u j st = Fault ->
    step (Inner u j (Some l) out) Crash
| step_next (u : U) (j : Z) (out : string) :
    step (Inner u j None out) (Outer (fu_next u) out).

(** The same iteration as a function. *)
Definition step_fn (c : cfg U) : option (cfg U) :=
  match c with
  | Outer None out => Some (Halt out)
  | Outer (Some l) out =>
      match units h !! l with
      | Some u => Some (Inner u 0 (fu_stage_list u) out)
      | None => Some Crash
      end
  | Inner u j None out => Some (Outer (fu_next u) out)
  | Inner u j (Some l) out =>
      match stages h !! l with
      | None => Some Crash
      | Some st =>
          match print_stage_line op_table NOP u j st with
          | Done line => Some (Inner u (j + 1) (stage_prev st) (out ++ line))
          | Fault => Some Crash
          | OutOfFuel => None
          end
      end
  | Halt _ | Crash => None
  end.

(** [n] iterations of [step_fn], stopping at a final configuration. *)
Fixpoint walk (n : nat) (c : cfg U) : cfg U :=
  match n with
  | O => c
  | S n' => match step_fn c with Some c' => walk n' c' | None => c end
  end.

(** The loop invariant over the list [us] the chain holds: the units
    [done] have been reported; in the current unit [u] the stages [ssd]
    have been visited and [j] counts them; [ssr] and [rest] remain. *)
Definition walk_inv (us : list (U * list St)) (c : cfg U) : Prop :=
  match c with
  | Outer q out =>
      exists done rest, us = (done ++ rest)%list /\ unit_chain h q rest /\
        render_records op_table NOP (occupancy done) = Done out
  | Inner u j s out =>
      exists done ssd ssr rest, us = (done ++ (u, ssd ++ ssr) :: rest)%list /\
        stage_chain (stages h) s ssr /\ unit_chain h (fu_next u) rest /\
        j = Z.of_nat (List.length ssd) /\
        render_records op_table NOP (occupancy done ++ records_from u 0 ssd) = Done out
  | Halt out => render_records op_table NOP (occupancy us) = Done out
  | Crash => False
  end.

End Walk.

(** ** Theorems *)

Section WalkTheory.

Context (op_table : list op_level1_t) (NOP : Z).
Context {U St : Type} `{FuKind U St}.
Context (h : fu_heap U St).

Lemma step_fn_spec (c c' : cfg U) : step op_table NOP h c c' <-> step_fn op_table NOP h c = Some c'.
Proof.
  split.
  - intros []; cbn [step_fn]; repeat match goal with
      | E : _ !! _ = _ |- _ => rewrite E
      | E : print_stage_line _ _ _ _ _ = _ |- _ => rewrite E
      end; reflexivity.
  - destruct c as [[l|] out | u j [l|] out | out |]; cbn [step_fn]; try discriminate.
    + destruct (units h !! l) eqn:E; intros [= <-]; constructor; exact E.
    + intros [= <-]. constructor.
    + destruct (stages h !! l) as [st|] eqn:E; [| intros [= <-]; constructor; exact E].
      destruct (print_stage_line op_table NOP u j st) eqn:P; intros Hc; try discriminate;
        injection Hc as <-; [eapply step_stage | eapply step_stage_fault_print]; eauto.
    + intros [= <-]. constructor.
Qed.

(** The machine is deterministic. *)
Lemma step_det (c c1 c2 : cfg U) : step op_table NOP h c c1 -> step op_table NOP h c c2 -> c1 = c2.
Proof. rewrite !step_fn_spec. congruence. Qed.

Lemma walk_rtc (n : nat) (c : cfg U) : rtc (step op_table NOP h) c (walk op_table NOP h n c).
Proof.
  revert c; induction n as [|n IH]; intros c; cbn [walk]; [apply rtc_refl |].
  destruct (step_fn op_table NOP h c) as [c'|] eqn:E; [| apply rtc_refl].
  apply rtc_l with c'; [apply step_fn_spec; exact E | apply IH].
Qed.

(** The equations of the two loops. *)
Lemma print_stages_none (f : nat) (m : gmap loc St) (fu : U) (j : Z) :
  print_stages op_table NOP f m fu j None = Done "".
Proof. now destruct f. Qed.

Lemma print_stages_some (f : nat) (m : gmap loc St) (fu : U) (j : Z) (l : loc) :
  print_stages op_table NOP (S f) m fu j (Some l) =
  st <- deref m l ;; line <- print_stage_line op_table NOP fu j st ;;
  rest <- print_stages op_table NOP f m fu (j + 1) (stage_prev st) ;; Done (line ++ rest).
Proof. reflexivity. Qed.

Lemma print_units_none (f : nat) : print_units op_table NOP f h None = Done "".
Proof. now destruct f. Qed.

Lemma print_units_some (f : nat) (l : loc) :
  print_units op_table NOP (S f) h (Some l) =
  u <- deref (units h) l ;; s <- print_stages op_table NOP (S f) (stages h) u 0 (fu_stage_list u) ;;
  rest <- print_units op_table NOP f h (fu_next u) ;; Done (s ++ rest).
Proof. reflexivity. Qed.

(** Where the machine ends when the fuel model returns [r]. *)
Definition final_cfg (k : string -> cfg U) (r : outcome string) : cfg U :=
  match r with Done t => k t | _ => Crash end.

Lemma print_stages_rtc (f : nat) (u : U) (j : Z) (s : ptr) (out : string) (r : outcome string) :
  print_stages op_table NOP f (stages h) u j s = r -> r <> OutOfFuel ->
  exists j', rtc (step op_table NOP h) (Inner u j s out)
                 (final_cfg (fun t => Inner u j' None (out ++ t)) r).
Proof.
  revert j s out r; induction f as [|f IH]; intros j [l|] out r Hr Hn;
    rewrite ?print_stages_none in Hr; try (subst r; cbn [final_cfg];
      exists j; rewrite sappend_nil_r; apply rtc_refl).
  { subst r; contradiction. }
  rewrite print_stages_some in Hr. unfold deref in Hr.
  destruct (stages h !! l) as [st|] eqn:E; cbn [obind] in Hr;
    [| subst r; exists j; apply rtc_once; now apply step_stage_fault_deref].
  destruct (print_stage_line op_table NOP u j st) as [line| |] eqn:P; cbn [obind] in Hr;
    [| subst r; exists j; apply rtc_once; eapply step_stage_fault_print; eauto | subst r; contradiction].
  destruct (print_stages op_table NOP f (stages h) u (j + 1) (stage_prev st)) as [t| |] eqn:R;
    cbn [obind] in Hr; [| | subst r; contradiction];
    destruct (IH (j + 1) (stage_prev st) (out ++ line) _ R ltac:(discriminate)) as [j' Hj'];
    exists j'; subst r; cbn [final_cfg] in *.
  - eapply rtc_l; [eapply step_stage; eauto |]. now rewrite sappend_assoc in Hj'.
  - eapply rtc_l; [eapply step_stage; eauto | exact Hj'].
Qed.

Lemma print_units_rtc (f : nat) (p : ptr) (out : string) (r : outcome string) :
  print_units op_table NOP f h p = r -> r <> OutOfFuel ->
  rtc (step op_table NOP h) (Outer p out) (final_cfg (fun t => Halt (out ++ t)) r).
Proof.
  revert p out r; induction f as [|f IH]; intros [l|] out r Hr Hn;
    rewrite ?print_units_none in Hr; try (subst r; cbn [final_cfg];
      rewrite sappend_nil_r; apply rtc_once; constructor).
  { subst r; contradiction. }
  rewrite print_units_some in Hr. unfold deref in Hr.
  destruct (units h !! l) as [u|] eqn:E; cbn [obind] in Hr;
    [| subst r; apply rtc_once; now apply step_enter_fault].
  eapply rtc_l; [eapply step_enter; exact E |].
  destruct (print_stages op_table NOP (S f) (stages h) u 0 (fu_stage_list u)) as [t1| |] eqn:R1;
    cbn [obind] in Hr; [| | subst r; contradiction];
    destruct (print_stages_rtc _ _ _ _ out _ R1 ltac:(discriminate)) as [j' Hj'];
    cbn [final_cfg] in Hj'; [| subst r; exact Hj'].
  eapply rtc_trans; [exact Hj' |]. eapply rtc_l; [apply step_next |].
  destruct (print_units op_table NOP f h (fu_next u)) as [t2| |] eqn:R2;
    cbn [obind] in Hr; [| | subst r; contradiction];
    pose proof (IH _ (out ++ t1) _ R2 ltac:(discriminate)) as Hu; subst r; cbn [final_cfg] in *;
    [now rewrite sappend_assoc in Hu | exact Hu].
Qed.

(** [Halt] is final, so a run halts with at most one text. *)
Lemma rtc_halt_unique (c : cfg U) (a b : string) :
  rtc (step op_table NOP h) c (Halt a) -> rtc (step op_table NOP h) c (Halt b) -> a = b.
Proof.
  intros Ha. revert b. remember (Halt a) as ha eqn:Eha.
  induction Ha as [c | c c1 c' Hs _ IH]; intros b Hb; subst.
  - inversion Hb as [| ? ? ? Hs]; [reflexivity | inversion Hs].
  - inversion Hb as [? Ec | ? c2 ? Hs2 Hr2]; subst; [inversion Hs |].
    rewrite (step_det _ _ _ Hs2 Hs) in Hr2. exact (IH eq_refl b Hr2).
Qed.

Lemma records_from_app (fu : U) (k : nat) (a b : list St) :
  records_from fu k (a ++ b) = (records_from fu k a ++ records_from fu (k + List.length a) b)%list.
Proof.
  revert k; induction a as [|st a IH]; intros k; cbn [app List.length].
  - now rewrite Nat.add_0_r.
  - rewrite !records_from_cons, IH, app_assoc.
    now replace (S k + List.length a)%nat with (k + S (List.length a))%nat by lia.
Qed.

Lemma render_records_one (fu : U) (k : nat) (st : St) :
  render_records op_table NOP (records_from fu k [st]) =
  print_stage_line op_table NOP fu (Z.of_nat k) st.
Proof.
  rewrite records_from_cons, print_stage_line_record. cbn [records_from].
  destruct (stage_current_cycle st =? -1); reflexivity.
Qed.

(** One step preserves the loop invariant. *)
Lemma walk_inv_step (us : list (U * list St)) (c c' : cfg U) :
  wf_op_table op_table = true -> walk_inv op_table NOP h us c ->
  step op_table NOP h c c' -> walk_inv op_table NOP h us c'.
Proof.
  intros Hwf Hi Hs. destruct Hs as [out | l u out E | l out E | u j l st out line E P
    | u j l out E | u j l st out E P | u j out]; cbn [walk_inv] in *.
  - destruct Hi as (done & rest & -> & Hc & Hr). inversion Hc; subst.
    now rewrite app_nil_r.
  - destruct Hi as (done & rest & -> & Hc & Hr). inversion Hc as [| l' u' ss rest' Hl Hss Hn]; subst.
    rewrite E in Hl. injection Hl as <-.
    exists done, [], ss, rest'. repeat split; auto. now rewrite app_nil_r.
  - destruct Hi as (done & rest & -> & Hc & Hr). inversion Hc as [| l' u' ss rest' Hl]; subst.
    congruence.
  - destruct Hi as (done & ssd & ssr & rest & -> & Hc & Hn & -> & Hr).
    inversion Hc as [| l' st' ssr' Hl Hss]; subst. rewrite E in Hl. injection Hl as <-.
    exists done, (ssd ++ [st])%list, ssr', rest. repeat split; auto.
    + now rewrite <- app_assoc.
    + rewrite length_app. cbn [List.length]. lia.
    + rewrite records_from_app, app_assoc, render_records_app, Hr. cbn [obind].
      rewrite render_records_one. cbn [Nat.add]. rewrite P. reflexivity.
  - destruct Hi as (done & ssd & ssr & rest & -> & Hc & _). inversion Hc; subst. congruence.
  - destruct (print_stage_line_wf op_table NOP u j st Hwf) as [line P']. congruence.
  - destruct Hi as (done & ssd & ssr & rest & -> & Hc & Hn & -> & Hr). inversion Hc; subst.
    exists (done ++ [(u, ssd)])%list, rest. repeat split; auto.
    + rewrite app_nil_r, <- app_assoc. reflexivity.
    + unfold occupancy in *. rewrite flat_map_app. cbn [flat_map fst snd].
      rewrite app_nil_r, unit_records_from. exact Hr.
Qed.

Lemma walk_inv_rtc (us : list (U * list St)) (c c' : cfg U) :
  wf_op_table op_table = true -> walk_inv op_table NOP h us c ->
  rtc (step op_table NOP h) c c' -> walk_inv op_table NOP h us c'.
Proof.
  intros Hwf Hi R. induction R as [c | c c1 c' Hs _ IH]; [exact Hi |].
  exact (IH (walk_inv_step us c c1 Hwf Hi Hs)).
Qed.

Lemma walk_inv_start (us : list (U * list St)) (p : ptr) :
  unit_chain h p us -> walk_inv op_table NOP h us (Outer p "").
Proof. intros Hc. exists [], us. repeat split; auto. Qed.

End WalkTheory.

Section WalkClaims.

Context (op_table : list op_level1_t) (NOP : Z).
Context {U St : Type} `{FuKind U St}.
Context (h : fu_heap U St).

(** C26: the loop invariant.  On a group list that is an acyclic chain
    holding [us], with a well-formed decode table, every configuration
    the loops reach satisfies [walk_inv]: the text printed so far is the
    report of the units and stages visited, [j] is the number of stages
    visited in the current unit, and the pointers head the rest of the
    chain. *)
Theorem walk_invariant (us : list (U * list St)) (p : ptr) (c : cfg U) :
  wf_op_table op_table = true -> unit_chain h p us ->
  rtc (step op_table NOP h) (Outer p "") c -> walk_inv op_table NOP h us c.
Proof.
  intros Hwf Hc R. exact (walk_inv_rtc op_table NOP h us _ _ Hwf (walk_inv_start op_table NOP h us p Hc) R).
Qed.

(** C27: termination.  On an acyclic chain with a well-formed decode
    table, the loops halt, with the report of [occupancy us], and with no
    other text. *)
Theorem walk_halts (us : list (U * list St)) (p : ptr) :
  wf_op_table op_table = true -> unit_chain h p us ->
  exists s, render_records op_table NOP (occupancy us) = Done s /\
    rtc (step op_table NOP h) (Outer p "") (Halt s) /\
    forall s', rtc (step op_table NOP h) (Outer p "") (Halt s') -> s' = s.
Proof.
  intros Hwf Hc. destruct (render_records_total op_table NOP (occupancy us) Hwf) as [s Hs].
  pose proof (print_units_chain op_table NOP h p us Hc (chain_fuel us) (le_n _)) as Hf.
  rewrite Hs in Hf.
  pose proof (print_units_rtc op_table NOP h _ p "" _ Hf ltac:(discriminate)) as R.
  exists s. split; [exact Hs | split; [exact R |]].
  intros s' R'. exact (rtc_halt_unique op_table NOP h _ _ _ R' R).
Qed.

End WalkClaims.

(** ** Witnesses on the heap of [Occupancy] *)

Lemma walk_invariant_witness :
  (wf_op_table rv32_op_table = true /\ unit_chain ex_heap (Some 1%positive) [(ex_unit, ex_stage_list)] /\
   rtc (step rv32_op_table rv32_NOP ex_heap) (Outer (Some 1%positive) "")
       (walk rv32_op_table rv32_NOP ex_heap 3 (Outer (Some 1%positive) ""))) /\
  walk_inv rv32_op_table rv32_NOP ex_heap [(ex_unit, ex_stage_list)]
    (walk rv32_op_table rv32_NOP ex_heap 3 (Outer (Some 1%positive) "")).
Proof.
  assert (Hwf : wf_op_table rv32_op_table = true) by (vm_compute; reflexivity).
  split; [split; [exact Hwf | split; [exact ex_heap_chain | apply walk_rtc]] |].
  apply (walk_invariant rv32_op_table rv32_NOP ex_heap _ (Some 1%positive)); [exact Hwf | exact ex_heap_chain |].
  apply walk_rtc.
Defined.

Lemma walk_halts_witness :
  exists s, render_records rv32_op_table rv32_NOP (occupancy [(ex_unit, ex_stage_list)]) = Done s /\
    rtc (step rv32_op_table rv32_NOP ex_heap) (Outer (Some 1%positive) "") (Halt s) /\
    forall s', rtc (step rv32_op_table rv32_NOP ex_heap) (Outer (Some 1%positive) "") (Halt s') -> s' = s.
Proof.
  apply (walk_halts rv32_op_table rv32_NOP ex_heap); [vm_compute; reflexivity | exact ex_heap_chain].
Defined.

(** The machine on [Occupancy.ex_heap]: eight steps (enter the unit, three
    stages, leave the unit, halt) print the two busy stages.  On
    [Occupancy.ex_loop_heap], whose only stage points back to itself,
    the inner loop is still running after fifty steps, with [j] at 49
    and nothing printed. *)
Example walk_example :
  walk rv32_op_table rv32_NOP ex_heap 8 (Outer (Some 1%positive) "") =
  Halt (TAB ++ TAB ++ "name 'int0', stage 1 (from end), cycle 2/4, add x5 x6 x7" ++ NL ++
        TAB ++ TAB ++ "name 'int0', stage 2 (from end), cycle 0/4, NOP" ++ NL) /\
  walk rv32_op_table rv32_NOP ex_loop_heap 50 (Outer (Some 1%positive) "") =
  Inner ex_unit 49 (Some 1%positive) "".
Proof. split; vm_compute; reflexivity. Qed.
