(* ===== verification/State.v ===== *)
(** * The machine dump [print_state] (src/output.c 20-79)

    [print_state state num_memory] prints, in this order: the first
    [num_memory] bytes of memory, sixteen to a row headed by the row's
    address; the 32 integer registers, four to a line, in hexadecimal;
    the 32 floating-point registers; the pc; the instruction of the
    IF/ID latch; the occupancy of the four functional-unit groups
    ([Occupancy]); and the instructions of the two write-back slots
    that are non-zero.

    [state_t] has the fields output.c reads (its declaration, in
    [pipeline.h], is not in the sources).  The type of a floating-point
    register and its [%-10.6g] conversion are parameters ([F],
    [fmt_g]) of the dump; [Formats] instantiates them with binary64
    values and [Gfmt.fmt_g], the model of printf's [%-10.6g].  A memory
    byte is the value of [state->mem[i]] as a [Z] (its signedness is the
    header's); [(unsigned int)] and [%.2X] are [fmt_X 2].  Every [for]
    loop is written with its condition and increment and a fuel equal to
    its iteration bound; reading [mem] or a register file past its end is
    [Fault]. *)

From stdpp Require Import base gmap.
From Stdlib Require Import ZArith List String Ascii Lia.
From S2P Require Import Prelude Bits Format OpTable Disasm Occupancy.
Import ListNotations.
Open Scope string_scope.
Open Scope Z_scope.
Open Scope riscv_scope.

(** Number of registers of each file ([pipeline.h]). *)
Definition NUMREGS : Z := 32.

Record state_t (F : Type) : Type := {
  mem : list Z;
  reg_int : list Z;
  reg_fp : list F;
  pc : Z;
  if_id_instr : Z;
  fu_int_list : ptr;
  fu_add_list : ptr;
  fu_mult_list : ptr;
  fu_div_list : ptr;
  fu_int_heap : fu_heap fu_int_t fu_int_stage_t;
  fu_fp_heap : fu_heap fu_fp_t fu_fp_stage_t;
  int_wb_instr : Z;
  fp_wb_instr : Z
}.
Arguments mem {F} _.
Arguments reg_int {F} _.
Arguments reg_fp {F} _.
Arguments pc {F} _.
Arguments if_id_instr {F} _.
Arguments fu_int_list {F} _.
Arguments fu_add_list {F} _.
Arguments fu_mult_list {F} _.
Arguments fu_div_list {F} _.
Arguments fu_int_heap {F} _.
Arguments fu_fp_heap {F} _.
Arguments int_wb_instr {F} _.
Arguments fp_wb_instr {F} _.

(** The format strings of output.c 28 and 30. *)
Definition row_fmt : string := NL ++ TAB ++ "0x%.8X" ++ TAB ++ "%.2X".
Definition byte_fmt : string := " %.2X".

(** output.c 37 and 45 (with [%s] standing for [%-10.6g]). *)
Definition reg_int_fmt : string :=
  TAB ++ "x%d=0x%.8X" ++ TAB ++ "x%d=0x%.8X" ++ TAB ++ "x%d=0x%.8X" ++ TAB ++ "x%d=0x%.8X" ++ NL.
Definition reg_fp_fmt : string :=
  TAB ++ "f%d=%s" ++ TAB ++ "f%d=%s" ++ TAB ++ "f%d=%s" ++ TAB ++ "f%d=%s" ++ NL.

Section Dump.

Context (op_table : list op_level1_t) (NOP : Z).
Context (fu_group_int_name fu_group_add_name fu_group_mult_name fu_group_div_name : string).
Context {F : Type} (fmt_g : F -> string).
Context (fuel : nat).

(** output.c 26-32: [for (i = 0; i < num_memory; i++)]. *)
Fixpoint print_mem_loop (m : list Z) (num_memory i : Z) (n : nat) : outcome string :=
  match n with
  | O => Done ""
  | S n' =>
      if i <? num_memory then
        b <- arr_get m i ;;
        s <- (if Z.land i 15 =? 0 then sprintf row_fmt [PInt i; PInt b]
              else sprintf byte_fmt [PInt b]) ;;
        rest <- print_mem_loop m num_memory (i + 1) n' ;;
        Done (s ++ rest)
      else Done ""
  end.

(** output.c 24-33. *)
Definition print_memory (st : state_t F) (num_memory : Z) : outcome string :=
  s1 <- sprintf ("Memory" ++ NL) [] ;;
  s2 <- sprintf (TAB ++ "Address" ++ TAB ++ TAB ++ "Data") [] ;;
  s3 <- print_mem_loop (mem st) num_memory 0 (Z.to_nat num_memory) ;;
  s4 <- sprintf NL [] ;;
  Done (s1 ++ s2 ++ s3 ++ s4).

(** output.c 36-41: [for (i = 0; i < NUMREGS; i += 4)]. *)
Fixpoint print_regs_int_loop (regs : list Z) (i : Z) (n : nat) : outcome string :=
  match n with
  | O => Done ""
  | S n' =>
      if i <? NUMREGS then
        r0 <- arr_get regs i ;; r1 <- arr_get regs (i + 1) ;;
        r2 <- arr_get regs (i + 2) ;; r3 <- arr_get regs (i + 3) ;;
        s <- sprintf reg_int_fmt [PInt i; PInt r0; PInt (i + 1); PInt r1;
                                  PInt (i + 2); PInt r2; PInt (i + 3); PInt r3] ;;
        rest <- print_regs_int_loop regs (i + 4) n' ;;
        Done (s ++ rest)
      else Done ""
  end.

(** output.c 44-49. *)
Fixpoint print_regs_fp_loop (regs : list F) (i : Z) (n : nat) : outcome string :=
  match n with
  | O => Done ""
  | S n' =>
      if i <? NUMREGS then
        r0 <- arr_get regs i ;; r1 <- arr_get regs (i + 1) ;;
        r2 <- arr_get regs (i + 2) ;; r3 <- arr_get regs (i + 3) ;;
        s <- sprintf reg_fp_fmt [PInt i; PStr (fmt_g r0); PInt (i + 1); PStr (fmt_g r1);
                                 PInt (i + 2); PStr (fmt_g r2); PInt (i + 3); PStr (fmt_g r3)] ;;
        rest <- print_regs_fp_loop regs (i + 4) n' ;;
        Done (s ++ rest)
      else Done ""
  end.

(** output.c 35-41. *)
Definition print_regs_int (st : state_t F) : outcome string :=
  h <- sprintf ("Registers (integer):" ++ NL) [] ;;
  s <- print_regs_int_loop (reg_int st) 0 (Z.to_nat NUMREGS) ;;
  Done (h ++ s).

(** output.c 43-49. *)
Definition print_regs_fp (st : state_t F) : outcome string :=
  h <- sprintf ("Registers (floating point):" ++ NL) [] ;;
  s <- print_regs_fp_loop (reg_fp st) 0 (Z.to_nat NUMREGS) ;;
  Done (h ++ s).

(** output.c 51-52. *)
Definition print_pc (st : state_t F) : outcome string :=
  s1 <- sprintf ("pc:" ++ NL) [] ;;
  s2 <- sprintf (TAB ++ "pc" ++ TAB ++ "0x%.8X" ++ NL) [PInt (pc st)] ;;
  Done (s1 ++ s2).

(** output.c 54-57. *)
Definition print_ifid (st : state_t F) : outcome string :=
  s1 <- sprintf ("ifid:" ++ NL) [] ;;
  s2 <- sprintf (TAB ++ "instr" ++ TAB) [] ;;
  s3 <- printInstruction op_table NOP (if_id_instr st) ;;
  s4 <- sprintf NL [] ;;
  Done (s1 ++ s2 ++ s3 ++ s4).

(** output.c 59-66. *)
Definition print_fu_groups (st : state_t F) : outcome string :=
  h1 <- sprintf ("%s fu:" ++ NL) [PStr fu_group_int_name] ;;
  g1 <- print_fu_group_int op_table NOP fuel (fu_int_heap st) (fu_int_list st) ;;
  h2 <- sprintf ("%s fu:" ++ NL) [PStr fu_group_add_name] ;;
  g2 <- print_fu_group_fp op_table NOP fuel (fu_fp_heap st) (fu_add_list st) ;;
  h3 <- sprintf ("%s fu:" ++ NL) [PStr fu_group_mult_name] ;;
  g3 <- print_fu_group_fp op_table NOP fuel (fu_fp_heap st) (fu_mult_list st) ;;
  h4 <- sprintf ("%s fu:" ++ NL) [PStr fu_group_div_name] ;;
  g4 <- print_fu_group_fp op_table NOP fuel (fu_fp_heap st) (fu_div_list st) ;;
  Done (h1 ++ g1 ++ h2 ++ g2 ++ h3 ++ g3 ++ h4 ++ g4).

(** output.c 69-76: a write-back slot is printed when its instruction
    word is non-zero. *)
Definition print_wb_slot (instr : Z) : outcome string :=
  if negb (instr =? 0) then
    s1 <- sprintf (TAB ++ TAB) [] ;;
    s2 <- printInstruction op_table NOP instr ;;
    Done (s1 ++ s2)
  else Done "".

(** output.c 68-78. *)
Definition print_wb (st : state_t F) : outcome string :=
  h <- sprintf ("wb:" ++ NL) [] ;;
  w1 <- print_wb_slot (int_wb_instr st) ;;
  w2 <- print_wb_slot (fp_wb_instr st) ;;
  n <- sprintf NL [] ;;
  Done (h ++ w1 ++ w2 ++ n).

(** output.c 20-79. *)
Definition print_state (st : state_t F) (num_memory : Z) : outcome string :=
  s1 <- print_memory st num_memory ;;
  s2 <- print_regs_int st ;;
  s3 <- print_regs_fp st ;;
  s4 <- print_pc st ;;
  s5 <- print_ifid st ;;
  s6 <- print_fu_groups st ;;
  s7 <- print_wb st ;;
  Done (s1 ++ s2 ++ s3 ++ s4 ++ s5 ++ s6 ++ s7).

End Dump.

(** ** Specification of the memory dump: rows of sixteen bytes *)

Definition bytes_text (bs : list Z) : string :=
  fold_right (fun b s => " " ++ fmt_X 2 b ++ s) "" bs.

(** One row: its address and its bytes. *)
Definition mem_row_text (addr : Z) (row : list Z) : string :=
  match row with
  | [] => ""
  | b :: bs => NL ++ TAB ++ "0x" ++ fmt_X 8 addr ++ TAB ++ fmt_X 2 b ++ bytes_text bs
  end.

Fixpoint mem_rows (addr : Z) (bytes : list Z) (n : nat) : string :=
  match n, bytes with
  | O, _ => ""
  | _, [] => ""
  | S n', _ => mem_row_text addr (firstn 16 bytes) ++ mem_rows (addr + 16) (skipn 16 bytes) n'
  end.

(** The text of the byte at address [i], as the loop body prints it. *)
Definition mem_cell (i b : Z) : string :=
  if Z.land i 15 =? 0 then NL ++ TAB ++ "0x" ++ fmt_X 8 i ++ TAB ++ fmt_X 2 b
  else " " ++ fmt_X 2 b.

Fixpoint cells_of (i : Z) (bytes : list Z) : string :=
  match bytes with
  | [] => ""
  | b :: bs => mem_cell i b ++ cells_of (i + 1) bs
  end.

(** A value an [unsigned char] holds. *)
Definition is_byte (b : Z) : bool := (0 <=? b) && (b <? 256).

(** ** Specification of the register dumps: four registers a line *)

Definition reg_int_line (i r0 r1 r2 r3 : Z) : string :=
  TAB ++ "x" ++ fmt_d i ++ "=0x" ++ fmt_X 8 r0 ++
  TAB ++ "x" ++ fmt_d (i + 1) ++ "=0x" ++ fmt_X 8 r1 ++
  TAB ++ "x" ++ fmt_d (i + 2) ++ "=0x" ++ fmt_X 8 r2 ++
  TAB ++ "x" ++ fmt_d (i + 3) ++ "=0x" ++ fmt_X 8 r3 ++ NL.

Fixpoint reg_int_rows (i : Z) (regs : list Z) : string :=
  match regs with
  | r0 :: r1 :: r2 :: r3 :: rest => reg_int_line i r0 r1 r2 r3 ++ reg_int_rows (i + 4) rest
  | _ => ""
  end.

Definition reg_fp_line {F : Type} (fmt_g : F -> string) (i : Z) (r0 r1 r2 r3 : F) : string :=
  TAB ++ "f" ++ fmt_d i ++ "=" ++ fmt_g r0 ++
  TAB ++ "f" ++ fmt_d (i + 1) ++ "=" ++ fmt_g r1 ++
  TAB ++ "f" ++ fmt_d (i + 2) ++ "=" ++ fmt_g r2 ++
  TAB ++ "f" ++ fmt_d (i + 3) ++ "=" ++ fmt_g r3 ++ NL.

Fixpoint reg_fp_rows {F : Type} (fmt_g : F -> string) (i : Z) (regs : list F) : string :=
  match regs with
  | r0 :: r1 :: r2 :: r3 :: rest => reg_fp_line fmt_g i r0 r1 r2 r3 ++ reg_fp_rows fmt_g (i + 4) rest
  | _ => ""
  end.

(** ** Specification of the write-back line *)

(** The disassembly of a word (empty if the decoder faults). *)
Definition instr_text (op_table : list op_level1_t) (NOP w : Z) : string :=
  match printInstruction op_table NOP w with Done s => s | _ => "" end.

Definition wb_slot_text (op_table : list op_level1_t) (NOP w : Z) : string :=
  if w =? 0 then "" else TAB ++ TAB ++ instr_text op_table NOP w.

(** The header of a functional-unit group (output.c 59, 61, 63, 65). *)
Definition fu_header (name : string) : string := name ++ " fu:" ++ NL.

Section DumpTheory.

Context {F : Type}.

Lemma sprintf_row (i b : Z) :
  sprintf row_fmt [PInt i; PInt b] = Done (NL ++ TAB ++ "0x" ++ fmt_X 8 i ++ TAB ++ fmt_X 2 b).
Proof.
  transitivity (Done (NL ++ TAB ++ "0x" ++ fmt_X 8 i ++ TAB ++ (fmt_X 2 b ++ "")));
    [reflexivity | now rewrite sappend_nil_r].
Qed.

Lemma sprintf_byte (b : Z) : sprintf byte_fmt [PInt b] = Done (" " ++ fmt_X 2 b).
Proof.
  transitivity (Done (" " ++ (fmt_X 2 b ++ ""))); [reflexivity | now rewrite sappend_nil_r].
Qed.

Lemma print_mem_loop_cells (m : list Z) (nm i : Z) (n : nat) :
  0 <= i -> nm <= Z.of_nat (List.length m) -> (Z.to_nat (nm - i) <= n)%nat ->
  print_mem_loop m nm i n = Done (cells_of i (firstn (Z.to_nat (nm - i)) (skipn (Z.to_nat i) m))).
Proof.
  revert i; induction n as [|n IH]; intros i Hi Hnm Hn; cbn [print_mem_loop].
  - replace (Z.to_nat (nm - i)) with O by lia. reflexivity.
  - destruct (Z.ltb_spec i nm) as [Hlt | Hge].
    + destruct (arr_get_nth m i ltac:(lia)) as (b & Hb & Hnth). rewrite Hb. cbn [obind].
      rewrite (IH (i + 1)) by lia.
      replace (Z.to_nat (nm - i)) with (S (Z.to_nat (nm - (i + 1)))) by lia.
      rewrite (skipn_nth_error_cons m (Z.to_nat i) b) by exact Hnth.
      replace (Z.to_nat (i + 1)) with (S (Z.to_nat i)) by lia.
      cbn [firstn cells_of]. unfold mem_cell.
      destruct (Z.land i 15 =? 0); rewrite ?sprintf_row, ?sprintf_byte; cbn [obind];
        now rewrite sappend_assoc.
    + replace (Z.to_nat (nm - i)) with O by lia. reflexivity.
Qed.

Lemma land_15 (i : Z) : Z.land i 15 = i mod 16.
Proof. change 15 with (Z.ones 4). rewrite Z.land_ones by lia. reflexivity. Qed.

Lemma cells_of_app (i : Z) (l1 l2 : list Z) :
  cells_of i (l1 ++ l2)%list = cells_of i l1 ++ cells_of (i + Z.of_nat (List.length l1)) l2.
Proof.
  revert i; induction l1 as [|b l1 IH]; intros i; cbn [app cells_of List.length].
  - now rewrite Z.add_0_r.
  - rewrite IH, sappend_assoc. do 3 f_equal. lia.
Qed.

(** Inside a row, after its first byte, the loop prints " %.2X". *)
Lemma cells_of_in_row (addr j : Z) (bs : list Z) :
  addr mod 16 = 0 -> 1 <= j -> j + Z.of_nat (List.length bs) <= 16 ->
  cells_of (addr + j) bs = bytes_text bs.
Proof.
  intros Ha. revert j; induction bs as [|b bs IH]; intros j Hj Hlen; [reflexivity |].
  cbn [cells_of bytes_text fold_right List.length] in *. unfold mem_cell.
  rewrite land_15.
  replace ((addr + j) mod 16) with j by (Z.div_mod_to_equations; lia).
  replace (j =? 0) with false by (symmetry; apply Z.eqb_neq; lia).
  replace (addr + j + 1) with (addr + (j + 1)) by lia.
  rewrite IH by lia. now rewrite sappend_assoc.
Qed.

Lemma mem_rows_nil (addr : Z) (n : nat) : mem_rows addr [] n = "".
Proof. now destruct n. Qed.

(** The cells from an aligned address are the rows of sixteen bytes. *)
Lemma cells_of_rows (n : nat) (addr : Z) (bytes : list Z) :
  addr mod 16 = 0 -> (List.length bytes <= n)%nat -> cells_of addr bytes = mem_rows addr bytes n.
Proof.
  revert addr bytes; induction n as [|n IH]; intros addr bytes Ha Hlen.
  - destruct bytes; [reflexivity | cbn in Hlen; lia].
  - destruct bytes as [|b bs]; [reflexivity |].
    cbn [mem_rows]. rewrite <- (firstn_skipn 16 (b :: bs)) at 1. rewrite cells_of_app.
    f_equal.
    + cbn [firstn cells_of mem_row_text]. unfold mem_cell. rewrite land_15, Ha. cbn [Z.eqb].
      rewrite (cells_of_in_row addr 1 (firstn 15 bs) Ha) by (rewrite ?length_firstn; lia).
      now rewrite !sappend_assoc.
    + destruct (Nat.le_gt_cases 16 (List.length (b :: bs))) as [Hge | Hlt].
      * rewrite length_firstn, Nat.min_l by exact Hge.
        apply IH; [Z.div_mod_to_equations; lia | rewrite length_skipn; cbn in *; lia].
      * rewrite skipn_all2 by lia. rewrite mem_rows_nil. reflexivity.
Qed.

Lemma is_byte_range (b : Z) : is_byte b = true -> 0 <= b < 256.
Proof. unfold is_byte. rewrite andb_true_iff, Z.leb_le, Z.ltb_lt. lia. Qed.

Lemma fmt_X2_inj (b1 b2 : Z) :
  is_byte b1 = true -> is_byte b2 = true -> fmt_X 2 b1 = fmt_X 2 b2 -> b1 = b2.
Proof.
  intros H1%is_byte_range H2%is_byte_range E. apply (f_equal parse_hex) in E.
  now rewrite !parse_hex_fmt_X2 in E.
Qed.

Lemma mem_cell_inj (i b1 b2 : Z) (x1 x2 : string) :
  is_byte b1 = true -> is_byte b2 = true ->
  mem_cell i b1 ++ x1 = mem_cell i b2 ++ x2 -> b1 = b2 /\ x1 = x2.
Proof.
  intros H1 H2 E.
  assert (Hl : String.length (fmt_X 2 b1) = String.length (fmt_X 2 b2))
    by (rewrite !length_fmt_X2 by (now apply is_byte_range); reflexivity).
  unfold mem_cell in E. destruct (Z.land i 15 =? 0); rewrite !sappend_assoc in E;
    repeat apply sappend_cancel_l in E;
    destruct (sappend_inj_len _ _ _ _ Hl E) as [E1 E2]; exact (conj (fmt_X2_inj _ _ H1 H2 E1) E2).
Qed.

Lemma cells_of_inj (i : Z) (bs1 bs2 : list Z) :
  forallb is_byte bs1 = true -> forallb is_byte bs2 = true -> cells_of i bs1 = cells_of i bs2 -> bs1 = bs2.
Proof.
  revert i bs2; induction bs1 as [|b1 bs1 IH]; intros i [|b2 bs2] H1 H2 E; auto;
    cbn [cells_of forallb] in *; try (unfold mem_cell in E; destruct (Z.land i 15 =? 0); discriminate).
  apply andb_true_iff in H1 as [Hb1 H1], H2 as [Hb2 H2].
  destruct (mem_cell_inj i b1 b2 _ _ Hb1 Hb2 E) as [-> E']. f_equal. exact (IH _ _ H1 H2 E').
Qed.

Lemma arr_get_out {A} (a : list A) (i : Z) :
  Z.of_nat (List.length a) <= i -> arr_get a i = Fault.
Proof.
  intros H. unfold arr_get. replace (i <? Z.of_nat (List.length a)) with false
    by (symmetry; apply Z.ltb_ge; lia). now rewrite andb_false_r.
Qed.

Lemma print_mem_loop_fault (m : list Z) (nm i : Z) (n : nat) :
  0 <= i <= Z.of_nat (List.length m) -> Z.of_nat (List.length m) < nm ->
  (Z.to_nat (nm - i) <= n)%nat -> print_mem_loop m nm i n = Fault.
Proof.
  revert i; induction n as [|n IH]; intros i Hi Hnm Hn; [lia |]. cbn [print_mem_loop].
  replace (i <? nm) with true by (symmetry; apply Z.ltb_lt; lia).
  destruct (Z.eq_dec i (Z.of_nat (List.length m))) as [-> | Hne].
  - now rewrite arr_get_out by lia.
  - destruct (arr_get_nth m i ltac:(lia)) as (b & -> & _). cbn [obind].
    destruct (Z.land i 15 =? 0); rewrite ?sprintf_row, ?sprintf_byte; cbn [obind];
      now rewrite IH by lia.
Qed.

(** The memory dump, as the cells the loop prints. *)
Lemma print_memory_cells (st : state_t F) (nm : Z) :
  nm <= Z.of_nat (List.length (mem st)) ->
  print_memory st nm =
  Done ("Memory" ++ NL ++ TAB ++ "Address" ++ TAB ++ TAB ++ "Data" ++
        cells_of 0 (firstn (Z.to_nat nm) (mem st)) ++ NL).
Proof.
  intros H. unfold print_memory.
  rewrite print_mem_loop_cells by lia. rewrite Z.sub_0_r. reflexivity.
Qed.

Lemma arr_get_quad {A} (a : list A) (i : Z) :
  0 <= i -> i + 4 <= Z.of_nat (List.length a) ->
  exists r0 r1 r2 r3, arr_get a i = Done r0 /\ arr_get a (i + 1) = Done r1 /\
    arr_get a (i + 2) = Done r2 /\ arr_get a (i + 3) = Done r3 /\
    skipn (Z.to_nat i) a = r0 :: r1 :: r2 :: r3 :: skipn (Z.to_nat (i + 4)) a.
Proof.
  intros H0 H4.
  destruct (arr_get_nth a i ltac:(lia)) as (r0 & G0 & N0).
  destruct (arr_get_nth a (i + 1) ltac:(lia)) as (r1 & G1 & N1).
  destruct (arr_get_nth a (i + 2) ltac:(lia)) as (r2 & G2 & N2).
  destruct (arr_get_nth a (i + 3) ltac:(lia)) as (r3 & G3 & N3).
  exists r0, r1, r2, r3. repeat split; auto.
  rewrite (skipn_nth_error_cons _ _ _ N0).
  replace (S (Z.to_nat i)) with (Z.to_nat (i + 1)) by lia. rewrite (skipn_nth_error_cons _ _ _ N1).
  replace (S (Z.to_nat (i + 1))) with (Z.to_nat (i + 2)) by lia. rewrite (skipn_nth_error_cons _ _ _ N2).
  replace (S (Z.to_nat (i + 2))) with (Z.to_nat (i + 3)) by lia. rewrite (skipn_nth_error_cons _ _ _ N3).
  now replace (S (Z.to_nat (i + 3))) with (Z.to_nat (i + 4)) by lia.
Qed.

Lemma firstn_quad {A} (k : nat) (r0 r1 r2 r3 : A) (rest : list A) :
  firstn (4 * S k) (r0 :: r1 :: r2 :: r3 :: rest) = r0 :: r1 :: r2 :: r3 :: firstn (4 * k) rest.
Proof. now replace (4 * S k)%nat with (S (S (S (S (4 * k))))) by lia. Qed.

Lemma sprintf_reg_int (i r0 r1 r2 r3 : Z) :
  sprintf reg_int_fmt [PInt i; PInt r0; PInt (i + 1); PInt r1; PInt (i + 2); PInt r2;
                       PInt (i + 3); PInt r3] = Done (reg_int_line i r0 r1 r2 r3).
Proof. reflexivity. Qed.

Lemma sprintf_reg_fp (fmt_g : F -> string) (i : Z) (r0 r1 r2 r3 : F) :
  sprintf reg_fp_fmt [PInt i; PStr (fmt_g r0); PInt (i + 1); PStr (fmt_g r1); PInt (i + 2);
                      PStr (fmt_g r2); PInt (i + 3); PStr (fmt_g r3)] =
  Done (reg_fp_line fmt_g i r0 r1 r2 r3).
Proof.
  unfold reg_fp_line. cbn. reflexivity.
Qed.

(** A read [a[j]] of the loop body: in range it yields the element, past
    the end the dump faults. *)
Ltac get_or_fault a j :=
  destruct (Z_lt_ge_dec j (Z.of_nat (List.length a)));
  [destruct (arr_get_nth a j ltac:(lia)) as (? & -> & _); cbn [obind]
  | rewrite (arr_get_out a j) by lia; reflexivity].

Lemma print_regs_int_loop_rows (regs : list Z) (n k : nat) (i : Z) :
  0 <= i -> i + 4 * Z.of_nat k = NUMREGS -> (k <= n)%nat -> NUMREGS <= Z.of_nat (List.length regs) ->
  print_regs_int_loop regs i n = Done (reg_int_rows i (firstn (4 * k) (skipn (Z.to_nat i) regs))).
Proof.
  unfold NUMREGS. revert k i; induction n as [|n IH]; intros k i Hi Hk Hn Hlen.
  - replace k with O by lia. reflexivity.
  - cbn [print_regs_int_loop]; unfold NUMREGS. destruct k as [|k].
    + replace (i <? 32) with false by (symmetry; apply Z.ltb_ge; lia). reflexivity.
    + replace (i <? 32) with true by (symmetry; apply Z.ltb_lt; lia).
      destruct (arr_get_quad regs i) as (r0 & r1 & r2 & r3 & -> & -> & -> & -> & ->); [lia.. |].
      cbn [obind]. rewrite sprintf_reg_int, firstn_quad. cbn [obind reg_int_rows].
      rewrite (IH k (i + 4)) by lia. reflexivity.
Qed.

Lemma print_regs_int_loop_fault (regs : list Z) (n k : nat) (i : Z) :
  0 <= i <= Z.of_nat (List.length regs) -> i + 4 * Z.of_nat k = NUMREGS -> (k <= n)%nat ->
  Z.of_nat (List.length regs) < NUMREGS -> print_regs_int_loop regs i n = Fault.
Proof.
  unfold NUMREGS. revert k i; induction n as [|n IH]; intros k i Hi Hk Hn Hlen; [lia |].
  cbn [print_regs_int_loop]; unfold NUMREGS. destruct k as [|k]; [lia |].
  replace (i <? 32) with true by (symmetry; apply Z.ltb_lt; lia).
  get_or_fault regs i. get_or_fault regs (i + 1). get_or_fault regs (i + 2).
  get_or_fault regs (i + 3). rewrite sprintf_reg_int. cbn [obind].
  now rewrite (IH k (i + 4)) by lia.
Qed.

Lemma print_regs_fp_loop_rows (fmt_g : F -> string) (regs : list F) (n k : nat) (i : Z) :
  0 <= i -> i + 4 * Z.of_nat k = NUMREGS -> (k <= n)%nat -> NUMREGS <= Z.of_nat (List.length regs) ->
  print_regs_fp_loop fmt_g regs i n =
  Done (reg_fp_rows fmt_g i (firstn (4 * k) (skipn (Z.to_nat i) regs))).
Proof.
  unfold NUMREGS. revert k i; induction n as [|n IH]; intros k i Hi Hk Hn Hlen.
  - replace k with O by lia. reflexivity.
  - cbn [print_regs_fp_loop]; unfold NUMREGS. destruct k as [|k].
    + replace (i <? 32) with false by (symmetry; apply Z.ltb_ge; lia). reflexivity.
    + replace (i <? 32) with true by (symmetry; apply Z.ltb_lt; lia).
      destruct (arr_get_quad regs i) as (r0 & r1 & r2 & r3 & -> & -> & -> & -> & ->); [lia.. |].
      cbn [obind]. rewrite sprintf_reg_fp, firstn_quad. cbn [obind reg_fp_rows].
      rewrite (IH k (i + 4)) by lia. reflexivity.
Qed.

Lemma print_regs_fp_loop_fault (fmt_g : F -> string) (regs : list F) (n k : nat) (i : Z) :
  0 <= i <= Z.of_nat (List.length regs) -> i + 4 * Z.of_nat k = NUMREGS -> (k <= n)%nat ->
  Z.of_nat (List.length regs) < NUMREGS -> print_regs_fp_loop fmt_g regs i n = Fault.
Proof.
  unfold NUMREGS. revert k i; induction n as [|n IH]; intros k i Hi Hk Hn Hlen; [lia |].
  cbn [print_regs_fp_loop]; unfold NUMREGS. destruct k as [|k]; [lia |].
  replace (i <? 32) with true by (symmetry; apply Z.ltb_lt; lia).
  get_or_fault regs i. get_or_fault regs (i + 1). get_or_fault regs (i + 2).
  get_or_fault regs (i + 3). rewrite sprintf_reg_fp. cbn [obind].
  now rewrite (IH k (i + 4)) by lia.
Qed.

End DumpTheory.

(** Every functional-unit list of the state is an acyclic chain that
    [fuel] iterations cover. *)
Definition chain_within {U St : Type} `{FuKind U St} (h : fu_heap U St) (p : ptr) (fuel : nat) : Prop :=
  exists us, unit_chain h p us /\ (chain_fuel us <= fuel)%nat.

Definition fu_lists_within {F : Type} (fuel : nat) (st : state_t F) : Prop :=
  chain_within (fu_int_heap st) (fu_int_list st) fuel /\
  chain_within (fu_fp_heap st) (fu_add_list st) fuel /\
  chain_within (fu_fp_heap st) (fu_mult_list st) fuel /\
  chain_within (fu_fp_heap st) (fu_div_list st) fuel.

(** The chains the four group lists of a state head, covered by [fuel]. *)
Definition fu_chains {F : Type} (fuel : nat) (st : state_t F)
    (us1 : list (fu_int_t * list fu_int_stage_t)) (us2 us3 us4 : list (fu_fp_t * list fu_fp_stage_t)) : Prop :=
  (unit_chain (fu_int_heap st) (fu_int_list st) us1 /\ (chain_fuel us1 <= fuel)%nat) /\
  (unit_chain (fu_fp_heap st) (fu_add_list st) us2 /\ (chain_fuel us2 <= fuel)%nat) /\
  (unit_chain (fu_fp_heap st) (fu_mult_list st) us3 /\ (chain_fuel us3 <= fuel)%nat) /\
  (unit_chain (fu_fp_heap st) (fu_div_list st) us4 /\ (chain_fuel us4 <= fuel)%nat).

(** The whole dump, block by block, given the texts [g1]..[g4] of the
    four group reports. *)
Definition state_text (op_table : list op_level1_t) (NOP : Z) (n1 n2 n3 n4 : string)
    {F : Type} (fmt_g : F -> string) (st : state_t F) (nm : Z) (g1 g2 g3 g4 : string) : string :=
  "Memory" ++ NL ++ TAB ++ "Address" ++ TAB ++ TAB ++ "Data" ++
    mem_rows 0 (firstn (Z.to_nat nm) (mem st)) (Z.to_nat nm) ++ NL ++
  "Registers (integer):" ++ NL ++ reg_int_rows 0 (firstn 32 (reg_int st)) ++
  "Registers (floating point):" ++ NL ++ reg_fp_rows fmt_g 0 (firstn 32 (reg_fp st)) ++
  "pc:" ++ NL ++ TAB ++ "pc" ++ TAB ++ "0x" ++ fmt_X 8 (pc st) ++ NL ++
  "ifid:" ++ NL ++ TAB ++ "instr" ++ TAB ++ instr_text op_table NOP (if_id_instr st) ++ NL ++
  fu_header n1 ++ g1 ++ fu_header n2 ++ g2 ++ fu_header n3 ++ g3 ++ fu_header n4 ++ g4 ++
  "wb:" ++ NL ++ wb_slot_text op_table NOP (int_wb_instr st) ++
    wb_slot_text op_table NOP (fp_wb_instr st) ++ NL.

(** ** Theorems *)

Section StateTheory.

Context (op_table : list op_level1_t) (NOP : Z).
Context {F : Type}.

Lemma sprintf_fu_header (name : string) :
  sprintf ("%s fu:" ++ NL) [PStr name] = Done (fu_header name).
Proof. reflexivity. Qed.

Lemma print_pc_text (st : state_t F) :
  print_pc st = Done ("pc:" ++ NL ++ TAB ++ "pc" ++ TAB ++ "0x" ++ fmt_X 8 (pc st) ++ NL).
Proof. reflexivity. Qed.

Lemma print_wb_slot_text (w : Z) :
  wf_op_table op_table = true -> print_wb_slot op_table NOP w = Done (wb_slot_text op_table NOP w).
Proof.
  intros Hwf. unfold print_wb_slot, wb_slot_text, instr_text.
  destruct (printInstruction_wf_done op_table NOP w Hwf) as [t E].
  destruct (w =? 0); cbn [negb]; [reflexivity |]. rewrite E. reflexivity.
Qed.

Lemma chain_within_done {U St : Type} `{FuKind U St} (h : fu_heap U St) (p : ptr) (fuel : nat) :
  wf_op_table op_table = true -> chain_within h p fuel ->
  exists s, print_fu_group op_table NOP fuel h p = Done s.
Proof.
  intros Hwf (us & Hc & Hf). destruct (render_records_total op_table NOP (occupancy us) Hwf) as [s Hs].
  exists s. unfold print_fu_group. now rewrite (print_units_chain op_table NOP h p us Hc fuel Hf).
Qed.

(** C19: the memory dump.  When [num_memory] bytes exist, [print_state]
    prints its two header lines, then the bytes sixteen to a row, each row
    on a new line headed by the address of its first byte ([0x%.8X]), the
    bytes as [%.2X] separated by a blank, then a newline. *)
Theorem print_memory_rows (st : state_t F) (nm : Z) :
  nm <= Z.of_nat (List.length (mem st)) ->
  print_memory st nm =
  Done ("Memory" ++ NL ++ TAB ++ "Address" ++ TAB ++ TAB ++ "Data" ++
        mem_rows 0 (firstn (Z.to_nat nm) (mem st)) (Z.to_nat nm) ++ NL).
Proof.
  intros H. rewrite print_memory_cells by exact H.
  rewrite (cells_of_rows (Z.to_nat nm)); [reflexivity | reflexivity | rewrite length_firstn; lia].
Qed.

(** C20: the memory loop reads [state->mem[i]] for every [i < num_memory]
    with no bound check: the dump faults exactly when [num_memory] exceeds
    the memory. *)
Theorem print_memory_fault (st : state_t F) (nm : Z) :
  print_memory st nm = Fault <-> Z.of_nat (List.length (mem st)) < nm.
Proof.
  split; intros H.
  - destruct (Z_lt_ge_dec (Z.of_nat (List.length (mem st))) nm) as [| Hle]; [assumption |].
    rewrite print_memory_cells in H by lia. discriminate.
  - unfold print_memory. rewrite print_mem_loop_fault by lia. reflexivity.
Qed.

(** C21: the integer register dump prints its header and then the 32
    registers four to a line, as [x<i>=0x%.8X] separated by tabs. *)
Theorem print_regs_int_rows (st : state_t F) :
  NUMREGS <= Z.of_nat (List.length (reg_int st)) ->
  print_regs_int st = Done ("Registers (integer):" ++ NL ++ reg_int_rows 0 (firstn 32 (reg_int st))).
Proof.
  intros H. unfold print_regs_int.
  rewrite (print_regs_int_loop_rows _ _ 8 0) by (unfold NUMREGS in *; lia). reflexivity.
Qed.

(** C22: the floating-point register dump prints its header and then the
    32 registers four to a line, as [f<i>=] and the register's text. *)
Theorem print_regs_fp_rows (fmt_g : F -> string) (st : state_t F) :
  NUMREGS <= Z.of_nat (List.length (reg_fp st)) ->
  print_regs_fp fmt_g st =
  Done ("Registers (floating point):" ++ NL ++ reg_fp_rows fmt_g 0 (firstn 32 (reg_fp st))).
Proof.
  intros H. unfold print_regs_fp.
  rewrite (print_regs_fp_loop_rows _ _ _ 8 0) by (unfold NUMREGS in *; lia). reflexivity.
Qed.

(** C23: each register dump faults exactly when its register file has
    fewer than [NUMREGS] entries. *)
Theorem print_regs_fault (fmt_g : F -> string) (st : state_t F) :
  (print_regs_int st = Fault <-> Z.of_nat (List.length (reg_int st)) < NUMREGS) /\
  (print_regs_fp fmt_g st = Fault <-> Z.of_nat (List.length (reg_fp st)) < NUMREGS).
Proof.
  unfold print_regs_int, print_regs_fp. split; split; intros H.
  - destruct (Z_lt_ge_dec (Z.of_nat (List.length (reg_int st))) NUMREGS) as [| Hle]; [assumption |].
    rewrite (print_regs_int_loop_rows _ _ 8 0) in H by (unfold NUMREGS in *; lia). discriminate.
  - rewrite (print_regs_int_loop_fault _ _ 8 0) by (unfold NUMREGS in *; lia). reflexivity.
  - destruct (Z_lt_ge_dec (Z.of_nat (List.length (reg_fp st))) NUMREGS) as [| Hle]; [assumption |].
    rewrite (print_regs_fp_loop_rows _ _ _ 8 0) in H by (unfold NUMREGS in *; lia). discriminate.
  - rewrite (print_regs_fp_loop_fault _ _ _ 8 0) by (unfold NUMREGS in *; lia). reflexivity.
Qed.

(** C24: [print_state] terminates without fault when the memory holds
    [num_memory] bytes, both register files hold [NUMREGS] registers, the
    decode table is well formed, and every functional-unit list is an
    acyclic chain covered by the fuel. *)
Theorem print_state_total (n1 n2 n3 n4 : string) (fmt_g : F -> string) (fuel : nat)
    (st : state_t F) (nm : Z) :
  wf_op_table op_table = true -> nm <= Z.of_nat (List.length (mem st)) ->
  NUMREGS <= Z.of_nat (List.length (reg_int st)) -> NUMREGS <= Z.of_nat (List.length (reg_fp st)) ->
  fu_lists_within fuel st ->
  exists s, print_state op_table NOP n1 n2 n3 n4 fmt_g fuel st nm = Done s.
Proof.
  intros Hwf Hm Hi Hf (C1 & C2 & C3 & C4).
  destruct (chain_within_done _ _ _ Hwf C1) as [g1 E1], (chain_within_done _ _ _ Hwf C2) as [g2 E2],
    (chain_within_done _ _ _ Hwf C3) as [g3 E3], (chain_within_done _ _ _ Hwf C4) as [g4 E4].
  destruct (printInstruction_wf_done op_table NOP (if_id_instr st) Hwf) as [t Et].
  unfold print_state, print_regs_int, print_regs_fp, print_ifid, print_fu_groups, print_wb,
    print_fu_group_int, print_fu_group_fp.
  rewrite print_memory_cells by exact Hm.
  rewrite (print_regs_int_loop_rows _ _ 8 0), (print_regs_fp_loop_rows _ _ _ 8 0)
    by (unfold NUMREGS in *; lia).
  rewrite Et, E1, E2, E3, E4, !sprintf_fu_header, !print_wb_slot_text by exact Hwf.
  eexists. reflexivity.
Qed.

(** C25: round trip of the memory dump.  When the dumped cells hold
    [unsigned char] values, the text of [print_memory] determines them:
    two memories that print alike agree on their first [num_memory]
    bytes. *)
Theorem print_memory_lossless (st1 st2 : state_t F) (nm : Z) :
  nm <= Z.of_nat (List.length (mem st1)) -> nm <= Z.of_nat (List.length (mem st2)) ->
  forallb is_byte (firstn (Z.to_nat nm) (mem st1)) = true ->
  forallb is_byte (firstn (Z.to_nat nm) (mem st2)) = true ->
  print_memory st1 nm = print_memory st2 nm ->
  firstn (Z.to_nat nm) (mem st1) = firstn (Z.to_nat nm) (mem st2).
Proof.
  intros L1 L2 B1 B2 E. rewrite !print_memory_cells in E by assumption.
  injection E as E. repeat apply sappend_cancel_l in E. apply sappend_cancel_r in E.
  exact (cells_of_inj 0 _ _ B1 B2 E).
Qed.

(** C28: refinement of the whole dump.  When the memory holds
    [num_memory] bytes, both register files hold [NUMREGS] registers, the
    decode table is well formed and the four group lists are chains
    covered by the fuel, [print_state] prints [state_text]: the memory
    rows, the register lines, the pc, the IF/ID instruction, the four
    occupancy reports and the write-back line, in this order. *)
Theorem print_state_refines (n1 n2 n3 n4 : string) (fmt_g : F -> string) (fuel : nat)
    (st : state_t F) (nm : Z) (us1 : list (fu_int_t * list fu_int_stage_t))
    (us2 us3 us4 : list (fu_fp_t * list fu_fp_stage_t)) :
  wf_op_table op_table = true -> nm <= Z.of_nat (List.length (mem st)) ->
  NUMREGS <= Z.of_nat (List.length (reg_int st)) -> NUMREGS <= Z.of_nat (List.length (reg_fp st)) ->
  fu_chains fuel st us1 us2 us3 us4 ->
  print_state op_table NOP n1 n2 n3 n4 fmt_g fuel st nm =
  (g1 <- render_records op_table NOP (occupancy us1) ;;
   g2 <- render_records op_table NOP (occupancy us2) ;;
   g3 <- render_records op_table NOP (occupancy us3) ;;
   g4 <- render_records op_table NOP (occupancy us4) ;;
   Done (state_text op_table NOP n1 n2 n3 n4 fmt_g st nm g1 g2 g3 g4)).
Proof.
  intros Hwf Hm Hi Hf ((C1 & F1) & (C2 & F2) & (C3 & F3) & (C4 & F4)).
  destruct (printInstruction_wf_done op_table NOP (if_id_instr st) Hwf) as [t Et].
  unfold print_state, print_regs_int, print_regs_fp, print_ifid, print_fu_groups, print_wb,
    print_fu_group_int, print_fu_group_fp, print_fu_group, state_text, instr_text.
  rewrite print_memory_cells by exact Hm.
  rewrite (cells_of_rows (Z.to_nat nm)); [| reflexivity | rewrite length_firstn; lia].
  rewrite (print_regs_int_loop_rows _ _ 8 0), (print_regs_fp_loop_rows _ _ _ 8 0)
    by (unfold NUMREGS in *; lia).
  rewrite (print_units_chain op_table NOP _ _ _ C1 fuel F1), (print_units_chain op_table NOP _ _ _ C2 fuel F2),
    (print_units_chain op_table NOP _ _ _ C3 fuel F3), (print_units_chain op_table NOP _ _ _ C4 fuel F4).
  rewrite Et, !sprintf_fu_header, !print_wb_slot_text, print_pc_text by exact Hwf.
  rewrite !sprintf_literal by reflexivity. cbn [obind].
  destruct (render_records op_table NOP (occupancy us1)) as [g1| |]; cbn [obind]; [| reflexivity..].
  destruct (render_records op_table NOP (occupancy us2)) as [g2| |]; cbn [obind]; [| reflexivity..].
  destruct (render_records op_table NOP (occupancy us3)) as [g3| |]; cbn [obind]; [| reflexivity..].
  destruct (render_records op_table NOP (occupancy us4)) as [g4| |]; cbn [obind]; [| reflexivity..].
  f_equal. rewrite ?sappend_assoc. reflexivity.
Qed.

End StateTheory.

(** ** A concrete machine state *)

Definition ex_fp_heap : fu_heap fu_fp_t fu_fp_stage_t := {| units := ∅; stages := ∅ |}.

(** Eighteen bytes of memory, [x<i> = i], [f<i> = 2 i], an [add] in IF/ID
    and in the integer write-back slot, a [lw] in the floating-point one,
    and the integer unit of [Occupancy.ex_heap]. *)
Definition ex_state : state_t Z :=
  {| mem := map Z.of_nat (seq 0 18);
     reg_int := map Z.of_nat (seq 0 32);
     reg_fp := map (fun k => 2 * Z.of_nat k) (seq 0 32);
     pc := 8;
     if_id_instr := ex_add;
     fu_int_list := Some 1%positive;
     fu_add_list := None; fu_mult_list := None; fu_div_list := None;
     fu_int_heap := ex_heap; fu_fp_heap := ex_fp_heap;
     int_wb_instr := ex_add;
     fp_wb_instr := encode_I 3 2 2 3 16 |}.

Lemma ex_state_fu_lists : fu_lists_within 4 ex_state.
Proof.
  split; [exists [(ex_unit, ex_stage_list)]; split; [exact ex_heap_chain | cbn; lia] |].
  split; [|split]; exists []; split; [apply unit_chain_nil | cbn; lia | apply unit_chain_nil | cbn; lia
    | apply unit_chain_nil | cbn; lia].
Qed.

Lemma print_memory_rows_witness :
  18 <= Z.of_nat (List.length (mem ex_state)) /\
  print_memory ex_state 18 =
  Done ("Memory" ++ NL ++ TAB ++ "Address" ++ TAB ++ TAB ++ "Data" ++
        mem_rows 0 (firstn (Z.to_nat 18) (mem ex_state)) (Z.to_nat 18) ++ NL).
Proof. split; [vm_compute; discriminate | apply print_memory_rows; vm_compute; discriminate]. Defined.

Lemma print_regs_int_rows_witness :
  NUMREGS <= Z.of_nat (List.length (reg_int ex_state)) /\
  print_regs_int ex_state =
  Done ("Registers (integer):" ++ NL ++ reg_int_rows 0 (firstn 32 (reg_int ex_state))).
Proof. split; [vm_compute; discriminate | apply print_regs_int_rows; vm_compute; discriminate]. Defined.

Lemma print_regs_fp_rows_witness :
  NUMREGS <= Z.of_nat (List.length (reg_fp ex_state)) /\
  print_regs_fp fmt_d ex_state =
  Done ("Registers (floating point):" ++ NL ++ reg_fp_rows fmt_d 0 (firstn 32 (reg_fp ex_state))).
Proof. split; [vm_compute; discriminate | apply print_regs_fp_rows; vm_compute; discriminate]. Defined.

Lemma print_state_total_witness :
  exists s, print_state rv32_op_table rv32_NOP "int" "add" "mult" "div" fmt_d 4 ex_state 18 = Done s.
Proof.
  apply print_state_total; [vm_compute; reflexivity | vm_compute; discriminate | vm_compute; discriminate
    | vm_compute; discriminate | exact ex_state_fu_lists].
Defined.

(** The dump of [ex_state], as output.c prints it: two rows of memory,
    the first register line, and both write-back slots on one line. *)
Example print_state_example :
  print_memory ex_state 18 =
    Done ("Memory" ++ NL ++ TAB ++ "Address" ++ TAB ++ TAB ++ "Data" ++
          NL ++ TAB ++ "0x00000000" ++ TAB ++ "00 01 02 03 04 05 06 07 08 09 0A 0B 0C 0D 0E 0F" ++
          NL ++ TAB ++ "0x00000010" ++ TAB ++ "10 11" ++ NL) /\
  reg_int_line 0 0 1 2 3 =
    TAB ++ "x0=0x00000000" ++ TAB ++ "x1=0x00000001" ++ TAB ++ "x2=0x00000002" ++
    TAB ++ "x3=0x00000003" ++ NL /\
  print_wb rv32_op_table rv32_NOP ex_state =
    Done ("wb:" ++ NL ++ TAB ++ TAB ++ "add x5 x6 x7" ++ TAB ++ TAB ++ "lw x2 (16)x3" ++ NL).
Proof. repeat split; vm_compute; reflexivity. Qed.

Lemma print_memory_lossless_witness :
  firstn (Z.to_nat 18) (mem ex_state) = firstn (Z.to_nat 18) (mem ex_state).
Proof.
  apply (print_memory_lossless ex_state ex_state 18); [vm_compute; discriminate | vm_compute; discriminate
    | vm_compute; reflexivity | vm_compute; reflexivity | reflexivity].
Defined.

(** A cell holding a negative value (a [signed char] at or above 0x80)
    is converted to an [unsigned int] and printed with eight digits. *)
Example print_signed_byte : mem_cell 1 (-128) = " FFFFFF80".
Proof. vm_compute. reflexivity. Qed.


Lemma print_state_refines_witness :
  print_state rv32_op_table rv32_NOP "int" "add" "mult" "div" fmt_d 4 ex_state 18 =
  (g1 <- render_records rv32_op_table rv32_NOP (occupancy [(ex_unit, ex_stage_list)]) ;;
   g2 <- render_records rv32_op_table rv32_NOP (occupancy (@nil (fu_fp_t * list fu_fp_stage_t))) ;;
   g3 <- render_records rv32_op_table rv32_NOP (occupancy (@nil (fu_fp_t * list fu_fp_stage_t))) ;;
   g4 <- render_records rv32_op_table rv32_NOP (occupancy (@nil (fu_fp_t * list fu_fp_stage_t))) ;;
   Done (state_text rv32_op_table rv32_NOP "int" "add" "mult" "div" fmt_d ex_state 18 g1 g2 g3 g4)).
Proof.
  apply print_state_refines; [vm_compute; reflexivity | vm_compute; discriminate | vm_compute; discriminate
    | vm_compute; discriminate |].
  split; [split; [exact ex_heap_chain | cbn; lia] |].
  split; [|split]; split; [apply unit_chain_nil | cbn; lia | apply unit_chain_nil | cbn; lia
    | apply unit_chain_nil | cbn; lia].
Defined.
