(* ===== verification/Formats.v ===== *)
(** * The floating-point register dump with [%-10.6g]

    [State] writes the dump of output.c 43-49 over an abstract
    conversion [fmt_g] of a register; this file instantiates it with
    [Gfmt.fmt_g], the model of printf's [%-10.6g] on binary64 values, and
    shows on thirty-two doubles that the first line is what glibc prints.
    [print_regs_fp_g] combines [State]'s row lemma with the width bounds
    of [Gfmt]: every register's text takes ten to thirteen characters. *)

From Stdlib Require Import ZArith List String Ascii Lia SpecFloat.
From S2P Require Import Prelude Format Gfmt Occupancy State.
Import ListNotations.
Open Scope string_scope.
Open Scope Z_scope.

(** Thirty-two doubles [k / 4], in their binary64 encoding. *)
Definition ex_fp_regs : list spec_float :=
  [S754_zero false;
     S754_finite false 4503599627370496 (-54);
     S754_finite false 4503599627370496 (-53);
     S754_finite false 6755399441055744 (-53);
     S754_finite false 4503599627370496 (-52);
     S754_finite false 5629499534213120 (-52);
     S754_finite false 6755399441055744 (-52);
     S754_finite false 7881299347898368 (-52);
     S754_finite false 4503599627370496 (-51);
     S754_finite false 5066549580791808 (-51);
     S754_finite false 5629499534213120 (-51);
     S754_finite false 6192449487634432 (-51);
     S754_finite false 6755399441055744 (-51);
     S754_finite false 7318349394477056 (-51);
     S754_finite false 7881299347898368 (-51);
     S754_finite false 8444249301319680 (-51);
     S754_finite false 4503599627370496 (-50);
     S754_finite false 4785074604081152 (-50);
     S754_finite false 5066549580791808 (-50);
     S754_finite false 5348024557502464 (-50);
     S754_finite false 5629499534213120 (-50);
     S754_finite false 5910974510923776 (-50);
     S754_finite false 6192449487634432 (-50);
     S754_finite false 6473924464345088 (-50);
     S754_finite false 6755399441055744 (-50);
     S754_finite false 7036874417766400 (-50);
     S754_finite false 7318349394477056 (-50);
     S754_finite false 7599824371187712 (-50);
     S754_finite false 7881299347898368 (-50);
     S754_finite false 8162774324609024 (-50);
     S754_finite false 8444249301319680 (-50);
     S754_finite false 8725724278030336 (-50)].

Definition ex_fp_state : state_t spec_float :=
  {| mem := mem ex_state; reg_int := reg_int ex_state; reg_fp := ex_fp_regs; pc := pc ex_state;
     if_id_instr := if_id_instr ex_state; fu_int_list := fu_int_list ex_state;
     fu_add_list := fu_add_list ex_state; fu_mult_list := fu_mult_list ex_state;
     fu_div_list := fu_div_list ex_state; fu_int_heap := fu_int_heap ex_state;
     fu_fp_heap := fu_fp_heap ex_state; int_wb_instr := int_wb_instr ex_state;
     fp_wb_instr := fp_wb_instr ex_state |}.

(** The text of the floating-point register dump (output.c 43-49) with
    [%-10.6g]: the header, then the first [NUMREGS] registers four to a
    line. *)
Definition fp_dump_text (st : state_t spec_float) : string :=
  "Registers (floating point):" ++ NL ++ reg_fp_rows fmt_g 0 (firstn 32 (reg_fp st)).

(** The floating-point register dump with printf's [%-10.6g].  When
    the register file holds [NUMREGS] binary64 values, the dump prints its
    header and the registers four to a line, each register's text taking
    between ten and thirteen characters: the width 10 of the format is a
    minimum, and [%.6g] of a double never needs more than thirteen. *)
Lemma print_regs_fp_g (st : state_t spec_float) :
  NUMREGS <= Z.of_nat (List.length (reg_fp st)) ->
  forallb (valid_binary 53 1024) (reg_fp st) = true ->
  print_regs_fp fmt_g st = Done (fp_dump_text st) /\
  Forall (fun x => 10 <= String.length (fmt_g x) <= 13)%nat (reg_fp st).
Proof.
  intros Hn Hv. split.
  - unfold print_regs_fp. rewrite (print_regs_fp_loop_rows _ _ _ 8 0) by (unfold NUMREGS in *; lia).
    reflexivity.
  - apply Forall_forall. intros x Hx. apply length_fmt_g. exact (proj1 (forallb_forall _ _) Hv x Hx).
Qed.

(** The first line of the dump of [ex_fp_state], as glibc prints it. *)
Example print_regs_fp_g_example :
  exists rest, print_regs_fp fmt_g ex_fp_state =
    Done ("Registers (floating point):" ++ NL ++
          TAB ++ "f0=0         " ++ TAB ++ "f1=0.25      " ++ TAB ++ "f2=0.5       " ++
          TAB ++ "f3=0.75      " ++ NL ++ rest).
Proof. eexists. vm_compute. reflexivity. Qed.

